(** * gamearchivejs: format autodetection and the F.A.S.T. .DAT handler

    A shallow embedding of [index.js] (the handler registry and
    [findHandler]), of [formats/archiveHandler.js] (the base class) and of
    [formats/arc-dat-fast.js] (the F.A.S.T. engine .DAT handler), followed
    by the properties of the specification stated over that embedding.

    JavaScript values are an inductive type, a [Uint8Array] is a list of
    bytes, a JavaScript string is a [string], integers are [Z], and code
    that can throw returns a [result]. *)

From Stdlib Require Import ZArith List Ascii Bool Lia.
From Stdlib.Strings Require Import String Byte.
From Stdlib Require Import DecimalString.
Import ListNotations.

Open Scope string_scope.
Open Scope list_scope.
Open Scope Z_scope.

(** ** Exceptions *)

Inductive exn :=
| Error (msg : string)
| TypeError (msg : string)
| RangeError (msg : string).

Inductive result (A : Type) :=
| Ok (a : A)
| Throw (e : exn).

Arguments Ok {A} a.
Arguments Throw {A} e.

Definition bind {A B : Type} (c : result A) (k : A -> result B) : result B :=
  match c with
  | Ok a => k a
  | Throw e => Throw e
  end.

Notation "x <- c ;; k" := (bind c (fun x => k))
  (at level 61, c at next level, right associativity).
Notation "' p <- c ;; k" := (bind c (fun x => match x with p => k end))
  (at level 61, p pattern, c at next level, right associativity).

(** ** JavaScript values *)

#[warnings="-register-all"]
Inductive jsval :=
| JUndefined
| JNull
| JBool (b : bool)
| JNum (n : Z)
| JStr (s : string)
| JUint8Array (bytes : list byte)
| JObject (props : list (string * jsval)).

Fixpoint lookup_prop (key : string) (props : list (string * jsval)) : jsval :=
  match props with
  | [] => JUndefined
  | (k, v) :: rest => if String.eqb k key then v else lookup_prop key rest
  end.

(** [v.key] for the keys this library reads ([length], [valid], [reason]).
    Reading a property of [undefined] or [null] is a [TypeError]; a boolean
    or a number has none of these properties; a string and a typed array
    have a [length]. *)
Definition get_prop (v : jsval) (key : string) : result jsval :=
  match v with
  | JUndefined | JNull =>
      Throw (TypeError ("Cannot read properties of undefined (reading '" ++ key ++ "')")%string)
  | JBool _ | JNum _ => Ok JUndefined
  | JStr s => Ok (if String.eqb key "length" then JNum (Z.of_nat (String.length s)) else JUndefined)
  | JUint8Array bytes =>
      Ok (if String.eqb key "length" then JNum (Z.of_nat (List.length bytes)) else JUndefined)
  | JObject props => Ok (lookup_prop key props)
  end.

(** [v === true] and [v === undefined]. *)
Definition is_true (v : jsval) : bool :=
  match v with JBool true => true | _ => false end.

Definition is_undefined (v : jsval) : bool :=
  match v with JUndefined => true | _ => false end.

(** A JavaScript number that may be [NaN]. *)
Inductive jsnum :=
| Num (z : Z)
| NaN.

(** ** Strings *)

Definition chars (s : string) : list ascii := list_ascii_of_string s.

Definition charCode (c : ascii) : Z := Z.of_N (N_of_ascii c).

(** [String.prototype.toLowerCase] on 8-bit code units: A-Z, and the
    Latin-1 capitals U+00C0..U+00DE except the multiplication sign. *)
Definition toLowerCase_char (c : ascii) : ascii :=
  let n := N_of_ascii c in
  if ((65 <=? n) && (n <=? 90))%N then ascii_of_N (n + 32)
  else if ((192 <=? n) && (n <=? 222) && negb (n =? 215))%N then ascii_of_N (n + 32)
  else c.

Definition toLowerCase (s : string) : string :=
  string_of_list_ascii (map toLowerCase_char (chars s)).

(** [s.substr(-n)]: the last [n] code units, the whole string when it is
    shorter. *)
Definition substr_last (n : nat) (s : string) : string :=
  string_of_list_ascii (skipn (String.length s - n) (chars s)).

(** [s.substr(0, len)]; a negative [len] gives the empty string. *)
Definition substr_first (len : Z) (s : string) : string :=
  string_of_list_ascii (firstn (Z.to_nat len) (chars s)).

(** ** The byte cursor *)

Module RecordBuffer.

(** Modelled from the spec: the byte cursor of the external package
    record-io-buffer, which is not under src/: a sequential reader and
    writer over a byte buffer with typed fixed-width reads and writes,
    relative seeks and a distance-to-end query. *)
Record t := mk { buffer : list byte; pos : Z }.

Definition new (content : list byte) : t := {| buffer := content; pos := 0 |}.

Definition length (rb : t) : Z := Z.of_nat (List.length (buffer rb)).

Definition distFromEnd (rb : t) : Z := length rb - pos rb.

(** The cursor [offset] bytes further on, where a read or a write leaves
    it. *)
Definition advance (rb : t) (offset : Z) : t :=
  {| buffer := buffer rb; pos := pos rb + offset |}.

(** [seekRel(offset)]: a seek past the end of the data stops at the end.
    The handlers seek forward only. *)
Definition seekRel (rb : t) (offset : Z) : t :=
  {| buffer := buffer rb; pos := Z.min (pos rb + offset) (length rb) |}.

Definition slice (bytes : list byte) (offset len : Z) : list byte :=
  firstn (Z.to_nat len) (skipn (Z.to_nat offset) bytes).

(** [getU8(offset, len)]: the bytes [offset .. offset+len) of the buffer;
    a range outside the buffer is a [RangeError]. A [len] of 0 counts as
    none given and stands for the length of the whole buffer, so that a
    view of no bytes can be had at offset 0 of an empty buffer only. *)
Definition getU8 (rb : t) (offset len : Z) : result (list byte) :=
  let len := if len =? 0 then length rb else len in
  if (0 <=? offset) && (0 <=? len) && (offset + len <=? length rb)
  then Ok (slice (buffer rb) offset len)
  else Throw (RangeError "Invalid typed array length").

(** Take [len] bytes at the cursor and advance it. *)
Definition take (rb : t) (len : Z) : result (list byte * t) :=
  if (0 <=? pos rb) && (pos rb + len <=? length rb)
  then Ok (slice (buffer rb) (pos rb) len, advance rb len)
  else Throw (RangeError "Offset is outside the bounds of the DataView").

Definition byte_val (b : byte) : Z := Z.of_N (Byte.to_N b).

Definition byte_of_Z (z : Z) : byte :=
  match Byte.of_N (Z.to_N (z mod 256)) with
  | Some b => b
  | None => x00
  end.

(** [RecordType.int.u16le] *)
Definition u16le_decode (bytes : list byte) : Z :=
  match bytes with
  | [lo; hi] => Z.lor (byte_val lo) (Z.shiftl (byte_val hi) 8)
  | _ => 0
  end.

Definition u16le_encode (z : Z) : list byte :=
  [byte_of_Z (Z.land z 255); byte_of_Z (Z.land (Z.shiftr z 8) 255)].

Definition read_u16le (rb : t) : result (Z * t) :=
  '(bytes, rb') <- take rb 2 ;; Ok (u16le_decode bytes, rb').

(** [RecordType.string.fixed.reqTerm(len)]: a field of [len] bytes holding
    the characters before the first NUL. *)
Fixpoint until_nul (bytes : list byte) : list byte :=
  match bytes with
  | [] => []
  | b :: rest => if Byte.eqb b x00 then [] else b :: until_nul rest
  end.

Definition string_decode (bytes : list byte) : string :=
  string_of_list_ascii (map ascii_of_byte (until_nul bytes)).

Definition string_reqTerm_encode (len : nat) (s : string) : list byte :=
  let body := firstn (len - 1) (until_nul (map byte_of_ascii (chars s))) in
  body ++ repeat x00 (len - List.length body).

Definition read_string_reqTerm (len : nat) (rb : t) : result (string * t) :=
  '(bytes, rb') <- take rb (Z.of_nat len) ;; Ok (string_decode bytes, rb').

(** Write [data] at the cursor, over what is there and past the end. *)
Definition put (rb : t) (data : list byte) : t :=
  let before := firstn (Z.to_nat (pos rb)) (buffer rb) in
  let after := skipn (Z.to_nat (pos rb) + List.length data) (buffer rb) in
  {| buffer := before ++ data ++ after;
     pos := pos rb + Z.of_nat (List.length data) |}.

(** [new RecordBuffer(size)]: an empty buffer with [size] bytes reserved;
    a negative size is refused by [ArrayBuffer]. *)
Definition alloc (size : Z) : result t :=
  if size <? 0 then Throw (RangeError "Array buffer allocation failed")
  else Ok {| buffer := []; pos := 0 |}.

End RecordBuffer.

(** ** The compression collaborator *)

Module GameCompression.

(** The parameter object handed to the LZW transform. *)
Record cmpParams := {
  initialBits : Z;
  maxBits : Z;
  cwEOF : Z;
  cwFirst : Z;
  bigEndian : bool;
  flushOnReset : bool;
  finalSize : option jsnum;
}.

(** A handler of the external package gamecomp: [reveal] decodes and
    [obscure] encodes; either may throw. The algorithms themselves are not
    part of this library, so a handler is a parameter of what follows. *)
Record Handler := {
  reveal : list byte -> option cmpParams -> result (list byte);
  obscure : list byte -> option cmpParams -> result (list byte);
}.

End GameCompression.

(** ** The archive model *)

Module Archive.

Record Attributes := {
  compressed : option bool;
  encrypted : option bool;
}.

(** Modelled from the spec: the member file of formats/archive.js, which is
    not under src/. [Fields] are the data properties of an [Archive.File];
    [None] stands for [undefined]. *)
Record Fields := {
  name : string;
  type : option string;
  diskSize : Z;
  offset : Z;
  nativeSize : option Z;
  attributes : Attributes;
}.

(** Modelled from the spec: an [Archive.File] of formats/archive.js with its
    two lazy accessors. An accessor is a closure over the file object, so it
    receives the fields the object has when it is called. *)
Record File := {
  fields : Fields;
  getRaw : Fields -> result (list byte);
  getContent : Fields -> result (list byte);
}.

(** Modelled from the spec: the [getContent] an [Archive.File] of
    formats/archive.js has until a handler replaces it; it hands back
    [getRaw()], the logical bytes of a file that no transform applies to. *)
Definition default_getContent (getRaw : Fields -> result (list byte))
    : Fields -> result (list byte) :=
  fun file => getRaw file.

(** [file.getRaw()] and [file.getContent()]. *)
Definition call_getRaw (file : File) : result (list byte) :=
  getRaw file (fields file).

Definition call_getContent (file : File) : result (list byte) :=
  getContent file (fields file).

(** Modelled from the spec: an [Archive] of formats/archive.js, an ordered
    list of member files. *)
Record t := { files : list File }.

End Archive.

(** [Uint8Array.prototype.slice(0, end)] *)
Definition Uint8Array_slice0 (data : list byte) (stop : option Z) : list byte :=
  match stop with
  | None => data
  | Some e =>
      if e <? 0 then firstn (Z.to_nat (Z.max (Z.of_nat (List.length data) + e) 0)) data
      else firstn (Z.to_nat e) data
  end.

(** ** Format handlers and the registry: index.js *)

Module GameArchive.

Record Metadata := {
  id : string;
  title : string;
  games : list string;
  glob : list string;
  caps_maxFileCount : option Z;
  caps_file_lastModified : bool;
  caps_file_attributes_compressed : bool;
  caps_file_attributes_encrypted : bool;
  caps_file_maxFilenameLen : option Z;
}.

(** A format handler as [findHandler] uses it: its metadata and its
    [identify(content, filename)]. *)
Record ArchiveHandler := {
  metadata : Metadata;
  identify : jsval -> jsval -> jsval;
}.

(** What [findHandler] does besides returning: the lines it sends to
    [debug], and the calls it makes to a handler's [identify]. *)
Inductive event :=
| Debug_autodetecting
| Debug_matched (id : string) (reason : jsval)
| Debug_possible (id : string) (reason : jsval)
| Debug_not (id : string) (reason : jsval)
| Call_identify (id : string).

Section Registry.

(** The list [fileTypes] of the registered handlers, in priority order. *)
Variable fileTypes : list ArchiveHandler.

Definition listHandlers : list ArchiveHandler := fileTypes.

Definition getHandler (type : string) : option ArchiveHandler :=
  find (fun x => String.eqb type (id (metadata x))) fileTypes.

(** The [for (const x of fileTypes)] loop of [findHandler]: [rest] are the
    handlers still to try and [handlers] the candidates so far. *)
Fixpoint findHandler_loop (content filename : jsval) (rest handlers : list ArchiveHandler)
    (log : list event) : list event * result (list ArchiveHandler) :=
  match rest with
  | [] => (log, Ok handlers)
  | x :: rest' =>
      let md := metadata x in
      let confidence := identify x content filename in
      let log := log ++ [Call_identify (id md)] in
      match (valid <- get_prop confidence "valid" ;;
             reason <- get_prop confidence "reason" ;;
             Ok (valid, reason)) with
      | Throw e => (log, Throw e)
      | Ok (valid, reason) =>
          if is_true valid then
            (log ++ [Debug_matched (id md) reason], Ok [x])
          else if is_undefined valid then
            findHandler_loop content filename rest' (handlers ++ [x])
              (log ++ [Debug_possible (id md) reason])
          else
            findHandler_loop content filename rest' handlers
              (log ++ [Debug_not (id md) reason])
      end
  end.

Definition findHandler_run (content filename : jsval)
    : list event * result (list ArchiveHandler) :=
  let log := [Debug_autodetecting] in
  match get_prop content "length" with
  | Throw e => (log, Throw e)
  | Ok len =>
      if is_undefined len then
        (log, Throw (Error "content parameter must be Uint8Array"))
      else findHandler_loop content filename fileTypes [] log
  end.

(** The value [findHandler(content, filename)] returns or throws. *)
Definition findHandler (content filename : jsval) : result (list ArchiveHandler) :=
  snd (findHandler_run content filename).

(** The handlers whose [identify] was called, in order. *)
Definition consulted (log : list event) : list string :=
  flat_map (fun ev => match ev with Call_identify i => [i] | _ => [] end) log.

End Registry.

End GameArchive.

(** ** The base class: formats/archiveHandler.js *)

Module ArchiveHandler.

Definition metadata : GameArchive.Metadata := {|
  GameArchive.id := "unknown";
  GameArchive.title := "Unknown format";
  GameArchive.games := [];
  GameArchive.glob := [];
  GameArchive.caps_maxFileCount := None;
  GameArchive.caps_file_lastModified := false;
  GameArchive.caps_file_attributes_compressed := false;
  GameArchive.caps_file_attributes_encrypted := false;
  GameArchive.caps_file_maxFilenameLen := None;
|}.

Definition identify (content filename : jsval) : jsval :=
  JObject [
    ("valid", JBool false);
    ("reason", JStr ("The identify() function has not been implemented by the format "
                     ++ "handler, so autodetecting this format is not possible.")%string)
  ].

(** A number in a template literal, for the integers this code prints. *)
Definition decimal (z : Z) : string := NilZero.string_of_int (Z.to_int z).

(** Modelled from the spec: [Debug] in archiveHandler.js is the default
    export of util/debug.js, which is not under src/. It is a logger
    instance, the one [Debug.extend] is called on; such an instance has no
    method [warn], so the call [Debug.warn(...)] is a [TypeError]. *)
Definition Debug_warn (message : string) : result unit :=
  Throw (TypeError "Debug.warn is not a function").

(** The third loop of [checkLimits]: a file whose [nativeSize] is 0 has its
    content fetched, and a warning goes to [Debug.warn] when there is any. *)
Fixpoint warn_unset_nativeSize (files : list Archive.File) : result unit :=
  match files with
  | [] => Ok tt
  | file :: rest =>
      match Archive.nativeSize (Archive.fields file) with
      | Some 0 =>
          content <- Archive.call_getContent file ;;
          if negb (Z.of_nat (List.length content) =? 0) then
            _ <- Debug_warn
                   ("File " ++ Archive.name (Archive.fields file)
                    ++ " has nativeSize unset but content is "
                    ++ decimal (Z.of_nat (List.length content))
                    ++ " bytes.  This will cause slow memory "
                    ++ "reallocations during archive writes and should be fixed if "
                    ++ "possible.")%string ;;
            warn_unset_nativeSize rest
          else warn_unset_nativeSize rest
      | _ => warn_unset_nativeSize rest
      end
  end.

(** [checkLimits(archive)] of a handler whose [metadata()] is [md]: the
    issues returned. *)
Definition checkLimits (md : GameArchive.Metadata) (archive : Archive.t)
    : result (list string) :=
  let files := Archive.files archive in
  let count := Z.of_nat (List.length files) in
  let issues_count :=
    match GameArchive.caps_maxFileCount md with
    | Some max =>
        if negb (max =? 0) && (max <? count) then
          [("There are " ++ decimal count ++ " files to save, but this "
            ++ "archive format can only store up to " ++ decimal max ++ " files.")%string]
        else []
    | None => []
    end in
  let issues_names :=
    match GameArchive.caps_file_maxFilenameLen md with
    | Some max =>
        flat_map
          (fun file =>
             let len := Z.of_nat (String.length (Archive.name (Archive.fields file))) in
             if max <? len then
               [("Filename length is " ++ decimal len ++ ", max is "
                 ++ decimal max ++ ": " ++ Archive.name (Archive.fields file))%string]
             else [])
          files
    | None => []
    end in
  _ <- warn_unset_nativeSize files ;;
  Ok (issues_count ++ issues_names).

Definition supps (name content : jsval) : jsval := JNull.

(** [parse] and [generate] of the base class. *)
Definition parse (content : jsval) : result Archive.t :=
  Throw (Error "Not implemented yet.").

Definition generate (archive : Archive.t) : result jsval :=
  Throw (Error "Not implemented yet.").

End ArchiveHandler.

(** ** The F.A.S.T. .DAT handler: formats/arc-dat-fast.js *)

Module Archive_DAT_FAST.

Import RecordBuffer.

Definition FORMAT_ID : string := "arc-dat-fast".

(** A record read or written with [recordTypes.fatEntry]. *)
Record fatEntry := {
  typeCode : Z;
  compressedSize : Z;
  name : string;
  decompressedSize : Z;
}.

Definition FATENTRY_LEN : Z := 37.

(** Safety limit, actual format is unlimited. *)
Definition MAX_FILES : nat := 1024.

(** The table [FASTTypes], in the order [Object.keys] lists its keys. *)
Definition FASTTypes : list (Z * (string * option string)) := [
  (0, (".mif", Some "map/fast-info"));
  (1, (".mbg", Some "map/fast-bg"));
  (2, (".mfg", Some "map/fast-fg"));
  (3, (".tbg", Some "tileset/fast-4p"));
  (4, (".tfg", Some "tileset/fast-5p"));
  (5, (".tbn", Some "tileset/fast-5p"));
  (6, (".sgl", Some "map/fast-spritelist"));
  (7, (".msp", Some "map/fast-sprites"));
  (8, ("", Some "sound/inverse"));
  (12, (".pbg", Some "data/fast-tileprops"));
  (13, (".pfg", Some "data/fast-tileprops"));
  (14, (".pal", Some "palette/ega"));
  (16, (".pbn", Some "data/fast-tileprops"));
  (32, ("", None));
  (64, (".spr", Some "image/fast-sprite"))
].

(** [FASTTypes[typeCode]] *)
Definition FASTTypes_get (code : Z) : option (string * option string) :=
  option_map snd (find (fun kv => fst kv =? code) FASTTypes).

Definition cmpDefaultParams : GameCompression.cmpParams := {|
  GameCompression.initialBits := 9;
  GameCompression.maxBits := 12;
  GameCompression.cwEOF := 256;
  GameCompression.cwFirst := 257;
  GameCompression.bigEndian := false;
  GameCompression.flushOnReset := false;
  GameCompression.finalSize := None;
|}.

Definition metadata : GameArchive.Metadata := {|
  GameArchive.id := FORMAT_ID;
  GameArchive.title := "F.A.S.T. Data File";
  GameArchive.games := ["Monster Bash"];
  GameArchive.glob := ["*.dat"];
  GameArchive.caps_maxFileCount := None;
  GameArchive.caps_file_lastModified := false;
  GameArchive.caps_file_attributes_compressed := true;
  GameArchive.caps_file_attributes_encrypted := false;
  GameArchive.caps_file_maxFilenameLen := Some 30;
|}.

(** [buffer.readRecord(recordTypes.fatEntry)] *)
Definition readRecord (buffer : RecordBuffer.t) : result (fatEntry * RecordBuffer.t) :=
  '(tc, b1) <- read_u16le buffer ;;
  '(cs, b2) <- read_u16le b1 ;;
  '(nm, b3) <- read_string_reqTerm 31 b2 ;;
  '(ds, b4) <- read_u16le b3 ;;
  Ok ({| typeCode := tc; compressedSize := cs; name := nm; decompressedSize := ds |}, b4).

(** [buffer.writeRecord(recordTypes.fatEntry, entry)] *)
Definition writeRecord (buffer : RecordBuffer.t) (entry : fatEntry) : RecordBuffer.t :=
  let b1 := put buffer (u16le_encode (typeCode entry)) in
  let b2 := put b1 (u16le_encode (compressedSize entry)) in
  let b3 := put b2 (string_reqTerm_encode 31 (name entry)) in
  put b3 (u16le_encode (decompressedSize entry)).

(** *** identify *)

(** The line [identify] sends to [Debug.log] before it returns. *)
Inductive log_line :=
| EOF_at_correct_place
| Incomplete_FAT_entry
| Contains_invalid_char (i : Z) (name : string)
| Would_go_past_EOF (i : Z)
| Too_many_files.

(** The test of [identify] on one character of a filename. *)
Definition invalid_char (c : ascii) : bool :=
  let cc := charCode c in
  (cc <=? 32) || (126 <? cc).

(** The loop [for (let i = 0; i < MAX_FILES; i++)] with [n] iterations
    left. *)
Fixpoint identify_loop (n : nat) (i : Z) (buffer : RecordBuffer.t)
    : result (log_line * bool) :=
  match n with
  | O => Ok (Too_many_files, false)
  | S n' =>
      let bytesLeft := distFromEnd buffer in
      if bytesLeft =? 0 then Ok (EOF_at_correct_place, true)
      else if bytesLeft <? FATENTRY_LEN then Ok (Incomplete_FAT_entry, false)
      else
        '(file, buffer) <- readRecord buffer ;;
        if existsb invalid_char (chars (name file)) then
          Ok (Contains_invalid_char i (name file), false)
        else if distFromEnd buffer <? compressedSize file then
          Ok (Would_go_past_EOF i, false)
        else identify_loop n' (i + 1) (seekRel buffer (compressedSize file))
  end.

Definition identify_log (content : list byte) : result (log_line * bool) :=
  identify_loop MAX_FILES 0 (RecordBuffer.new content).

(** [Archive_DAT_FAST.identify(content)]: the value returned is the bare
    boolean. *)
Definition identify (content : list byte) : result jsval :=
  '(_, verdict) <- identify_log content ;; Ok (JBool verdict).

Section Compression.

Variables cmpLZW cmpRLE : GameCompression.Handler.

(** *** parse *)

(** [fatEntry.nativeSize + 16]: a record has no [nativeSize] property, so
    the sum is [undefined + 16]. *)
Definition fatEntry_nativeSize_plus_16 (entry : fatEntry) : jsnum := NaN.

(** [{...cmpDefaultParams, finalSize: fatEntry.nativeSize + 16}] *)
Definition fileParams (entry : fatEntry) : GameCompression.cmpParams := {|
  GameCompression.initialBits := GameCompression.initialBits cmpDefaultParams;
  GameCompression.maxBits := GameCompression.maxBits cmpDefaultParams;
  GameCompression.cwEOF := GameCompression.cwEOF cmpDefaultParams;
  GameCompression.cwFirst := GameCompression.cwFirst cmpDefaultParams;
  GameCompression.bigEndian := GameCompression.bigEndian cmpDefaultParams;
  GameCompression.flushOnReset := GameCompression.flushOnReset cmpDefaultParams;
  GameCompression.finalSize := Some (fatEntry_nativeSize_plus_16 entry);
|}.

(** The member file [parse] builds from the record at [offset - 37]. *)
Definition make_file (content : list byte) (offset : Z) (entry : fatEntry) : Archive.File :=
  let tc := FASTTypes_get (typeCode entry) in
  let file_name :=
    match tc with
    | Some (ext, _) => (name entry ++ ext)%string
    | None => name entry
    end in
  let file_type :=
    match tc with
    | Some (_, ty) => ty
    | None => None
    end in
  let getRaw := fun file : Archive.Fields =>
    getU8 (RecordBuffer.new content) offset (Archive.diskSize file) in
  if decompressedSize entry =? 0 then
    {| Archive.fields := {|
         Archive.name := file_name;
         Archive.type := file_type;
         Archive.diskSize := compressedSize entry;
         Archive.offset := offset;
         Archive.nativeSize := Some (compressedSize entry);
         Archive.attributes :=
           {| Archive.compressed := Some false; Archive.encrypted := None |} |};
       Archive.getRaw := getRaw;
       Archive.getContent := Archive.default_getContent getRaw |}
  else
    {| Archive.fields := {|
         Archive.name := file_name;
         Archive.type := file_type;
         Archive.diskSize := compressedSize entry;
         Archive.offset := offset;
         Archive.nativeSize := Some (decompressedSize entry);
         Archive.attributes :=
           {| Archive.compressed := Some true; Archive.encrypted := None |} |};
       Archive.getRaw := getRaw;
       Archive.getContent := fun file : Archive.Fields =>
         raw <- getRaw file ;;
         unpacked <- GameCompression.reveal cmpLZW raw (Some (fileParams entry)) ;;
         decomp <- GameCompression.reveal cmpRLE unpacked None ;;
         Ok (Uint8Array_slice0 decomp (Archive.nativeSize file)) |}.

(** The loop of [parse] with [n] iterations left; [files] is
    [archive.files] so far. *)
Fixpoint parse_loop (content : list byte) (n : nat) (buffer : RecordBuffer.t)
    (nextOffset : Z) (files : list Archive.File) : result (list Archive.File) :=
  match n with
  | O => Ok files
  | S n' =>
      if distFromEnd buffer =? 0 then Ok files
      else
        '(entry, buffer) <- readRecord buffer ;;
        let offset := nextOffset in
        let file := make_file content offset entry in
        parse_loop content n' (seekRel buffer (compressedSize entry))
          (nextOffset + (compressedSize entry + FATENTRY_LEN)) (files ++ [file])
  end.

(** [parse] with the ceiling on the number of files as a parameter. *)
Definition parse_upto (max_files : nat) (content : list byte) : result Archive.t :=
  files <- parse_loop content max_files (RecordBuffer.new content) FATENTRY_LEN [] ;;
  Ok {| Archive.files := files |}.

Definition parse (content : list byte) : result Archive.t :=
  parse_upto MAX_FILES content.

(** *** generate *)

(** The type code and the stored name [generate] gives a file. *)
Definition entry_type_and_name (file_name : string) : Z * string :=
  let ext := toLowerCase (substr_last 4 file_name) in
  if String.eqb ext ".snd" then (8, file_name)
  else
    match find (fun kv => negb (String.eqb (fst (snd kv)) "")
                          && String.eqb ext (fst (snd kv))) FASTTypes with
    | Some (code, _) =>
        (code, substr_first (Z.of_nat (String.length file_name) - 4) file_name)
    | None => (32, file_name)
    end.

(** [nativeData.length != file.nativeSize] *)
Definition length_mismatch (nativeData : list byte) (nativeSize : option Z) : bool :=
  match nativeSize with
  | Some n => negb (Z.of_nat (List.length nativeData) =? n)
  | None => true
  end.

(** The body of [archive.files.forEach]. *)
Definition generate_file (buffer : RecordBuffer.t) (file : Archive.File)
    : result RecordBuffer.t :=
  let '(code, stored) := entry_type_and_name (Archive.name (Archive.fields file)) in
  nativeData <- Archive.call_getContent file ;;
  if length_mismatch nativeData (Archive.nativeSize (Archive.fields file)) then
    Throw (Error "Length of data and nativeSize field do not match!")
  else
    let size := Z.of_nat (List.length nativeData) in
    '(diskData, entry) <-
      match Archive.compressed (Archive.attributes (Archive.fields file)) with
      | Some false =>
          Ok (nativeData,
              {| typeCode := code; compressedSize := size;
                 name := stored; decompressedSize := 0 |})
      | _ =>
          packed <- GameCompression.obscure cmpRLE nativeData None ;;
          diskData <- GameCompression.obscure cmpLZW packed (Some cmpDefaultParams) ;;
          Ok (diskData,
              {| typeCode := code; compressedSize := Z.of_nat (List.length diskData);
                 name := stored; decompressedSize := size |})
      end ;;
    Ok (put (writeRecord buffer entry) diskData).

Fixpoint generate_files (buffer : RecordBuffer.t) (files : list Archive.File)
    : result RecordBuffer.t :=
  match files with
  | [] => Ok buffer
  | file :: rest =>
      buffer' <- generate_file buffer file ;;
      generate_files buffer' rest
  end.

Definition generate_finalSize (files : list Archive.File) : Z :=
  fold_left
    (fun a b => a + match Archive.nativeSize (Archive.fields b) with
                    | Some n => n
                    | None => 0
                    end)
    files (FATENTRY_LEN * Z.of_nat (List.length files)).

Definition generate (archive : Archive.t) : result (list byte) :=
  buffer <- RecordBuffer.alloc (generate_finalSize (Archive.files archive)) ;;
  buffer' <- generate_files buffer (Archive.files archive) ;;
  Ok (RecordBuffer.buffer buffer').

End Compression.

End Archive_DAT_FAST.

(** * Vocabulary of the specification *)

(** A handler reports the verdict [v] on an input: reading [.valid] of what
    its [identify] returned gives [v]. *)
Definition reports (x : GameArchive.ArchiveHandler) (content filename v : jsval) : Prop :=
  get_prop (GameArchive.identify x content filename) "valid" = Ok v.

(** The handler reports a verdict other than [true]. *)
Definition reports_no_match (content filename : jsval) (x : GameArchive.ArchiveHandler) : Prop :=
  exists v, reports x content filename v /\ v <> JBool true.

(** The handler reports [undefined], as a test. *)
Definition possible (content filename : jsval) (x : GameArchive.ArchiveHandler) : bool :=
  match get_prop (GameArchive.identify x content filename) "valid" with
  | Ok JUndefined => true
  | _ => false
  end.

(** Sample handlers: one that cannot tell, one that is certain, the base
    class as it stands, and one that returns a bare boolean. *)
Definition sample_metadata (name : string) : GameArchive.Metadata := {|
  GameArchive.id := name;
  GameArchive.title := name;
  GameArchive.games := [];
  GameArchive.glob := [];
  GameArchive.caps_maxFileCount := None;
  GameArchive.caps_file_lastModified := false;
  GameArchive.caps_file_attributes_compressed := false;
  GameArchive.caps_file_attributes_encrypted := false;
  GameArchive.caps_file_maxFilenameLen := None;
|}.

Definition handler_unsure : GameArchive.ArchiveHandler := {|
  GameArchive.metadata := sample_metadata "arc-unsure";
  GameArchive.identify := fun _ _ =>
    JObject [("valid", JUndefined); ("reason", JStr "Empty file.")];
|}.

Definition handler_certain : GameArchive.ArchiveHandler := {|
  GameArchive.metadata := sample_metadata "arc-certain";
  GameArchive.identify := fun _ _ =>
    JObject [("valid", JBool true); ("reason", JStr "Signature matched.")];
|}.

Definition handler_unimplemented : GameArchive.ArchiveHandler := {|
  GameArchive.metadata := ArchiveHandler.metadata;
  GameArchive.identify := ArchiveHandler.identify;
|}.

Definition handler_bare_false : GameArchive.ArchiveHandler := {|
  GameArchive.metadata := sample_metadata "arc-bare";
  GameArchive.identify := fun _ _ => JBool false;
|}.

(** A registered handler whose [identify] is that of the F.A.S.T. handler:
    on a buffer it gives what [Archive_DAT_FAST.identify] returns. *)
Definition answers_as_fast (x : GameArchive.ArchiveHandler) : Prop :=
  forall (bytes : list byte) (filename : jsval),
    Archive_DAT_FAST.identify bytes =
      Ok (GameArchive.identify x (JUint8Array bytes) filename).

(** The F.A.S.T. handler as the registry holds it, given on buffers;
    [Archive_DAT_FAST.identify] returns on every buffer, and what is not a
    buffer is not modelled and stands as [undefined]. *)
Definition fast_handler : GameArchive.ArchiveHandler := {|
  GameArchive.metadata := Archive_DAT_FAST.metadata;
  GameArchive.identify := fun content _ =>
    match content with
    | JUint8Array bytes =>
        match Archive_DAT_FAST.identify bytes with
        | Ok verdict => verdict
        | Throw _ => JUndefined
        end
    | _ => JUndefined
    end;
|}.

(** The layout of a container: a record, then its body, then the next
    record. [walk rb k rb'] holds when [k] records and their bodies lie
    between the cursors [rb] and [rb']. *)
Inductive walk : RecordBuffer.t -> nat -> RecordBuffer.t -> Prop :=
| walk_here (rb : RecordBuffer.t) : walk rb 0 rb
| walk_next (rb rb1 rb' : RecordBuffer.t) (entry : Archive_DAT_FAST.fatEntry) (k : nat) :
    Archive_DAT_FAST.readRecord rb = Ok (entry, rb1) ->
    walk (RecordBuffer.seekRel rb1 (Archive_DAT_FAST.compressedSize entry)) k rb' ->
    walk rb (S k) rb'.

(** Record number [k] of [content] starts at the cursor [rb]. *)
Definition record_at (content : list byte) (k : nat) (rb : RecordBuffer.t) : Prop :=
  walk (RecordBuffer.new content) k rb.

(** The printable, non-control, 7-bit ASCII range in the words of the
    specification: space to tilde. *)
Definition printable_ascii (c : ascii) : Prop := 32 <= charCode c <= 126.

(** The characters [identify] lets through: the printable range without
    the space. *)
Definition filename_char (c : ascii) : Prop := 33 <= charCode c <= 126.

(** The bytes of one record. *)
Definition record_bytes (typeCode compressedSize : Z) (name : string) (decompressedSize : Z)
    : list byte :=
  RecordBuffer.buffer
    (Archive_DAT_FAST.writeRecord (RecordBuffer.new [])
       {| Archive_DAT_FAST.typeCode := typeCode;
          Archive_DAT_FAST.compressedSize := compressedSize;
          Archive_DAT_FAST.name := name;
          Archive_DAT_FAST.decompressedSize := decompressedSize |}).

(** Sample containers: a record named with a space; a record whose body
    is cut short, after one that is whole; ten bytes. *)
Definition sample_space_in_name : list byte := record_bytes 32 0 "A B" 0.

Definition sample_cut_short : list byte :=
  record_bytes 14 2 "GAME" 0 ++ [x2a; x2b] ++ record_bytes 1 9 "LEVEL1" 0 ++ [x01; x02; x03].

Definition sample_ten_bytes : list byte := repeat x00 10.

(** A container of one file followed by three bytes that belong to
    nothing. *)
Definition sample_trailing_bytes : list byte :=
  record_bytes 14 2 "GAME" 0 ++ [x2a; x2b] ++ [x00; x01; x02].

(** Stand-ins for the two transforms: one that hands its input back, and
    one whose decoding leaves a trailing NUL as the run-length decoder of
    the game does. *)
Definition sample_lzw : GameCompression.Handler := {|
  GameCompression.reveal := fun data _ => Ok data;
  GameCompression.obscure := fun data _ => Ok data;
|}.

Definition sample_rle : GameCompression.Handler := {|
  GameCompression.reveal := fun data _ => Ok (data ++ [x00]);
  GameCompression.obscure := fun data _ => Ok data;
|}.


Definition sample_two_files : list byte :=
  record_bytes 14 2 "GAME" 0 ++ [x2a; x2b] ++ record_bytes 32 1 "README.TXT" 0 ++ [x21].

(** [empty_files count]: [count] records of zero bytes, that is [count]
    files with no content. *)
Definition empty_files (count : Z) : list byte := repeat x00 (Z.to_nat (37 * count)).

Definition sample_1025_files : list byte := empty_files 1025.

(** A member file as a caller builds it to write an archive: its content
    is held in memory. *)
Definition sample_file (name : string) (data : list byte) (nativeSize : option Z)
    (compressed : option bool) : Archive.File := {|
  Archive.fields := {|
    Archive.name := name;
    Archive.type := None;
    Archive.diskSize := 0;
    Archive.offset := 0;
    Archive.nativeSize := nativeSize;
    Archive.attributes := {| Archive.compressed := compressed; Archive.encrypted := None |};
  |};
  Archive.getRaw := fun _ => Ok data;
  Archive.getContent := fun _ => Ok data;
|}.

(** A file that can be written, one whose [nativeSize] is stale, and the
    file LEVEL1.mbg. *)
Definition sample_good_file : Archive.File :=
  sample_file "GAME.pal" [x2a; x2b] (Some 2) (Some false).

Definition sample_stale_file : Archive.File :=
  sample_file "LEVEL1.mbg" [x01; x02; x03] (Some 5) (Some false).

Definition sample_level_file : Archive.File :=
  sample_file "LEVEL1.mbg" [x01; x02; x03] (Some 3) (Some false).

(** The container that holds [sample_level_file] alone. *)
Definition sample_level_container : list byte :=
  record_bytes 1 3 "LEVEL1" 0 ++ [x01; x02; x03].

(** ** Further vocabulary *)

(** A handler whose [identify] returns nothing. *)
Definition handler_silent : GameArchive.ArchiveHandler := {|
  GameArchive.metadata := sample_metadata "arc-silent";
  GameArchive.identify := fun _ _ => JUndefined;
|}.

(** The file count of an archive is within what the metadata allows: no
    ceiling is declared, or it is 0, or the count does not exceed it. *)
Definition count_within (md : GameArchive.Metadata) (archive : Archive.t) : Prop :=
  match GameArchive.caps_maxFileCount md with
  | Some max => max = 0 \/ Z.of_nat (List.length (Archive.files archive)) <= max
  | None => True
  end.

(** Every filename of an archive is within the length the metadata
    allows. *)
Definition names_within (md : GameArchive.Metadata) (archive : Archive.t) : Prop :=
  match GameArchive.caps_file_maxFilenameLen md with
  | Some max =>
      forall file, In file (Archive.files archive) ->
        Z.of_nat (String.length (Archive.name (Archive.fields file))) <= max
  | None => True
  end.

(** Every file whose [nativeSize] is 0 has a content that can be fetched
    and is empty. *)
Definition unset_sizes_empty (archive : Archive.t) : Prop :=
  forall file, In file (Archive.files archive) ->
    Archive.nativeSize (Archive.fields file) = Some 0 ->
    Archive.call_getContent file = Ok [].

(** A format that takes at most two files with names of at most twelve
    characters. *)
Definition sample_dos_metadata : GameArchive.Metadata := {|
  GameArchive.id := "arc-dos";
  GameArchive.title := "DOS 8.3 archive";
  GameArchive.games := [];
  GameArchive.glob := [];
  GameArchive.caps_maxFileCount := Some 2;
  GameArchive.caps_file_lastModified := false;
  GameArchive.caps_file_attributes_compressed := false;
  GameArchive.caps_file_attributes_encrypted := false;
  GameArchive.caps_file_maxFilenameLen := Some 12;
|}.

(** A file whose content cannot be fetched. *)
Definition sample_unreadable_file : Archive.File := {|
  Archive.fields := {|
    Archive.name := "LOST.DAT";
    Archive.type := None;
    Archive.diskSize := 0;
    Archive.offset := 0;
    Archive.nativeSize := Some 0;
    Archive.attributes := {| Archive.compressed := None; Archive.encrypted := None |};
  |};
  Archive.getRaw := fun _ => Throw (Error "getRaw() not implemented");
  Archive.getContent := fun _ => Throw (Error "getRaw() not implemented");
|}.

(** A walk along records that [identify] lets through: each one can be
    read, its name is made of characters [identify] accepts, and its body
    lies within the buffer. *)
Inductive valid_walk : RecordBuffer.t -> nat -> RecordBuffer.t -> Prop :=
| valid_here (rb : RecordBuffer.t) : valid_walk rb 0 rb
| valid_next (rb rb1 rb' : RecordBuffer.t) (entry : Archive_DAT_FAST.fatEntry) (k : nat) :
    Archive_DAT_FAST.readRecord rb = Ok (entry, rb1) ->
    (forall c, In c (chars (Archive_DAT_FAST.name entry)) -> filename_char c) ->
    Archive_DAT_FAST.compressedSize entry <= RecordBuffer.distFromEnd rb1 ->
    valid_walk (RecordBuffer.seekRel rb1 (Archive_DAT_FAST.compressedSize entry)) k rb' ->
    valid_walk rb (S k) rb'.

(** What can be read of a file [parse] returns. When [diskSize] is not 0
    the raw bytes can be fetched and have that length, and when the file
    is uncompressed they are its content and [nativeSize] is their length.
    When [diskSize] is 0 neither the raw bytes nor the content can be
    fetched: the read of no bytes is a [RangeError]. *)
Definition readable (file : Archive.File) : Prop :=
  (Archive.diskSize (Archive.fields file) <> 0 ->
   exists raw,
     Archive.call_getRaw file = Ok raw
     /\ Z.of_nat (List.length raw) = Archive.diskSize (Archive.fields file)
     /\ (Archive.compressed (Archive.attributes (Archive.fields file)) = Some false ->
         Archive.call_getContent file = Ok raw
         /\ Archive.nativeSize (Archive.fields file) = Some (Z.of_nat (List.length raw))))
  /\ (Archive.diskSize (Archive.fields file) = 0 ->
      exists msg,
        Archive.call_getRaw file = Throw (RangeError msg)
        /\ Archive.call_getContent file = Throw (RangeError msg)).

(** The name [parse] gives the file of a record that [generate] wrote for
    a file named [file_name]. *)
Definition restored_name (file_name : string) : string :=
  let '(code, stored) := Archive_DAT_FAST.entry_type_and_name file_name in
  match Archive_DAT_FAST.FASTTypes_get code with
  | Some (ext, _) => (stored ++ ext)%string
  | None => stored
  end.

(** What the 31-byte field of a record keeps of a stored name: its first
    30 characters. *)
Definition kept_name (s : string) : string := substr_first 30 s.

(** The name [parse] reads for a file that [generate] wrote under the name
    [file_name]: what the record keeps of the stored name, followed by the
    extension of the type code. *)
Definition read_name (file_name : string) : string :=
  let '(code, stored) := Archive_DAT_FAST.entry_type_and_name file_name in
  match Archive_DAT_FAST.FASTTypes_get code with
  | Some (ext, _) => (kept_name stored ++ ext)%string
  | None => kept_name stored
  end.

(** The 37 bytes of a record. *)
Definition encode_record (entry : Archive_DAT_FAST.fatEntry) : list byte :=
  RecordBuffer.u16le_encode (Archive_DAT_FAST.typeCode entry)
  ++ RecordBuffer.u16le_encode (Archive_DAT_FAST.compressedSize entry)
  ++ RecordBuffer.string_reqTerm_encode 31 (Archive_DAT_FAST.name entry)
  ++ RecordBuffer.u16le_encode (Archive_DAT_FAST.decompressedSize entry).

(** A record fits its fields: the three numbers are below 65536, and the
    name has 30 characters at most and no NUL. *)
Definition fits_record (entry : Archive_DAT_FAST.fatEntry) : Prop :=
  0 <= Archive_DAT_FAST.typeCode entry < 65536
  /\ 0 <= Archive_DAT_FAST.compressedSize entry < 65536
  /\ 0 <= Archive_DAT_FAST.decompressedSize entry < 65536
  /\ (String.length (Archive_DAT_FAST.name entry) <= 30)%nat
  /\ ~ In Ascii.zero (chars (Archive_DAT_FAST.name entry)).

(** A container laid out from records and their bodies. *)
Fixpoint container (items : list (Archive_DAT_FAST.fatEntry * list byte)) : list byte :=
  match items with
  | [] => []
  | (entry, body) :: rest => encode_record entry ++ body ++ container rest
  end.

(** A record with its body, as they lie in a container: the record fits
    its fields and its compressed size is the length of the body. *)
Definition well_laid (item : Archive_DAT_FAST.fatEntry * list byte) : Prop :=
  fits_record (fst item)
  /\ Archive_DAT_FAST.compressedSize (fst item) = Z.of_nat (List.length (snd item)).

(** What [getRaw] gives for a file whose body is [body]: the body, or a
    [RangeError] when there is none, since [getU8] refuses a read of no
    bytes. *)
Definition body_read (body : list byte) : result (list byte) :=
  match body with
  | [] => Throw (RangeError "Invalid typed array length")
  | _ :: _ => Ok body
  end.

(** A name of characters in the range 0x20..0x7e, which the name codec of
    record-io-buffer writes and reads as the bytes of the same value. *)
Definition ascii_name (s : string) : Prop :=
  forall c, In c (chars s) -> printable_ascii c.

(** The files [parse] makes of the records of a container, the first body
    lying at [offset]. *)
Fixpoint container_files (cmpLZW cmpRLE : GameCompression.Handler) (content : list byte)
    (offset : Z) (items : list (Archive_DAT_FAST.fatEntry * list byte)) : list Archive.File :=
  match items with
  | [] => []
  | (entry, body) :: rest =>
      Archive_DAT_FAST.make_file cmpLZW cmpRLE content offset entry
      :: container_files cmpLZW cmpRLE content
           (offset + (Archive_DAT_FAST.compressedSize entry + Archive_DAT_FAST.FATENTRY_LEN))
           rest
  end.

(** What [generate] writes for a file: the record [fst item] and the bytes
    [snd item]. The content of the file has the length [nativeSize]; the
    type code and the stored name come from the name of the file; a file
    that is not to be compressed is written as it is with a decompressed
    size of 0, any other goes through the two transforms. *)
Definition written (cmpLZW cmpRLE : GameCompression.Handler) (file : Archive.File)
    (item : Archive_DAT_FAST.fatEntry * list byte) : Prop :=
  let entry := fst item in
  let diskData := snd item in
  exists data,
    Archive.call_getContent file = Ok data
    /\ Archive.nativeSize (Archive.fields file) = Some (Z.of_nat (List.length data))
    /\ (Archive_DAT_FAST.typeCode entry, Archive_DAT_FAST.name entry) =
         Archive_DAT_FAST.entry_type_and_name (Archive.name (Archive.fields file))
    /\ Archive_DAT_FAST.compressedSize entry = Z.of_nat (List.length diskData)
    /\ ((Archive.compressed (Archive.attributes (Archive.fields file)) = Some false
         /\ diskData = data
         /\ Archive_DAT_FAST.decompressedSize entry = 0)
        \/ (Archive.compressed (Archive.attributes (Archive.fields file)) <> Some false
            /\ Archive_DAT_FAST.decompressedSize entry = Z.of_nat (List.length data)
            /\ exists packed,
                 GameCompression.obscure cmpRLE data None = Ok packed
                 /\ GameCompression.obscure cmpLZW packed
                      (Some Archive_DAT_FAST.cmpDefaultParams) = Ok diskData)).

(** Two files with their records and bodies, as they lie in
    [sample_two_files]. *)
Definition sample_two_items : list (Archive_DAT_FAST.fatEntry * list byte) :=
  [({| Archive_DAT_FAST.typeCode := 14; Archive_DAT_FAST.compressedSize := 2;
       Archive_DAT_FAST.name := "GAME"; Archive_DAT_FAST.decompressedSize := 0 |},
    [x2a; x2b]);
   ({| Archive_DAT_FAST.typeCode := 32; Archive_DAT_FAST.compressedSize := 1;
       Archive_DAT_FAST.name := "README.TXT"; Archive_DAT_FAST.decompressedSize := 0 |},
    [x21])].

(** The buffer after a file is written, [buffer] standing at its end. *)
Definition appended (buffer : RecordBuffer.t) (item : Archive_DAT_FAST.fatEntry * list byte)
    : RecordBuffer.t :=
  RecordBuffer.mk (RecordBuffer.buffer buffer ++ encode_record (fst item) ++ snd item)
    (RecordBuffer.pos buffer + 37 + Z.of_nat (List.length (snd item))).

(** The name stored for a file is made of characters [identify] accepts. *)
Definition stored_name_accepted (file_name : string) : bool :=
  negb (existsb Archive_DAT_FAST.invalid_char
          (chars (snd (Archive_DAT_FAST.entry_type_and_name file_name)))).

(** A file that can be written uncompressed and read back: it is not to
    be compressed, its content can be fetched, is not empty, is shorter
    than 65536 bytes and has the length [nativeSize], and its name has 30
    characters at most, all in the range 0x20..0x7e. *)
Definition plain_file (file : Archive.File) : Prop :=
  Archive.compressed (Archive.attributes (Archive.fields file)) = Some false
  /\ (exists data,
        Archive.call_getContent file = Ok data
        /\ Archive.nativeSize (Archive.fields file) = Some (Z.of_nat (List.length data))
        /\ 0 < Z.of_nat (List.length data) < 65536)
  /\ (String.length (Archive.name (Archive.fields file)) <= 30)%nat
  /\ ascii_name (Archive.name (Archive.fields file)).

(** [generate] compresses a file unless its [compressed] attribute is
    [false]. *)
Definition compression_wanted (file : Archive.File) : bool :=
  match Archive.compressed (Archive.attributes (Archive.fields file)) with
  | Some false => false
  | _ => true
  end.

(** A file that can be written compressed and read back: it is to be
    compressed, its content can be fetched, is not empty, is shorter than
    65536 bytes and has the length [nativeSize], the two encoders accept
    it and give at least one byte and fewer than 65536, the two decoders
    give the content back, followed by trailing bytes at most, and its
    name has 30 characters at most, all in the range 0x20..0x7e. *)
Definition packed_file (cmpLZW cmpRLE : GameCompression.Handler) (file : Archive.File)
    : Prop :=
  Archive.compressed (Archive.attributes (Archive.fields file)) <> Some false
  /\ (exists data packed diskData unpacked restored,
        Archive.call_getContent file = Ok data
        /\ Archive.nativeSize (Archive.fields file) = Some (Z.of_nat (List.length data))
        /\ 0 < Z.of_nat (List.length data) < 65536
        /\ GameCompression.obscure cmpRLE data None = Ok packed
        /\ GameCompression.obscure cmpLZW packed (Some Archive_DAT_FAST.cmpDefaultParams)
             = Ok diskData
        /\ 0 < Z.of_nat (List.length diskData) < 65536
        /\ (forall entry,
              GameCompression.reveal cmpLZW diskData (Some (Archive_DAT_FAST.fileParams entry))
                = Ok unpacked)
        /\ GameCompression.reveal cmpRLE unpacked None = Ok restored
        /\ firstn (List.length data) restored = data)
  /\ (String.length (Archive.name (Archive.fields file)) <= 30)%nat
  /\ ascii_name (Archive.name (Archive.fields file)).

(** A file read back is the file written: the name but for the case of a
    table extension, the same content and the same [nativeSize], and
    marked compressed when it was written so. *)
Definition read_back (file' file : Archive.File) : Prop :=
  Archive.name (Archive.fields file') = restored_name (Archive.name (Archive.fields file))
  /\ Archive.compressed (Archive.attributes (Archive.fields file'))
       = Some (compression_wanted file)
  /\ Archive.call_getContent file' = Archive.call_getContent file
  /\ Archive.nativeSize (Archive.fields file') = Archive.nativeSize (Archive.fields file).

(** A file to be compressed, and a file without content to be
    compressed. *)
Definition sample_packed_file : Archive.File :=
  sample_file "BOOM.SND" [x07; x07; x07] (Some 3) (Some true).

Definition sample_empty_file : Archive.File :=
  sample_file "EMPTY.TXT" [] (Some 0) None.

(** A file with a [nativeSize] left at 0 and a content of one byte. *)
Definition sample_unset_file : Archive.File :=
  sample_file "NEW.DAT" [x01] (Some 0) None.

(** A file whose name has 39 characters. *)
Definition sample_long_named_file : Archive.File :=
  sample_file "THE-QUICK-BROWN-FOX-JUMPS-OVER-THE-LAZY" [x01] (Some 1) (Some false).

(** A file whose name ends in a table extension written in capitals. *)
Definition sample_capital_file : Archive.File :=
  sample_file "Level1.MBG" [x01; x02; x03] (Some 3) (Some false).

(** A file whose name holds a space. *)
Definition sample_spaced_file : Archive.File :=
  sample_file "MY LEVEL.mbg" [x01] (Some 1) (Some false).
(** * Properties of the registry *)

Section FindHandler.

Import GameArchive.

Variable fileTypes : list ArchiveHandler.
Variables content filename : jsval.

Lemma is_true_spec (v : jsval) : is_true v = true <-> v = JBool true.
Proof.
  split.
  - destruct v as [| | [|] | | | |]; simpl; intros H; congruence.
  - intros ->. reflexivity.
Qed.

Lemma is_true_false (v : jsval) : v <> JBool true -> is_true v = false.
Proof.
  intros H. destruct (is_true v) eqn:E; [|reflexivity].
  apply is_true_spec in E. contradiction.
Qed.

(** Whoever has a readable [.valid] has a readable [.reason]. *)
Lemma get_prop_reason (c v : jsval) :
  get_prop c "valid" = Ok v -> exists r, get_prop c "reason" = Ok r.
Proof.
  destruct c; simpl; intros H; try discriminate; eauto.
Qed.

Lemma possible_spec (x : ArchiveHandler) (v : jsval) :
  reports x content filename v -> possible content filename x = is_undefined v.
Proof.
  unfold reports, possible. intros ->. destruct v; reflexivity.
Qed.

(** One turn of the loop on a handler that reports [v]. *)
Lemma findHandler_loop_step (x : ArchiveHandler) (v : jsval) rest handlers log :
  reports x content filename v ->
  exists log',
    findHandler_loop content filename (x :: rest) handlers log =
      if is_true v then (log', Ok [x])
      else if is_undefined v
           then findHandler_loop content filename rest (handlers ++ [x]) log'
           else findHandler_loop content filename rest handlers log'.
Proof.
  unfold reports. intros Hv.
  destruct (get_prop_reason _ _ Hv) as [r Hr].
  simpl. rewrite Hv, Hr. simpl.
  destruct (is_true v); [eauto|].
  destruct (is_undefined v); eauto.
Qed.

Lemma findHandler_loop_no_match rest : forall handlers log,
  Forall (reports_no_match content filename) rest ->
  snd (findHandler_loop content filename rest handlers log) =
    Ok (handlers ++ filter (possible content filename) rest).
Proof.
  induction rest as [|x rest IH]; intros handlers log Hall.
  - simpl. now rewrite app_nil_r.
  - inversion Hall as [|? ? [v [Hv Hne]] Hrest]; subst.
    destruct (findHandler_loop_step x v rest handlers log Hv) as [log' ->].
    rewrite (is_true_false _ Hne).
    cbn [filter]. rewrite (possible_spec _ _ Hv).
    destruct (is_undefined v).
    + rewrite IH by assumption. now rewrite <- app_assoc.
    + now apply IH.
Qed.

Lemma findHandler_loop_first_match pre : forall h post handlers log,
  Forall (reports_no_match content filename) pre ->
  reports h content filename (JBool true) ->
  snd (findHandler_loop content filename (pre ++ h :: post) handlers log) = Ok [h].
Proof.
  induction pre as [|x pre IH]; intros h post handlers log Hpre Hh.
  - cbn [app].
    destruct (findHandler_loop_step h _ post handlers log Hh) as [log' ->].
    reflexivity.
  - inversion Hpre as [|? ? [v [Hv Hne]] Hrest]; subst.
    rewrite <- app_comm_cons.
    destruct (findHandler_loop_step x v (pre ++ h :: post) handlers log Hv) as [log' ->].
    rewrite (is_true_false _ Hne).
    destruct (is_undefined v); now apply IH.
Qed.

Lemma findHandler_loop_single rest : forall handlers log l,
  (exists h, In h rest /\ reports h content filename (JBool true)) ->
  snd (findHandler_loop content filename rest handlers log) = Ok l ->
  exists x, l = [x] /\ In x rest /\ reports x content filename (JBool true).
Proof.
  induction rest as [|x rest IH]; intros handlers log l [h [Hin Hh]] Hres.
  - destruct Hin.
  - destruct (get_prop (identify x content filename) "valid") as [v|e] eqn:Hv.
    + destruct (findHandler_loop_step x v rest handlers log Hv) as [log' Hstep].
      rewrite Hstep in Hres.
      destruct (is_true v) eqn:Ht.
      * simpl in Hres. injection Hres as <-.
        apply is_true_spec in Ht. subst v.
        exists x. repeat split; [now left | exact Hv].
      * assert (Hin' : In h rest).
        { destruct Hin as [<-|Hin]; [|exact Hin].
          unfold reports in Hh. rewrite Hh in Hv. injection Hv as <-. discriminate. }
        destruct (is_undefined v);
          (destruct (IH _ _ _ (ex_intro _ h (conj Hin' Hh)) Hres) as [y [-> [Hy Hry]]];
           exists y; repeat split; [now right | exact Hry]).
    + simpl in Hres. rewrite Hv in Hres. simpl in Hres. discriminate.
Qed.

Lemma findHandler_buffer (bytes : list byte) :
  content = JUint8Array bytes ->
  findHandler fileTypes content filename =
    snd (findHandler_loop content filename fileTypes [] [Debug_autodetecting]).
Proof.
  intros ->. reflexivity.
Qed.

End FindHandler.

(** C1. On a content buffer, the first handler in priority order that
    reports [valid === true] is returned alone, whatever candidates came
    before it; when no handler reports [true], the handlers that reported
    [undefined] are returned in priority order; and whenever some handler
    reports [true], a returned list has a single element. *)
Theorem findHandler_certain_match_wins :
  forall (fileTypes : list GameArchive.ArchiveHandler) (bytes : list byte) (filename : jsval),
    let content := JUint8Array bytes in
    (forall pre h post,
        fileTypes = pre ++ h :: post ->
        Forall (reports_no_match content filename) pre ->
        reports h content filename (JBool true) ->
        GameArchive.findHandler fileTypes content filename = Ok [h])
    /\ (Forall (reports_no_match content filename) fileTypes ->
        GameArchive.findHandler fileTypes content filename =
          Ok (filter (possible content filename) fileTypes))
    /\ (forall l,
        (exists h, In h fileTypes /\ reports h content filename (JBool true)) ->
        GameArchive.findHandler fileTypes content filename = Ok l ->
        (List.length l <= 1)%nat).
Proof.
  intros fileTypes bytes filename content.
  repeat split.
  - intros pre h post -> Hpre Hh.
    rewrite (findHandler_buffer _ content filename bytes eq_refl).
    now apply findHandler_loop_first_match.
  - intros Hall.
    rewrite (findHandler_buffer _ content filename bytes eq_refl).
    now rewrite findHandler_loop_no_match.
  - intros l Hex Hres.
    rewrite (findHandler_buffer _ content filename bytes eq_refl) in Hres.
    destruct (findHandler_loop_single content filename _ _ _ _ Hex Hres) as [x [-> _]].
    simpl. lia.
Qed.

Lemma findHandler_certain_match_wins_witness :
  GameArchive.findHandler [handler_unsure; handler_unimplemented; handler_certain; handler_unsure]
    (JUint8Array []) (JStr "duke3d.grp") = Ok [handler_certain]
  /\ GameArchive.findHandler [handler_unsure; handler_unimplemented; handler_unsure]
       (JUint8Array []) (JStr "duke3d.grp") = Ok [handler_unsure; handler_unsure].
Proof.
  split.
  - apply (proj1 (findHandler_certain_match_wins
                    [handler_unsure; handler_unimplemented; handler_certain; handler_unsure]
                    [] (JStr "duke3d.grp"))
             [handler_unsure; handler_unimplemented] handler_certain [handler_unsure]).
    + reflexivity.
    + repeat constructor.
      * exists JUndefined. split; [reflexivity | discriminate].
      * exists (JBool false). split; [reflexivity | discriminate].
    + reflexivity.
  - apply (proj1 (proj2 (findHandler_certain_match_wins
                    [handler_unsure; handler_unimplemented; handler_unsure]
                    [] (JStr "duke3d.grp")))).
    repeat constructor.
    + exists JUndefined. split; [reflexivity | discriminate].
    + exists (JBool false). split; [reflexivity | discriminate].
    + exists JUndefined. split; [reflexivity | discriminate].
Defined.

(** C10. When [content.length] is [undefined], [findHandler] throws
    [Error('content parameter must be Uint8Array')] having logged its
    opening line only: no handler's [identify] has been called and no list
    is returned. *)
Theorem findHandler_rejects_content_without_length :
  forall (fileTypes : list GameArchive.ArchiveHandler) (content filename : jsval),
    get_prop content "length" = Ok JUndefined ->
    GameArchive.findHandler_run fileTypes content filename =
      ([GameArchive.Debug_autodetecting],
       Throw (Error "content parameter must be Uint8Array"))
    /\ GameArchive.consulted (fst (GameArchive.findHandler_run fileTypes content filename)) = []
    /\ GameArchive.findHandler fileTypes content filename =
         Throw (Error "content parameter must be Uint8Array").
Proof.
  intros fileTypes content filename Hlen.
  assert (Hrun : GameArchive.findHandler_run fileTypes content filename =
                 ([GameArchive.Debug_autodetecting],
                  Throw (Error "content parameter must be Uint8Array"))).
  { unfold GameArchive.findHandler_run. rewrite Hlen. reflexivity. }
  unfold GameArchive.findHandler. rewrite Hrun. repeat split.
Qed.

Lemma findHandler_rejects_content_without_length_witness :
  GameArchive.findHandler [handler_certain; handler_unsure]
    (JObject [("main", JUint8Array [])]) (JStr "bash1.dat") =
    Throw (Error "content parameter must be Uint8Array").
Proof.
  apply (findHandler_rejects_content_without_length
           [handler_certain; handler_unsure]
           (JObject [("main", JUint8Array [])]) (JStr "bash1.dat")).
  reflexivity.
Defined.

(** * Properties of the F.A.S.T. handler *)

(** ** Reading records *)

Section Cursor.

Import RecordBuffer Archive_DAT_FAST.

Lemma byte_val_nonneg (b : byte) : 0 <= byte_val b.
Proof. unfold byte_val. lia. Qed.

Lemma u16le_decode_nonneg (bytes : list byte) : 0 <= u16le_decode bytes.
Proof.
  unfold u16le_decode.
  destruct bytes as [|lo [|hi [|]]]; try lia.
  apply Z.lor_nonneg. split; [apply byte_val_nonneg|].
  apply Z.shiftl_nonneg, byte_val_nonneg.
Qed.

Lemma take_inv (rb rb' : RecordBuffer.t) (len : Z) (bytes : list byte) :
  take rb len = Ok (bytes, rb') ->
  0 <= pos rb /\ pos rb + len <= length rb /\
  bytes = slice (buffer rb) (pos rb) len /\ rb' = advance rb len.
Proof.
  unfold take.
  destruct ((0 <=? pos rb) && (pos rb + len <=? length rb)) eqn:E; [|discriminate].
  apply andb_true_iff in E. destruct E as [E1 E2].
  apply Z.leb_le in E1, E2.
  intros H. injection H as <- <-. auto.
Qed.

Lemma take_ok (rb : RecordBuffer.t) (len : Z) :
  0 <= pos rb -> pos rb + len <= length rb ->
  take rb len = Ok (slice (buffer rb) (pos rb) len, advance rb len).
Proof.
  intros H1 H2. unfold take.
  apply Z.leb_le in H1, H2. now rewrite H1, H2.
Qed.

Lemma length_advance (rb : RecordBuffer.t) (n : Z) : length (advance rb n) = length rb.
Proof. reflexivity. Qed.

Lemma length_seekRel (rb : RecordBuffer.t) (n : Z) : length (seekRel rb n) = length rb.
Proof. reflexivity. Qed.

Lemma buffer_seekRel (rb : RecordBuffer.t) (n : Z) : buffer (seekRel rb n) = buffer rb.
Proof. reflexivity. Qed.

(** A seek that stays within the data moves the cursor by that much; one
    that would pass the end leaves it at the end. *)
Lemma seekRel_within (rb : RecordBuffer.t) (n : Z) :
  n <= distFromEnd rb -> seekRel rb n = advance rb n.
Proof.
  unfold distFromEnd, seekRel, advance. intros H. f_equal. lia.
Qed.

Lemma seekRel_beyond (rb : RecordBuffer.t) (n : Z) :
  distFromEnd rb <= n -> distFromEnd (seekRel rb n) = 0.
Proof.
  unfold distFromEnd, seekRel, length. cbn [buffer pos]. lia.
Qed.

Lemma distFromEnd_seekRel (rb : RecordBuffer.t) (n : Z) :
  0 <= distFromEnd rb -> 0 <= n ->
  0 <= distFromEnd (seekRel rb n) <= distFromEnd rb.
Proof.
  unfold distFromEnd, seekRel, length. cbn [buffer pos]. lia.
Qed.

Lemma read_u16le_inv (rb rb' : RecordBuffer.t) (v : Z) :
  read_u16le rb = Ok (v, rb') ->
  0 <= pos rb /\ pos rb + 2 <= length rb /\ 0 <= v /\ rb' = advance rb 2.
Proof.
  unfold read_u16le.
  destruct (take rb 2) as [[bytes rb1]|e] eqn:E; simpl; [|discriminate].
  apply take_inv in E. destruct E as (H1 & H2 & _ & ->).
  intros H. injection H as <- <-.
  repeat split; auto using u16le_decode_nonneg.
Qed.

(** A record is read exactly when 37 bytes lie at the cursor; the cursor
    then stands 37 bytes further on, and the sizes read are not negative. *)
Lemma readRecord_inv (rb rb' : RecordBuffer.t) (entry : fatEntry) :
  readRecord rb = Ok (entry, rb') ->
  0 <= pos rb /\ FATENTRY_LEN <= distFromEnd rb /\
  0 <= compressedSize entry /\ 0 <= decompressedSize entry /\
  rb' = advance rb FATENTRY_LEN.
Proof.
  unfold readRecord.
  destruct (read_u16le rb) as [[tc b1]|e] eqn:E1; simpl; [|discriminate].
  destruct (read_u16le b1) as [[cs b2]|e] eqn:E2; simpl; [|discriminate].
  unfold read_string_reqTerm.
  destruct (take b2 (Z.of_nat 31)) as [[nm b3]|e] eqn:E3; simpl; [|discriminate].
  destruct (read_u16le b3) as [[ds b4]|e] eqn:E4; simpl; [|discriminate].
  apply read_u16le_inv in E1, E2, E4. apply take_inv in E3.
  destruct E1 as (P1 & L1 & _ & ->).
  destruct E2 as (P2 & L2 & Hcs & ->).
  destruct E3 as (P3 & L3 & _ & ->).
  destruct E4 as (P4 & L4 & Hds & ->).
  intros H. injection H as <- <-. simpl.
  unfold distFromEnd, FATENTRY_LEN. rewrite !length_advance in *. simpl in *.
  repeat split; try lia.
  unfold advance; simpl. f_equal. lia.
Qed.

Lemma readRecord_ok (rb : RecordBuffer.t) :
  0 <= pos rb -> FATENTRY_LEN <= distFromEnd rb ->
  exists entry, readRecord rb = Ok (entry, advance rb FATENTRY_LEN).
Proof.
  unfold distFromEnd, FATENTRY_LEN. intros Hpos Hlen.
  unfold readRecord, read_u16le, read_string_reqTerm.
  rewrite take_ok by lia. simpl bind.
  rewrite take_ok by (rewrite ?length_advance; simpl; lia). simpl bind.
  rewrite take_ok by (rewrite ?length_advance; simpl; lia). simpl bind.
  rewrite take_ok by (rewrite ?length_advance; simpl; lia). simpl bind.
  eexists. f_equal. f_equal.
  unfold advance; simpl. f_equal. lia.
Qed.

End Cursor.

(** ** identify *)

Section Identify.

Import RecordBuffer Archive_DAT_FAST.

(** One turn of the loop of [identify] at a cursor where a record can be
    read. *)
Lemma identify_loop_step (n : nat) (i : Z) (rb rb' : RecordBuffer.t) (entry : fatEntry) :
  readRecord rb = Ok (entry, rb') ->
  identify_loop (S n) i rb =
    if existsb invalid_char (chars (name entry)) then
      Ok (Contains_invalid_char i (name entry), false)
    else if distFromEnd rb' <? compressedSize entry then
      Ok (Would_go_past_EOF i, false)
    else identify_loop n (i + 1) (seekRel rb' (compressedSize entry)).
Proof.
  intros Hread.
  destruct (readRecord_inv _ _ _ Hread) as (_ & Hlen & _).
  cbn [identify_loop].
  destruct (Z.eqb_spec (distFromEnd rb) 0) as [E|_]; [unfold FATENTRY_LEN in Hlen; lia|].
  destruct (Z.ltb_spec (distFromEnd rb) FATENTRY_LEN) as [E|_]; [lia|].
  rewrite Hread. reflexivity.
Qed.

(** [identify] returns: the loop never throws. *)
Lemma identify_loop_returns (n : nat) : forall (i : Z) (rb : RecordBuffer.t),
  0 <= pos rb -> exists line verdict, identify_loop n i rb = Ok (line, verdict).
Proof.
  induction n as [|n IH]; intros i rb Hpos.
  - simpl. eauto.
  - destruct (Z.eqb_spec (distFromEnd rb) 0) as [E0|E0].
    { cbn [identify_loop]. rewrite (proj2 (Z.eqb_eq _ _) E0). eauto. }
    destruct (Z.ltb_spec (distFromEnd rb) FATENTRY_LEN) as [E1|E1].
    { cbn [identify_loop]. rewrite (proj2 (Z.eqb_neq _ _) E0).
      rewrite (proj2 (Z.ltb_lt _ _) E1). eauto. }
    destruct (readRecord_ok rb Hpos E1) as [entry Hread].
    rewrite (identify_loop_step _ _ _ _ _ Hread).
    destruct (existsb _ _); [eauto|].
    destruct (_ <? _); [eauto|].
    apply IH.
    destruct (readRecord_inv _ _ _ Hread) as (_ & Hlen & Hcs & _).
    unfold seekRel, advance, distFromEnd, RecordBuffer.length, FATENTRY_LEN in *.
    cbn [buffer pos]. lia.
Qed.

Lemma identify_of_log (content : list byte) (line : log_line) (verdict : bool) :
  identify_log content = Ok (line, verdict) -> identify content = Ok (JBool verdict).
Proof. unfold identify. intros ->. reflexivity. Qed.

Lemma identify_returns_boolean (content : list byte) :
  exists verdict, identify content = Ok (JBool verdict).
Proof.
  destruct (identify_loop_returns MAX_FILES 0 (RecordBuffer.new content)) as (line & v & H);
    [simpl; lia|].
  exists v. now apply (identify_of_log content line).
Qed.

(** A record whose body would run past the end, anywhere along the
    records, makes the loop answer [false] however many turns it has. *)
Lemma identify_loop_oversize (rb0 rb : RecordBuffer.t) (k : nat) :
  walk rb0 k rb ->
  forall (entry : fatEntry) (rb' : RecordBuffer.t),
    readRecord rb = Ok (entry, rb') ->
    distFromEnd rb' < compressedSize entry ->
    forall (n : nat) (i : Z), exists line, identify_loop n i rb0 = Ok (line, false).
Proof.
  induction 1 as [rb|rb rb1 rb' e k Hread Hwalk IH]; intros entry rb2 Hrec Hbig n i.
  - destruct n as [|n]; [simpl; eauto|].
    rewrite (identify_loop_step _ _ _ _ _ Hrec).
    destruct (existsb _ _); [eauto|].
    rewrite (proj2 (Z.ltb_lt _ _) Hbig). eauto.
  - destruct n as [|n]; [simpl; eauto|].
    rewrite (identify_loop_step _ _ _ _ _ Hread).
    destruct (existsb _ _); [eauto|].
    destruct (_ <? _); [eauto|].
    now apply (IH entry rb2).
Qed.

(** Fewer than 37 bytes where a record should start, anywhere along the
    records, does the same. *)
Lemma identify_loop_truncated (rb0 rb : RecordBuffer.t) (k : nat) :
  walk rb0 k rb ->
  distFromEnd rb <> 0 -> distFromEnd rb < FATENTRY_LEN ->
  forall (n : nat) (i : Z), exists line, identify_loop n i rb0 = Ok (line, false).
Proof.
  induction 1 as [rb|rb rb1 rb' e k Hread Hwalk IH]; intros Hne Hlt n i.
  - destruct n as [|n]; [simpl; eauto|].
    cbn [identify_loop].
    rewrite (proj2 (Z.eqb_neq _ _) Hne), (proj2 (Z.ltb_lt _ _) Hlt). eauto.
  - destruct n as [|n]; [simpl; eauto|].
    rewrite (identify_loop_step _ _ _ _ _ Hread).
    destruct (existsb _ _); [eauto|].
    destruct (_ <? _); [eauto|].
    now apply IH.
Qed.

Lemma existsb_invalid_char (s : string) :
  existsb invalid_char (chars s) = true <->
  exists c, In c (chars s) /\ (charCode c <= 32 \/ 126 < charCode c).
Proof.
  rewrite existsb_exists. unfold invalid_char.
  split; intros [c [Hin Hc]]; exists c; split; auto.
  - apply orb_true_iff in Hc. destruct Hc as [Hc|Hc]; [left|right]; lia.
  - apply orb_true_iff. destruct Hc as [Hc|Hc]; [left|right]; lia.
Qed.

Lemma existsb_filename_chars (s : string) :
  (forall c, In c (chars s) -> filename_char c) ->
  existsb invalid_char (chars s) = false.
Proof.
  intros Hall. destruct (existsb invalid_char (chars s)) eqn:E; [|reflexivity].
  apply existsb_invalid_char in E. destruct E as [c [Hin Hc]].
  specialize (Hall c Hin). unfold filename_char in Hall. lia.
Qed.

End Identify.

Section IdentifyExits.

Import RecordBuffer Archive_DAT_FAST.

Lemma identify_loop_eof (n : nat) (i : Z) (rb : RecordBuffer.t) :
  distFromEnd rb = 0 -> identify_loop (S n) i rb = Ok (EOF_at_correct_place, true).
Proof.
  intros E. cbn [identify_loop]. now rewrite (proj2 (Z.eqb_eq _ _) E).
Qed.

Lemma identify_loop_incomplete (n : nat) (i : Z) (rb : RecordBuffer.t) :
  distFromEnd rb <> 0 -> distFromEnd rb < FATENTRY_LEN ->
  identify_loop (S n) i rb = Ok (Incomplete_FAT_entry, false).
Proof.
  intros E0 E1. cbn [identify_loop].
  rewrite (proj2 (Z.eqb_neq _ _) E0). now rewrite (proj2 (Z.ltb_lt _ _) E1).
Qed.

Lemma readRecord_name (rb rb' : RecordBuffer.t) (entry : fatEntry) :
  readRecord rb = Ok (entry, rb') ->
  name entry = string_decode (slice (buffer rb) (pos rb + 4) 31).
Proof.
  unfold readRecord.
  destruct (read_u16le rb) as [[tc b1]|e] eqn:E1; simpl; [|discriminate].
  destruct (read_u16le b1) as [[cs b2]|e] eqn:E2; simpl; [|discriminate].
  unfold read_string_reqTerm.
  destruct (take b2 (Z.of_nat 31)) as [[nm b3]|e] eqn:E3; simpl; [|discriminate].
  destruct (read_u16le b3) as [[ds b4]|e] eqn:E4; simpl; [|discriminate].
  apply read_u16le_inv in E1, E2. apply take_inv in E3.
  destruct E1 as (_ & _ & _ & ->).
  destruct E2 as (_ & _ & _ & ->).
  destruct E3 as (_ & _ & -> & _).
  intros H. injection H as <- _. simpl.
  do 2 f_equal. lia.
Qed.

End IdentifyExits.

(** C2. The verdict of the F.A.S.T. handler's [identify] is a bare boolean
    on every input, on the empty buffer [true]: it has no [valid] and no
    [reason] property, both read as [undefined], and [findHandler] lists a
    handler that answers so as a possible match whatever the boolean. The
    base class returns the object with [valid] and [reason]. *)
Theorem identify_returns_bare_boolean :
  Archive_DAT_FAST.identify [] = Ok (JBool true)
  /\ (forall content : list byte,
        exists verdict, Archive_DAT_FAST.identify content = Ok (JBool verdict))
  /\ (forall verdict : bool,
        get_prop (JBool verdict) "valid" = Ok JUndefined
        /\ get_prop (JBool verdict) "reason" = Ok JUndefined)
  /\ (forall content filename : jsval,
        get_prop (ArchiveHandler.identify content filename) "valid" = Ok (JBool false)
        /\ exists reason,
             get_prop (ArchiveHandler.identify content filename) "reason" = Ok (JStr reason))
  /\ GameArchive.findHandler [handler_bare_false] (JUint8Array sample_ten_bytes) JUndefined
       = Ok [handler_bare_false].
Proof.
  split; [reflexivity|].
  split; [exact identify_returns_boolean|].
  split; [intros verdict; split; reflexivity|].
  split; [|reflexivity].
  intros content filename. split; [reflexivity|]. eexists. reflexivity.
Qed.

(** C6, as the code has it. Where a record is read, [identify] answers
    [false] at the filename test when the name decoded from the 31-byte
    field (the characters before the first NUL) has a character with a
    code of 32 or less or above 126, the space included; when every
    character of that name lies in 33..126 it passes on to the test of the
    size. *)
Theorem identify_filename_step :
  forall (n : nat) (i : Z) (rb rb' : RecordBuffer.t) (entry : Archive_DAT_FAST.fatEntry),
    Archive_DAT_FAST.readRecord rb = Ok (entry, rb') ->
    Archive_DAT_FAST.name entry =
      RecordBuffer.string_decode
        (RecordBuffer.slice (RecordBuffer.buffer rb) (RecordBuffer.pos rb + 4) 31)
    /\ ((exists c, In c (chars (Archive_DAT_FAST.name entry)) /\ ~ filename_char c) ->
        Archive_DAT_FAST.identify_loop (S n) i rb =
          Ok (Archive_DAT_FAST.Contains_invalid_char i (Archive_DAT_FAST.name entry), false))
    /\ ((forall c, In c (chars (Archive_DAT_FAST.name entry)) -> filename_char c) ->
        Archive_DAT_FAST.identify_loop (S n) i rb =
          if RecordBuffer.distFromEnd rb' <? Archive_DAT_FAST.compressedSize entry
          then Ok (Archive_DAT_FAST.Would_go_past_EOF i, false)
          else Archive_DAT_FAST.identify_loop n (i + 1)
                 (RecordBuffer.seekRel rb' (Archive_DAT_FAST.compressedSize entry))).
Proof.
  intros n i rb rb' entry Hread.
  split; [now apply (readRecord_name rb rb')|].
  rewrite (identify_loop_step n i rb rb' entry Hread).
  split.
  - intros [c [Hin Hbad]].
    assert (E : existsb Archive_DAT_FAST.invalid_char (chars (Archive_DAT_FAST.name entry)) = true).
    { apply existsb_invalid_char. exists c. split; [exact Hin|].
      unfold filename_char in Hbad. lia. }
    now rewrite E.
  - intros Hall. now rewrite (existsb_filename_chars _ Hall).
Qed.

Lemma identify_filename_step_witness :
  Archive_DAT_FAST.identify_log sample_space_in_name =
    Ok (Archive_DAT_FAST.Contains_invalid_char 0 "A B", false)
  /\ Archive_DAT_FAST.identify_log sample_cut_short =
       Archive_DAT_FAST.identify_loop 1023 1 (RecordBuffer.mk sample_cut_short 39).
Proof.
  split.
  - apply (proj1 (proj2 (identify_filename_step 1023 0
             (RecordBuffer.new sample_space_in_name)
             (RecordBuffer.mk sample_space_in_name 37)
             {| Archive_DAT_FAST.typeCode := 32; Archive_DAT_FAST.compressedSize := 0;
                Archive_DAT_FAST.name := "A B"; Archive_DAT_FAST.decompressedSize := 0 |}
             eq_refl))).
    exists " "%char. split; [simpl; auto|].
    unfold filename_char. vm_compute. intros [H _]. now apply H.
  - apply (proj2 (proj2 (identify_filename_step 1023 0
             (RecordBuffer.new sample_cut_short)
             (RecordBuffer.mk sample_cut_short 37)
             {| Archive_DAT_FAST.typeCode := 14; Archive_DAT_FAST.compressedSize := 2;
                Archive_DAT_FAST.name := "GAME"; Archive_DAT_FAST.decompressedSize := 0 |}
             eq_refl))).
    intros c Hin. unfold filename_char.
    simpl in Hin. decompose [or] Hin; subst; try contradiction; vm_compute; split; discriminate.
Defined.

(** C6, against the wording of the specification: the name "A B" has only
    characters of the printable range, space to tilde, and its record is
    turned down at the filename test. *)
Lemma identify_filename_step_rejects_space :
  Forall printable_ascii (chars "A B")
  /\ (exists rb',
        Archive_DAT_FAST.readRecord (RecordBuffer.new sample_space_in_name) =
          Ok ({| Archive_DAT_FAST.typeCode := 32; Archive_DAT_FAST.compressedSize := 0;
                 Archive_DAT_FAST.name := "A B"; Archive_DAT_FAST.decompressedSize := 0 |},
              rb'))
  /\ Archive_DAT_FAST.identify_log sample_space_in_name =
       Ok (Archive_DAT_FAST.Contains_invalid_char 0 "A B", false)
  /\ Archive_DAT_FAST.identify sample_space_in_name = Ok (JBool false).
Proof.
  split.
  - repeat constructor; vm_compute; discriminate.
  - split; [eexists; reflexivity|]. split; reflexivity.
Qed.

(** What [findHandler] makes of a handler that answers with a bare
    boolean: it reads [valid] as [undefined], lists the handler as a
    possible match and goes on to the next. *)
Lemma findHandler_bare_verdict (h : GameArchive.ArchiveHandler) (bytes : list byte)
    (filename : jsval) (verdict : bool) :
  GameArchive.identify h (JUint8Array bytes) filename = JBool verdict ->
  GameArchive.findHandler [h] (JUint8Array bytes) filename = Ok [h]
  /\ GameArchive.findHandler [h; handler_certain] (JUint8Array bytes) filename
       = Ok [handler_certain].
Proof.
  intros H. unfold GameArchive.findHandler, GameArchive.findHandler_run.
  cbn. rewrite H. split; reflexivity.
Qed.

Lemma answers_as_fast_verdict (h : GameArchive.ArchiveHandler) (bytes : list byte)
    (filename : jsval) (verdict : bool) :
  answers_as_fast h ->
  Archive_DAT_FAST.identify bytes = Ok (JBool verdict) ->
  GameArchive.identify h (JUint8Array bytes) filename = JBool verdict.
Proof.
  intros Hfast H. rewrite (Hfast bytes filename) in H. now injection H.
Qed.

Lemma fast_handler_answers_as_fast : answers_as_fast fast_handler.
Proof.
  intros bytes filename. cbn [fast_handler GameArchive.identify].
  destruct (identify_returns_boolean bytes) as [verdict ->]. reflexivity.
Qed.

(** C7. A record with all its 37 bytes whose declared compressed size is
    more than the bytes that follow it makes [identify] answer the bare
    boolean [false], wherever along the records of the input it stands;
    when it is reached with a filename that passes, the answer is given at
    the test of the size. The answer is no object with [valid] set to
    [false]: its [valid] reads as [undefined], so that [findHandler] keeps
    the handler as a possible match of the input instead of turning it
    down. *)
Theorem identify_rejects_oversized_body :
  forall (content : list byte) (k : nat) (rb rb' : RecordBuffer.t)
         (entry : Archive_DAT_FAST.fatEntry),
    record_at content k rb ->
    Archive_DAT_FAST.readRecord rb = Ok (entry, rb') ->
    RecordBuffer.distFromEnd rb' < Archive_DAT_FAST.compressedSize entry ->
    Archive_DAT_FAST.identify content = Ok (JBool false)
    /\ (forall (n : nat) (i : Z),
          (forall c, In c (chars (Archive_DAT_FAST.name entry)) -> filename_char c) ->
          Archive_DAT_FAST.identify_loop (S n) i rb =
            Ok (Archive_DAT_FAST.Would_go_past_EOF i, false))
    /\ get_prop (JBool false) "valid" = Ok JUndefined
    /\ (forall (h : GameArchive.ArchiveHandler) (filename : jsval),
          answers_as_fast h ->
          reports h (JUint8Array content) filename JUndefined
          /\ GameArchive.findHandler [h] (JUint8Array content) filename = Ok [h]).
Proof.
  intros content k rb rb' entry Hat Hread Hbig.
  assert (Hid : Archive_DAT_FAST.identify content = Ok (JBool false)).
  { destruct (identify_loop_oversize _ _ _ Hat entry rb' Hread Hbig
                Archive_DAT_FAST.MAX_FILES 0) as [line Hline].
    now apply (identify_of_log content line). }
  split; [exact Hid|]. split; [|split; [reflexivity|]].
  - intros n i Hname.
    rewrite (identify_loop_step n i rb rb' entry Hread).
    rewrite (existsb_filename_chars _ Hname).
    now rewrite (proj2 (Z.ltb_lt _ _) Hbig).
  - intros h filename Hfast.
    pose proof (answers_as_fast_verdict h content filename false Hfast Hid) as Hh.
    split; [unfold reports; now rewrite Hh|].
    exact (proj1 (findHandler_bare_verdict h content filename false Hh)).
Qed.

Lemma identify_rejects_oversized_body_witness :
  Archive_DAT_FAST.identify sample_cut_short = Ok (JBool false)
  /\ reports fast_handler (JUint8Array sample_cut_short) JUndefined JUndefined
  /\ GameArchive.findHandler [fast_handler] (JUint8Array sample_cut_short) JUndefined
       = Ok [fast_handler].
Proof.
  destruct (identify_rejects_oversized_body sample_cut_short 1
              (RecordBuffer.mk sample_cut_short 39)
              (RecordBuffer.mk sample_cut_short 76)
              {| Archive_DAT_FAST.typeCode := 1; Archive_DAT_FAST.compressedSize := 9;
                 Archive_DAT_FAST.name := "LEVEL1"; Archive_DAT_FAST.decompressedSize := 0 |})
    as (Hid & _ & _ & Hfind).
  - apply (walk_next (RecordBuffer.new sample_cut_short)
             (RecordBuffer.mk sample_cut_short 37) _
             {| Archive_DAT_FAST.typeCode := 14; Archive_DAT_FAST.compressedSize := 2;
                Archive_DAT_FAST.name := "GAME"; Archive_DAT_FAST.decompressedSize := 0 |}).
    + reflexivity.
    + apply walk_here.
  - reflexivity.
  - reflexivity.
  - split; [exact Hid|].
    exact (Hfind fast_handler JUndefined fast_handler_answers_as_fast).
Defined.

(** C8. [identify] answers the bare boolean [true] on the empty buffer,
    and the bare boolean [false] on an input of more than zero and fewer
    than 37 bytes, ten bytes for one, as well as when that many bytes are
    left where a later record should start. Neither answer is an object
    with a [valid] property: [valid] reads as [undefined] on both, so that
    [findHandler] does not stop at the handler on the empty buffer, where
    a later handler that is certain takes its place, and keeps it as a
    possible match of the short input. *)
Theorem identify_empty_and_truncated :
  Archive_DAT_FAST.identify [] = Ok (JBool true)
  /\ Archive_DAT_FAST.identify_log [] = Ok (Archive_DAT_FAST.EOF_at_correct_place, true)
  /\ Archive_DAT_FAST.identify sample_ten_bytes = Ok (JBool false)
  /\ (forall content : list byte,
        (0 < List.length content < 37)%nat ->
        Archive_DAT_FAST.identify_log content =
          Ok (Archive_DAT_FAST.Incomplete_FAT_entry, false)
        /\ Archive_DAT_FAST.identify content = Ok (JBool false))
  /\ (forall (content : list byte) (k : nat) (rb : RecordBuffer.t),
        record_at content k rb ->
        0 < RecordBuffer.distFromEnd rb < Archive_DAT_FAST.FATENTRY_LEN ->
        Archive_DAT_FAST.identify content = Ok (JBool false))
  /\ (forall verdict : bool, get_prop (JBool verdict) "valid" = Ok JUndefined)
  /\ (forall (h : GameArchive.ArchiveHandler) (filename : jsval),
        answers_as_fast h ->
        reports h (JUint8Array []) filename JUndefined
        /\ GameArchive.findHandler [h; handler_certain] (JUint8Array []) filename
             = Ok [handler_certain]
        /\ (forall content : list byte,
              (0 < List.length content < 37)%nat ->
              reports h (JUint8Array content) filename JUndefined
              /\ GameArchive.findHandler [h] (JUint8Array content) filename = Ok [h])).
Proof.
  assert (Hshort : forall content : list byte,
            (0 < List.length content < 37)%nat ->
            Archive_DAT_FAST.identify_log content =
              Ok (Archive_DAT_FAST.Incomplete_FAT_entry, false)
            /\ Archive_DAT_FAST.identify content = Ok (JBool false)).
  { intros content Hlen.
    assert (Hlog : Archive_DAT_FAST.identify_log content =
                   Ok (Archive_DAT_FAST.Incomplete_FAT_entry, false)).
    { apply (identify_loop_incomplete 1023 0 (RecordBuffer.new content));
        unfold RecordBuffer.distFromEnd, RecordBuffer.length, Archive_DAT_FAST.FATENTRY_LEN;
        simpl; lia. }
    split; [exact Hlog|]. now apply (identify_of_log content _ _ Hlog). }
  split; [reflexivity|]. split; [reflexivity|]. split; [reflexivity|].
  split; [exact Hshort|]. split; [|split].
  - intros content k rb Hat [Hpos Hlt].
    destruct (identify_loop_truncated _ _ _ Hat ltac:(lia) Hlt
                Archive_DAT_FAST.MAX_FILES 0) as [line Hline].
    now apply (identify_of_log content line).
  - intros verdict. reflexivity.
  - intros h filename Hfast.
    pose proof (answers_as_fast_verdict h [] filename true Hfast eq_refl) as Hempty.
    split; [unfold reports; now rewrite Hempty|].
    split; [exact (proj2 (findHandler_bare_verdict h [] filename true Hempty))|].
    intros content Hlen.
    pose proof (answers_as_fast_verdict h content filename false Hfast
                  (proj2 (Hshort content Hlen))) as Hh.
    split; [unfold reports; now rewrite Hh|].
    exact (proj1 (findHandler_bare_verdict h content filename false Hh)).
Qed.

Lemma identify_empty_and_truncated_witness :
  (Archive_DAT_FAST.identify_log [x4d; x5a; x90] =
     Ok (Archive_DAT_FAST.Incomplete_FAT_entry, false)
   /\ Archive_DAT_FAST.identify [x4d; x5a; x90] = Ok (JBool false))
  /\ Archive_DAT_FAST.identify (sample_two_files ++ [x1a]) = Ok (JBool false)
  /\ GameArchive.findHandler [fast_handler; handler_certain] (JUint8Array []) JUndefined
       = Ok [handler_certain]
  /\ GameArchive.findHandler [fast_handler] (JUint8Array sample_ten_bytes) JUndefined
       = Ok [fast_handler].
Proof.
  destruct identify_empty_and_truncated as (_ & _ & _ & Hshort & Hleft & _ & Hfind).
  split; [|split].
  - apply (Hshort [x4d; x5a; x90]).
    simpl. lia.
  - apply (Hleft (sample_two_files ++ [x1a]) 2%nat
             (RecordBuffer.mk (sample_two_files ++ [x1a]) 77)).
    + apply (walk_next (RecordBuffer.new (sample_two_files ++ [x1a]))
               (RecordBuffer.mk (sample_two_files ++ [x1a]) 37) _
               {| Archive_DAT_FAST.typeCode := 14; Archive_DAT_FAST.compressedSize := 2;
                  Archive_DAT_FAST.name := "GAME"; Archive_DAT_FAST.decompressedSize := 0 |});
        [reflexivity|].
      apply (walk_next (RecordBuffer.mk (sample_two_files ++ [x1a]) 39)
               (RecordBuffer.mk (sample_two_files ++ [x1a]) 76) _
               {| Archive_DAT_FAST.typeCode := 32; Archive_DAT_FAST.compressedSize := 1;
                  Archive_DAT_FAST.name := "README.TXT";
                  Archive_DAT_FAST.decompressedSize := 0 |});
        [reflexivity|].
      apply walk_here.
    + vm_compute. split; reflexivity.
  - destruct (Hfind fast_handler JUndefined fast_handler_answers_as_fast)
      as (_ & Hstop & Hkeep).
    split; [exact Hstop|].
    apply (Hkeep sample_ten_bytes). simpl. lia.
Defined.

(** ** parse *)

Section Parse.

Import RecordBuffer Archive_DAT_FAST.

Variables cmpLZW cmpRLE : GameCompression.Handler.

Local Abbreviation parse_loop := (Archive_DAT_FAST.parse_loop cmpLZW cmpRLE).
Local Abbreviation make_file := (Archive_DAT_FAST.make_file cmpLZW cmpRLE).

(** The loop only adds files, one a turn at most. *)
Lemma parse_loop_extends (content : list byte) (n : nat) :
  forall rb off acc l,
    parse_loop content n rb off acc = Ok l ->
    exists tail, l = acc ++ tail /\ (List.length tail <= n)%nat.
Proof.
  induction n as [|n IH]; intros rb off acc l H.
  - simpl in H. injection H as <-. exists []. split; [now rewrite app_nil_r | simpl; lia].
  - cbn [Archive_DAT_FAST.parse_loop] in H.
    destruct (distFromEnd rb =? 0).
    + injection H as <-. exists []. split; [now rewrite app_nil_r | simpl; lia].
    + destruct (readRecord rb) as [[entry rb']|e]; simpl in H; [|discriminate].
      apply IH in H. destruct H as [tail [-> Hlen]].
      exists (make_file content off entry :: tail).
      split; [now rewrite <- app_assoc | simpl; lia].
Qed.

(** Lowering the ceiling keeps the files found before it. *)
Lemma parse_loop_ceiling (content : list byte) (m : nat) :
  forall n rb off acc l,
    (m <= n)%nat ->
    parse_loop content n rb off acc = Ok l ->
    parse_loop content m rb off acc = Ok (firstn (List.length acc + m) l).
Proof.
  induction m as [|m IH]; intros n rb off acc l Hle H.
  - destruct (parse_loop_extends _ _ _ _ _ _ H) as [tail [-> _]].
    simpl. rewrite Nat.add_0_r, firstn_app, Nat.sub_diag, firstn_all.
    simpl. now rewrite app_nil_r.
  - destruct n as [|n]; [lia|].
    cbn [Archive_DAT_FAST.parse_loop] in H |- *.
    destruct (distFromEnd rb =? 0).
    + injection H as <-. now rewrite firstn_all2 by lia.
    + destruct (readRecord rb) as [[entry rb']|e]; simpl in H |- *; [|discriminate].
      rewrite (IH n _ _ _ l) by (assumption || lia).
      do 2 f_equal. rewrite length_app. simpl. lia.
Qed.


(** The same three facts for [parse_upto], at any ceiling. *)
Lemma parse_upto_bound (n : nat) (content : list byte) (archive : Archive.t) :
  parse_upto cmpLZW cmpRLE n content = Ok archive ->
  (List.length (Archive.files archive) <= n)%nat.
Proof.
  unfold parse_upto.
  destruct (parse_loop content n _ _ _) as [l|e] eqn:E; cbn [bind]; [|discriminate].
  intros H. injection H as <-. cbn [Archive.files].
  destruct (parse_loop_extends _ _ _ _ _ _ E) as [tail [-> Hlen]].
  exact Hlen.
Qed.

Lemma parse_upto_ceiling (m n : nat) (content : list byte) (archive : Archive.t) :
  (m <= n)%nat ->
  parse_upto cmpLZW cmpRLE n content = Ok archive ->
  parse_upto cmpLZW cmpRLE m content = Ok {| Archive.files := firstn m (Archive.files archive) |}.
Proof.
  intros Hle. unfold parse_upto.
  destruct (parse_loop content n _ _ _) as [l|e] eqn:E; cbn [bind]; [|discriminate].
  intros H. injection H as <-. cbn [Archive.files].
  now rewrite (parse_loop_ceiling _ _ _ _ _ _ _ Hle E).
Qed.


(** [parse] is the walk with the ceiling [MAX_FILES]. *)
Lemma parse_upto_MAX_FILES (content : list byte) :
  parse cmpLZW cmpRLE content = parse_upto cmpLZW cmpRLE MAX_FILES content.
Proof. unfold parse. reflexivity. Qed.

End Parse.

Section ParseSamples.

Import RecordBuffer Archive_DAT_FAST.

Variables cmpLZW cmpRLE : GameCompression.Handler.

Lemma readRecord_compressedSize (rb rb' : RecordBuffer.t) (entry : fatEntry) :
  readRecord rb = Ok (entry, rb') ->
  compressedSize entry = u16le_decode (slice (buffer rb) (pos rb + 2) 2).
Proof.
  unfold readRecord.
  destruct (read_u16le rb) as [[tc b1]|e] eqn:E1; simpl; [|discriminate].
  unfold read_u16le at 1.
  destruct (take b1 2) as [[bytes b2]|e] eqn:E2; simpl; [|discriminate].
  destruct (read_string_reqTerm 31 b2) as [[nm b3]|e]; simpl; [|discriminate].
  destruct (read_u16le b3) as [[ds b4]|e]; simpl; [|discriminate].
  apply read_u16le_inv in E1. apply take_inv in E2.
  destruct E1 as (_ & _ & _ & ->).
  destruct E2 as (_ & _ & -> & _).
  intros H. injection H as <- _. reflexivity.
Qed.

Lemma skipn_repeat (x : byte) (a : nat) : forall n, skipn a (repeat x n) = repeat x (n - a).
Proof.
  induction a as [|a IH]; intros [|n]; simpl; auto.
Qed.

Lemma slice_zeros (n : nat) (p : Z) :
  0 <= p -> p + 2 <= Z.of_nat n -> slice (repeat x00 n) p 2 = [x00; x00].
Proof.
  intros Hp Hn. unfold slice. rewrite skipn_repeat.
  assert (E : exists m, (n - Z.to_nat p = S (S m))%nat).
  { exists (n - Z.to_nat p - 2)%nat. lia. }
  destruct E as [m ->]. reflexivity.
Qed.

(** A container of [count] records of zero bytes parses to as many files
    as the ceiling lets through. *)
Lemma parse_loop_empty_files (count : Z) (m : nat) :
  0 <= count ->
  forall k off acc,
    0 <= k <= count ->
    exists l,
      parse_loop cmpLZW cmpRLE (empty_files count) m
        (RecordBuffer.mk (empty_files count) (37 * k)) off acc = Ok l
      /\ Z.of_nat (List.length l) = Z.of_nat (List.length acc) + Z.min (Z.of_nat m) (count - k).
Proof.
  intros Hcount.
  assert (Hlen : forall p, distFromEnd (RecordBuffer.mk (empty_files count) p) = 37 * count - p).
  { intros p. unfold distFromEnd, RecordBuffer.length, empty_files.
    cbn [buffer pos]. rewrite repeat_length. lia. }
  induction m as [|m IH]; intros k off acc Hk.
  - exists acc. split; [reflexivity | lia].
  - cbn [parse_loop]. rewrite Hlen.
    destruct (Z.eqb_spec (37 * count - 37 * k) 0) as [E|E].
    + exists acc. split; [reflexivity | lia].
    + destruct (readRecord_ok (RecordBuffer.mk (empty_files count) (37 * k))) as [entry Hread].
      { cbn [pos]. lia. }
      { rewrite Hlen. unfold FATENTRY_LEN. lia. }
      rewrite Hread. cbn [bind].
      assert (Hcs : compressedSize entry = 0).
      { rewrite (readRecord_compressedSize _ _ _ Hread). cbn [buffer pos].
        unfold empty_files. rewrite slice_zeros by lia. reflexivity. }
      rewrite Hcs.
      replace (seekRel (advance (RecordBuffer.mk (empty_files count) (37 * k)) FATENTRY_LEN) 0)
        with (RecordBuffer.mk (empty_files count) (37 * (k + 1)))
        by (unfold seekRel, advance, RecordBuffer.length, FATENTRY_LEN, empty_files;
            cbn [buffer pos]; rewrite repeat_length; f_equal; lia).
      destruct (IH (k + 1) (off + (0 + FATENTRY_LEN))
                   (acc ++ [make_file cmpLZW cmpRLE (empty_files count) off entry]))
        as [l [Hl Hn]]; [lia|].
      exists l. split; [exact Hl|].
      rewrite length_app in Hn. simpl in Hn. lia.
Qed.

End ParseSamples.

(** C9. An archive that [parse] returns has at most 1024 files; and when
    the walk with a higher ceiling finds more, [parse] returns the first
    1024 of them and raises nothing. *)
Theorem parse_keeps_first_1024_files :
  forall (cmpLZW cmpRLE : GameCompression.Handler) (content : list byte),
    Archive_DAT_FAST.MAX_FILES = 1024%nat
    /\ (forall archive,
          Archive_DAT_FAST.parse cmpLZW cmpRLE content = Ok archive ->
          (List.length (Archive.files archive) <= Archive_DAT_FAST.MAX_FILES)%nat)
    /\ (forall max_files archive,
          (Archive_DAT_FAST.MAX_FILES <= max_files)%nat ->
          Archive_DAT_FAST.parse_upto cmpLZW cmpRLE max_files content = Ok archive ->
          Archive_DAT_FAST.parse cmpLZW cmpRLE content =
            Ok {| Archive.files :=
                    firstn Archive_DAT_FAST.MAX_FILES (Archive.files archive) |}).
Proof.
  intros cmpLZW cmpRLE content. split; [reflexivity|]. split.
  - intros archive. rewrite parse_upto_MAX_FILES. apply parse_upto_bound.
  - intros max_files archive Hle H. rewrite parse_upto_MAX_FILES.
    exact (parse_upto_ceiling cmpLZW cmpRLE _ _ content archive Hle H).
Qed.

Lemma parse_keeps_first_1024_files_witness :
  exists archive,
    Archive_DAT_FAST.parse sample_lzw sample_rle sample_1025_files = Ok archive
    /\ List.length (Archive.files archive) = 1024%nat.
Proof.
  destruct (parse_loop_empty_files sample_lzw sample_rle 1025 1025 ltac:(lia)
              0 Archive_DAT_FAST.FATENTRY_LEN [] ltac:(lia)) as [l [Hl Hn]].
  exists {| Archive.files := firstn Archive_DAT_FAST.MAX_FILES l |}.
  split.
  - apply (proj2 (proj2 (parse_keeps_first_1024_files sample_lzw sample_rle sample_1025_files))
             1025%nat {| Archive.files := l |}).
    + unfold Archive_DAT_FAST.MAX_FILES. lia.
    + unfold Archive_DAT_FAST.parse_upto, sample_1025_files.
      change (RecordBuffer.new (empty_files 1025))
        with (RecordBuffer.mk (empty_files 1025) (37 * 0)).
      rewrite Hl. reflexivity.
  - cbn [Archive.files]. rewrite length_firstn.
    unfold Archive_DAT_FAST.MAX_FILES. cbn [List.length] in Hn. lia.
Defined.

(** ** Decompression on demand *)

Section GetContent.

Import RecordBuffer Archive_DAT_FAST.

Variables cmpLZW cmpRLE : GameCompression.Handler.

Local Abbreviation make_file := (Archive_DAT_FAST.make_file cmpLZW cmpRLE).



End GetContent.



(** ** generate *)

Section Generate.

Import RecordBuffer Archive_DAT_FAST.

Variables cmpLZW cmpRLE : GameCompression.Handler.

Local Abbreviation generate_file := (Archive_DAT_FAST.generate_file cmpLZW cmpRLE).
Local Abbreviation generate_files := (Archive_DAT_FAST.generate_files cmpLZW cmpRLE).

Lemma length_mismatch_true (data : list byte) (nativeSize : option Z) :
  nativeSize <> Some (Z.of_nat (List.length data)) -> length_mismatch data nativeSize = true.
Proof.
  unfold length_mismatch. destruct nativeSize as [n|]; [|reflexivity].
  intros H. destruct (Z.eqb_spec (Z.of_nat (List.length data)) n) as [E|E]; [|reflexivity].
  subst n. contradiction.
Qed.

Lemma generate_file_mismatch (buffer : RecordBuffer.t) (file : Archive.File)
    (nativeData : list byte) :
  Archive.call_getContent file = Ok nativeData ->
  Archive.nativeSize (Archive.fields file) <> Some (Z.of_nat (List.length nativeData)) ->
  generate_file buffer file = Throw (Error "Length of data and nativeSize field do not match!").
Proof.
  intros Hget Hsize. unfold Archive_DAT_FAST.generate_file.
  destruct (entry_type_and_name _) as [code stored].
  rewrite Hget. cbn [bind].
  now rewrite (length_mismatch_true _ _ Hsize).
Qed.

Lemma generate_files_app (l1 l2 : list Archive.File) : forall buffer,
  generate_files buffer (l1 ++ l2) =
    (buffer' <- generate_files buffer l1 ;; generate_files buffer' l2).
Proof.
  induction l1 as [|f l1 IH]; intros buffer; [reflexivity|].
  cbn [app Archive_DAT_FAST.generate_files].
  destruct (generate_file buffer f) as [b|e]; cbn [bind]; [apply IH | reflexivity].
Qed.

Lemma generate_files_throws (files : list Archive.File) (file : Archive.File)
    (nativeData : list byte) :
  In file files ->
  Archive.call_getContent file = Ok nativeData ->
  Archive.nativeSize (Archive.fields file) <> Some (Z.of_nat (List.length nativeData)) ->
  forall buffer, exists e, generate_files buffer files = Throw e.
Proof.
  intros Hin Hget Hsize.
  induction files as [|f files IH]; intros buffer; [destruct Hin|].
  cbn [Archive_DAT_FAST.generate_files].
  destruct Hin as [->|Hin].
  - rewrite (generate_file_mismatch buffer file nativeData Hget Hsize). cbn [bind]. eauto.
  - destruct (generate_file buffer f) as [b|e]; cbn [bind]; [now apply IH | eauto].
Qed.

(** What [generate] writes for a file carries the type code and the stored
    name worked out from the file's name. *)
Lemma generate_file_entry (buffer buffer' : RecordBuffer.t) (file : Archive.File) :
  generate_file buffer file = Ok buffer' ->
  exists entry diskData,
    buffer' = put (writeRecord buffer entry) diskData
    /\ (typeCode entry, name entry) = entry_type_and_name (Archive.name (Archive.fields file)).
Proof.
  unfold Archive_DAT_FAST.generate_file.
  destruct (entry_type_and_name _) as [code stored].
  destruct (Archive.call_getContent file) as [nativeData|e]; cbn [bind]; [|discriminate].
  destruct (length_mismatch _ _); [discriminate|].
  destruct (Archive.compressed _) as [[|]|].
  - destruct (GameCompression.obscure cmpRLE _ _) as [packed|e]; cbn [bind]; [|discriminate].
    destruct (GameCompression.obscure cmpLZW _ _) as [diskData|e]; cbn [bind]; [|discriminate].
    intros H. injection H as <-. eauto.
  - cbn [bind]. intros H. injection H as <-. eauto.
  - destruct (GameCompression.obscure cmpRLE _ _) as [packed|e]; cbn [bind]; [|discriminate].
    destruct (GameCompression.obscure cmpLZW _ _) as [diskData|e]; cbn [bind]; [|discriminate].
    intros H. injection H as <-. eauto.
Qed.

End Generate.

(** C4. When the [getContent()] of a file of the archive returns data
    whose length is not the file's [nativeSize], [generate] throws: the
    turn of the loop on that file throws the error of the safety check
    before it writes anything, and so does [generate] itself when the files
    before that one went through. *)
Theorem generate_rejects_size_mismatch :
  forall (cmpLZW cmpRLE : GameCompression.Handler) (archive : Archive.t)
         (file : Archive.File) (nativeData : list byte),
    In file (Archive.files archive) ->
    Archive.call_getContent file = Ok nativeData ->
    Archive.nativeSize (Archive.fields file) <> Some (Z.of_nat (List.length nativeData)) ->
    (exists e, Archive_DAT_FAST.generate cmpLZW cmpRLE archive = Throw e)
    /\ (forall buffer,
          Archive_DAT_FAST.generate_file cmpLZW cmpRLE buffer file =
            Throw (Error "Length of data and nativeSize field do not match!"))
    /\ (forall pre post buffer0 buffer1,
          Archive.files archive = pre ++ file :: post ->
          RecordBuffer.alloc (Archive_DAT_FAST.generate_finalSize (Archive.files archive))
            = Ok buffer0 ->
          Archive_DAT_FAST.generate_files cmpLZW cmpRLE buffer0 pre = Ok buffer1 ->
          Archive_DAT_FAST.generate cmpLZW cmpRLE archive =
            Throw (Error "Length of data and nativeSize field do not match!")).
Proof.
  intros cmpLZW cmpRLE archive file nativeData Hin Hget Hsize.
  split; [|split].
  - unfold Archive_DAT_FAST.generate.
    destruct (RecordBuffer.alloc _) as [buffer|e]; cbn [bind]; [|eauto].
    destruct (generate_files_throws cmpLZW cmpRLE _ file nativeData Hin Hget Hsize buffer)
      as [e ->].
    cbn [bind]. eauto.
  - intros buffer. exact (generate_file_mismatch cmpLZW cmpRLE buffer file nativeData Hget Hsize).
  - intros pre post buffer0 buffer1 Hfiles Halloc Hpre.
    unfold Archive_DAT_FAST.generate. rewrite Halloc. cbn [bind].
    rewrite Hfiles, generate_files_app, Hpre. cbn [bind Archive_DAT_FAST.generate_files].
    rewrite (generate_file_mismatch cmpLZW cmpRLE buffer1 file nativeData Hget Hsize).
    reflexivity.
Qed.

Lemma generate_rejects_size_mismatch_witness :
  Archive_DAT_FAST.generate sample_lzw sample_rle
    {| Archive.files := [sample_good_file; sample_stale_file] |} =
    Throw (Error "Length of data and nativeSize field do not match!").
Proof.
  refine (proj2 (proj2 (generate_rejects_size_mismatch sample_lzw sample_rle
             {| Archive.files := [sample_good_file; sample_stale_file] |}
             sample_stale_file [x01; x02; x03] _ _ _))
           [sample_good_file] [] (RecordBuffer.mk [] 0) _ _ _ _).
  - simpl. auto.
  - reflexivity.
  - simpl. discriminate.
  - reflexivity.
  - reflexivity.
  - reflexivity.
Defined.

(** ** Type codes and filename extensions *)

Section Extensions.

Import RecordBuffer Archive_DAT_FAST.

Variables cmpLZW cmpRLE : GameCompression.Handler.

Lemma make_file_name_type (content : list byte) (offset : Z) (entry : fatEntry) :
  Archive.name (Archive.fields (make_file cmpLZW cmpRLE content offset entry)) =
    match FASTTypes_get (typeCode entry) with
    | Some (ext, _) => (name entry ++ ext)%string
    | None => name entry
    end
  /\ Archive.type (Archive.fields (make_file cmpLZW cmpRLE content offset entry)) =
       match FASTTypes_get (typeCode entry) with
       | Some (_, ty) => ty
       | None => None
       end.
Proof.
  unfold make_file. destruct (decompressedSize entry =? 0); split; reflexivity.
Qed.

Lemma entry_type_and_name_snd (file_name : string) :
  toLowerCase (substr_last 4 file_name) = ".snd" ->
  entry_type_and_name file_name = (8, file_name).
Proof.
  intros H. unfold entry_type_and_name. now rewrite H.
Qed.

Lemma entry_type_and_name_table (file_name : string) (code : Z) (ext : string)
    (ty : option string) :
  In (code, (ext, ty)) FASTTypes ->
  ext <> "" ->
  toLowerCase (substr_last 4 file_name) = ext ->
  entry_type_and_name file_name =
    (code, substr_first (Z.of_nat (String.length file_name) - 4) file_name).
Proof.
  intros Hin Hext Hlow. unfold entry_type_and_name. rewrite Hlow.
  unfold FASTTypes in Hin. simpl in Hin.
  repeat (destruct Hin as [Hin|Hin];
          [injection Hin as <- <- <-; try (now contradiction Hext); reflexivity|]).
  destruct Hin.
Qed.

Lemma entry_type_and_name_fallback (file_name : string) :
  toLowerCase (substr_last 4 file_name) <> ".snd" ->
  (forall code ext ty,
      In (code, (ext, ty)) FASTTypes -> ext <> "" ->
      toLowerCase (substr_last 4 file_name) <> ext) ->
  entry_type_and_name file_name = (32, file_name).
Proof.
  intros Hsnd Hnone. unfold entry_type_and_name.
  rewrite (proj2 (String.eqb_neq _ _) Hsnd).
  destruct (find _ FASTTypes) as [[code [ext ty]]|] eqn:E; [|reflexivity].
  apply find_some in E. destruct E as [Hin Htest]. simpl in Htest.
  apply andb_true_iff in Htest. destruct Htest as [H1 H2].
  apply String.eqb_eq in H2.
  exfalso. apply (Hnone code ext ty Hin); [|exact H2].
  intros ->. discriminate.
Qed.

Lemma string_of_list_ascii_app (l1 l2 : list ascii) :
  string_of_list_ascii (l1 ++ l2) =
    (string_of_list_ascii l1 ++ string_of_list_ascii l2)%string.
Proof.
  induction l1 as [|c l1 IH]; simpl; [reflexivity | now rewrite IH].
Qed.

(** The stored name and the last four characters make up the name. *)
Lemma substr_first_last (s : string) :
  (substr_first (Z.of_nat (String.length s) - 4) s ++ substr_last 4 s)%string = s.
Proof.
  unfold substr_first, substr_last.
  rewrite <- string_of_list_ascii_app.
  replace (Z.to_nat (Z.of_nat (String.length s) - 4)) with (String.length s - 4)%nat by lia.
  rewrite firstn_skipn. apply string_of_list_ascii_of_string.
Qed.

End Extensions.

(** C3. [parse] gives the record with type code 1 and stored name LEVEL1
    the name LEVEL1.mbg and the type map/fast-bg. [generate] gives the file
    LEVEL1.mbg the type code 1 and the stored name LEVEL1, and writes them
    in the record of the file. In general the lower-cased last four
    characters of the name decide: .snd gives code 8 and keeps the name; an
    extension of the table gives its code and a stored name without the
    last four characters; anything else gives code 32 and keeps the name. *)
Theorem extension_mapping_fidelity :
  forall (cmpLZW cmpRLE : GameCompression.Handler),
    (forall content offset entry,
        Archive_DAT_FAST.typeCode entry = 1 ->
        Archive_DAT_FAST.name entry = "LEVEL1" ->
        let file := Archive_DAT_FAST.make_file cmpLZW cmpRLE content offset entry in
        Archive.name (Archive.fields file) = "LEVEL1.mbg"
        /\ Archive.type (Archive.fields file) = Some "map/fast-bg")
    /\ Archive_DAT_FAST.entry_type_and_name "LEVEL1.mbg" = (1, "LEVEL1")
    /\ (forall buffer buffer' file,
          Archive_DAT_FAST.generate_file cmpLZW cmpRLE buffer file = Ok buffer' ->
          exists entry diskData,
            buffer' = RecordBuffer.put (Archive_DAT_FAST.writeRecord buffer entry) diskData
            /\ (Archive_DAT_FAST.typeCode entry, Archive_DAT_FAST.name entry) =
                 Archive_DAT_FAST.entry_type_and_name (Archive.name (Archive.fields file)))
    /\ (forall file_name code ext ty,
          In (code, (ext, ty)) Archive_DAT_FAST.FASTTypes ->
          ext <> "" ->
          toLowerCase (substr_last 4 file_name) = ext ->
          let stored := substr_first (Z.of_nat (String.length file_name) - 4) file_name in
          Archive_DAT_FAST.entry_type_and_name file_name = (code, stored)
          /\ (stored ++ substr_last 4 file_name)%string = file_name)
    /\ (forall file_name,
          toLowerCase (substr_last 4 file_name) = ".snd" ->
          Archive_DAT_FAST.entry_type_and_name file_name = (8, file_name))
    /\ (forall file_name,
          toLowerCase (substr_last 4 file_name) <> ".snd" ->
          (forall code ext ty,
              In (code, (ext, ty)) Archive_DAT_FAST.FASTTypes -> ext <> "" ->
              toLowerCase (substr_last 4 file_name) <> ext) ->
          Archive_DAT_FAST.entry_type_and_name file_name = (32, file_name)).
Proof.
  intros cmpLZW cmpRLE.
  split; [|split; [reflexivity|split; [|split; [|split]]]].
  - intros content offset entry Hcode Hname file.
    destruct (make_file_name_type cmpLZW cmpRLE content offset entry) as [Hn Ht].
    subst file. rewrite Hn, Ht, Hcode, Hname. split; reflexivity.
  - intros buffer buffer' file. apply generate_file_entry.
  - intros file_name code ext ty Hin Hext Hlow stored. split.
    + now apply (entry_type_and_name_table file_name code ext ty).
    + apply substr_first_last.
  - exact entry_type_and_name_snd.
  - exact entry_type_and_name_fallback.
Qed.

Lemma extension_mapping_fidelity_witness :
  (exists file,
      Archive_DAT_FAST.parse sample_lzw sample_rle sample_level_container
        = Ok {| Archive.files := [file] |}
      /\ Archive.name (Archive.fields file) = "LEVEL1.mbg"
      /\ Archive.type (Archive.fields file) = Some "map/fast-bg")
  /\ (exists entry diskData,
        Archive_DAT_FAST.generate sample_lzw sample_rle
          {| Archive.files := [sample_level_file] |}
          = Ok (RecordBuffer.buffer
                  (RecordBuffer.put
                     (Archive_DAT_FAST.writeRecord (RecordBuffer.mk [] 0) entry) diskData))
        /\ (Archive_DAT_FAST.typeCode entry, Archive_DAT_FAST.name entry) = (1, "LEVEL1"))
  /\ Archive_DAT_FAST.generate sample_lzw sample_rle
       {| Archive.files := [sample_level_file] |} = Ok sample_level_container
  /\ Archive_DAT_FAST.entry_type_and_name "Level1.MBG" = (1, "Level1")
  /\ Archive_DAT_FAST.entry_type_and_name "BOOM.SND" = (8, "BOOM.SND")
  /\ Archive_DAT_FAST.entry_type_and_name "README.TXT" = (32, "README.TXT").
Proof.
  destruct (extension_mapping_fidelity sample_lzw sample_rle)
    as (Hparse & _ & Hwrite & Htable & Hsnd & Hother).
  split; [|split; [|split; [|split; [|split]]]].
  - exists (Archive_DAT_FAST.make_file sample_lzw sample_rle sample_level_container 37
              {| Archive_DAT_FAST.typeCode := 1; Archive_DAT_FAST.compressedSize := 3;
                 Archive_DAT_FAST.name := "LEVEL1"; Archive_DAT_FAST.decompressedSize := 0 |}).
    split; [reflexivity|].
    apply Hparse; reflexivity.
  - destruct (Hwrite (RecordBuffer.mk [] 0)
                (RecordBuffer.mk sample_level_container 40) sample_level_file eq_refl)
      as (entry & diskData & Hbuffer & Hentry).
    exists entry, diskData. split; [|exact Hentry].
    rewrite <- Hbuffer. reflexivity.
  - reflexivity.
  - apply (Htable "Level1.MBG" 1 ".mbg" (Some "map/fast-bg")).
    + simpl. auto.
    + discriminate.
    + reflexivity.
  - apply (Hsnd "BOOM.SND"). reflexivity.
  - apply (Hother "README.TXT").
    + vm_compute. discriminate.
    + intros code ext ty Hin Hext.
      unfold Archive_DAT_FAST.FASTTypes in Hin. simpl in Hin.
      repeat (destruct Hin as [Hin|Hin];
              [injection Hin as <- <- <-; vm_compute; discriminate|]).
      destruct Hin.
Defined.

(** * Further properties of the registry *)

Section RegistryLookup.

Import GameArchive.

Variable fileTypes : list ArchiveHandler.

Lemma getHandler_first (type : string) : forall l h,
  NoDup (map (fun x => id (metadata x)) l) ->
  In h l -> id (metadata h) = type ->
  find (fun x => String.eqb type (id (metadata x))) l = Some h.
Proof.
  induction l as [|x l IH]; intros h Hnd Hin Hid; [destruct Hin|].
  cbn [find]. inversion Hnd as [|? ? Hnotin Hnd']; subst.
  destruct Hin as [->|Hin].
  - now rewrite String.eqb_refl.
  - destruct (String.eqb_spec (id (metadata h)) (id (metadata x))) as [E|E].
    + exfalso. apply Hnotin. rewrite <- E.
      now apply (in_map (fun x => id (metadata x))).
    + now apply IH.
Qed.

Lemma consulted_app (l1 l2 : list event) :
  consulted (l1 ++ l2) = consulted l1 ++ consulted l2.
Proof. unfold consulted. apply flat_map_app. Qed.

Variables content filename : jsval.

(** The calls the loop makes when no handler on its way is certain, and
    when one is. *)
Lemma findHandler_loop_trace_no_match rest : forall handlers log,
  Forall (reports_no_match content filename) rest ->
  consulted (fst (findHandler_loop content filename rest handlers log)) =
    consulted log ++ map (fun x => id (metadata x)) rest.
Proof.
  induction rest as [|x rest IH]; intros handlers log Hall.
  - simpl. now rewrite app_nil_r.
  - inversion Hall as [|? ? [v [Hv Hne]] Hrest]; subst.
    unfold reports in Hv. destruct (get_prop_reason _ _ Hv) as [r Hr].
    cbn [findHandler_loop]. rewrite Hv, Hr. cbn [bind].
    rewrite (is_true_false _ Hne).
    destruct (is_undefined v); rewrite IH by assumption;
      rewrite !consulted_app; cbn; rewrite ?app_nil_r, <- ?app_assoc; reflexivity.
Qed.

Lemma findHandler_loop_trace_match pre : forall h post handlers log,
  Forall (reports_no_match content filename) pre ->
  reports h content filename (JBool true) ->
  consulted (fst (findHandler_loop content filename (pre ++ h :: post) handlers log)) =
    consulted log ++ map (fun x => id (metadata x)) (pre ++ [h]).
Proof.
  induction pre as [|x pre IH]; intros h post handlers log Hpre Hh.
  - unfold reports in Hh. destruct (get_prop_reason _ _ Hh) as [r Hr].
    cbn [app findHandler_loop]. rewrite Hh, Hr. cbn [bind is_true fst].
    rewrite !consulted_app. cbn. rewrite ?app_nil_r, <- ?app_assoc. reflexivity.
  - inversion Hpre as [|? ? [v [Hv Hne]] Hrest]; subst.
    unfold reports in Hv. destruct (get_prop_reason _ _ Hv) as [r Hr].
    cbn [app findHandler_loop]. rewrite Hv, Hr. cbn [bind].
    rewrite (is_true_false _ Hne).
    destruct (is_undefined v); rewrite IH by assumption;
      rewrite !consulted_app; cbn; rewrite ?app_nil_r, <- ?app_assoc; reflexivity.
Qed.

(** Whatever the loop returns holds the candidates it started with and
    handlers of its list that reported [true] or [undefined]. *)
Lemma findHandler_loop_sound rest : forall handlers log l h,
  snd (findHandler_loop content filename rest handlers log) = Ok l ->
  In h l ->
  In h handlers \/
  (In h rest /\ (reports h content filename (JBool true)
                 \/ reports h content filename JUndefined)).
Proof.
  induction rest as [|x rest IH]; intros handlers log l h Hres Hin.
  - simpl in Hres. injection Hres as <-. now left.
  - cbn [findHandler_loop] in Hres.
    destruct (get_prop (identify x content filename) "valid") as [v|e] eqn:Hv;
      cbn [bind] in Hres; [|discriminate].
    destruct (get_prop_reason _ _ Hv) as [r Hr]. rewrite Hr in Hres. cbn [bind] in Hres.
    destruct (is_true v) eqn:Ht.
    + simpl in Hres. injection Hres as <-. destruct Hin as [<-|[]].
      right. split; [now left|]. left. apply is_true_spec in Ht. now subst v.
    + destruct (is_undefined v) eqn:Hu.
      * destruct (IH _ _ _ _ Hres Hin) as [Hacc|[Hrest Hrep]].
        -- apply in_app_or in Hacc. destruct Hacc as [Hacc|[<-|[]]]; [now left|].
           right. split; [now left|]. right.
           destruct v; try discriminate. exact Hv.
        -- right. split; [now right | exact Hrep].
      * destruct (IH _ _ _ _ Hres Hin) as [Hacc|[Hrest Hrep]]; [now left|].
        right. split; [now right | exact Hrep].
Qed.

End RegistryLookup.

(** X1. [getHandler] returns a registered handler whose id is the one asked
    for, and nothing exactly when no registered handler has that id; when
    the ids of the registry are distinct, every registered handler is
    found under its own id. *)
Theorem getHandler_finds_by_id :
  forall (fileTypes : list GameArchive.ArchiveHandler),
    (forall type h,
        GameArchive.getHandler fileTypes type = Some h ->
        In h fileTypes /\ GameArchive.id (GameArchive.metadata h) = type)
    /\ (forall type,
          GameArchive.getHandler fileTypes type = None <->
          forall h, In h fileTypes -> GameArchive.id (GameArchive.metadata h) <> type)
    /\ (NoDup (map (fun x => GameArchive.id (GameArchive.metadata x)) fileTypes) ->
        forall h, In h (GameArchive.listHandlers fileTypes) ->
          GameArchive.getHandler fileTypes (GameArchive.id (GameArchive.metadata h)) = Some h).
Proof.
  intros fileTypes. unfold GameArchive.getHandler, GameArchive.listHandlers.
  split; [|split].
  - intros type h H. apply find_some in H. destruct H as [Hin Heq].
    apply String.eqb_eq in Heq. auto.
  - intros type. split.
    + intros H h Hin Hid.
      pose proof (find_none _ _ H h Hin) as Hne. cbn beta in Hne.
      rewrite Hid, String.eqb_refl in Hne. discriminate.
    + intros H.
      destruct (find _ fileTypes) as [h|] eqn:E; [|reflexivity].
      apply find_some in E. destruct E as [Hin Heq].
      apply String.eqb_eq in Heq. exfalso. now apply (H h Hin).
  - intros Hnd h Hin. now apply getHandler_first.
Qed.

Lemma getHandler_finds_by_id_witness :
  GameArchive.getHandler [handler_unsure; handler_certain; handler_bare_false] "arc-certain"
    = Some handler_certain
  /\ GameArchive.getHandler [handler_unsure; handler_certain] "arc-grp-build" = None.
Proof.
  split.
  - refine (proj2 (proj2 (getHandler_finds_by_id
                            [handler_unsure; handler_certain; handler_bare_false]))
              _ handler_certain _).
    + repeat constructor; simpl; intuition discriminate.
    + simpl. auto.
  - apply (proj1 (proj2 (getHandler_finds_by_id [handler_unsure; handler_certain]))).
    intros h [<-|[<-|[]]]; discriminate.
Defined.

(** X2. A handler that [findHandler] returns is registered and reported
    [valid === true] or [valid === undefined]: one that reported [false],
    or anything else, is never returned. *)
Theorem findHandler_returns_only_candidates :
  forall (fileTypes : list GameArchive.ArchiveHandler) (content filename : jsval)
         (l : list GameArchive.ArchiveHandler) (h : GameArchive.ArchiveHandler),
    GameArchive.findHandler fileTypes content filename = Ok l ->
    In h l ->
    In h fileTypes
    /\ (reports h content filename (JBool true) \/ reports h content filename JUndefined).
Proof.
  intros fileTypes content filename l h Hres Hin.
  unfold GameArchive.findHandler, GameArchive.findHandler_run in Hres.
  destruct (get_prop content "length") as [len|e]; [|discriminate].
  destruct (is_undefined len); [discriminate|].
  destruct (findHandler_loop_sound content filename _ _ _ _ _ Hres Hin) as [[]|H].
  exact H.
Qed.

Lemma findHandler_returns_only_candidates_witness :
  In handler_unsure [handler_unimplemented; handler_unsure]
  /\ (reports handler_unsure (JUint8Array []) JUndefined (JBool true)
      \/ reports handler_unsure (JUint8Array []) JUndefined JUndefined).
Proof.
  apply (findHandler_returns_only_candidates [handler_unimplemented; handler_unsure]
           (JUint8Array []) JUndefined [handler_unsure] handler_unsure).
  - reflexivity.
  - simpl. auto.
Defined.

(** X3. On a content buffer [findHandler] calls [identify] in priority
    order and stops at the first handler that reports [true]: the handlers
    after it are not called. With no such handler every registered handler
    is called once. *)
Theorem findHandler_stops_at_certain_match :
  forall (fileTypes : list GameArchive.ArchiveHandler) (bytes : list byte) (filename : jsval),
    let content := JUint8Array bytes in
    let called := GameArchive.consulted
                    (fst (GameArchive.findHandler_run fileTypes content filename)) in
    (forall pre h post,
        fileTypes = pre ++ h :: post ->
        Forall (reports_no_match content filename) pre ->
        reports h content filename (JBool true) ->
        called = map (fun x => GameArchive.id (GameArchive.metadata x)) (pre ++ [h]))
    /\ (Forall (reports_no_match content filename) fileTypes ->
        called = map (fun x => GameArchive.id (GameArchive.metadata x)) fileTypes).
Proof.
  intros fileTypes bytes filename content called. subst called.
  split.
  - intros pre h post -> Hpre Hh.
    change (GameArchive.findHandler_run (pre ++ h :: post) content filename)
      with (GameArchive.findHandler_loop content filename (pre ++ h :: post) []
              [GameArchive.Debug_autodetecting]).
    now rewrite findHandler_loop_trace_match.
  - intros Hall.
    change (GameArchive.findHandler_run fileTypes content filename)
      with (GameArchive.findHandler_loop content filename fileTypes []
              [GameArchive.Debug_autodetecting]).
    now rewrite findHandler_loop_trace_no_match.
Qed.

Lemma findHandler_stops_at_certain_match_witness :
  GameArchive.consulted
    (fst (GameArchive.findHandler_run
            [handler_unsure; handler_certain; handler_bare_false; handler_unsure]
            (JUint8Array []) JUndefined))
    = ["arc-unsure"; "arc-certain"].
Proof.
  apply (proj1 (findHandler_stops_at_certain_match
                  [handler_unsure; handler_certain; handler_bare_false; handler_unsure]
                  [] JUndefined)
           [handler_unsure] handler_certain [handler_bare_false; handler_unsure]).
  - reflexivity.
  - repeat constructor. exists JUndefined. split; [reflexivity | discriminate].
  - reflexivity.
Defined.

(** X4. The guard of [findHandler] tests for a [length] and nothing else:
    a content of [null] or [undefined] raises a [TypeError] instead of the
    error of the guard, with no handler called, and a string goes through
    to the handlers. *)
Theorem findHandler_guard_tests_length_only :
  forall (fileTypes : list GameArchive.ArchiveHandler) (filename : jsval),
    (forall content, content = JNull \/ content = JUndefined ->
       exists msg,
         GameArchive.findHandler_run fileTypes content filename =
           ([GameArchive.Debug_autodetecting], Throw (TypeError msg)))
    /\ (forall s,
          GameArchive.findHandler_run fileTypes (JStr s) filename =
            GameArchive.findHandler_loop (JStr s) filename fileTypes []
              [GameArchive.Debug_autodetecting])
    /\ (forall s h rest,
          fileTypes = h :: rest ->
          reports h (JStr s) filename (JBool true) ->
          GameArchive.findHandler fileTypes (JStr s) filename = Ok [h]).
Proof.
  intros fileTypes filename. split; [|split].
  - intros content [->| ->]; eexists; reflexivity.
  - intros s. reflexivity.
  - intros s h rest -> Hh.
    unfold GameArchive.findHandler.
    change (GameArchive.findHandler_run (h :: rest) (JStr s) filename)
      with (GameArchive.findHandler_loop (JStr s) filename ([] ++ h :: rest) []
              [GameArchive.Debug_autodetecting]).
    apply findHandler_loop_first_match; [constructor | exact Hh].
Qed.

Lemma findHandler_guard_tests_length_only_witness :
  (exists msg,
      GameArchive.findHandler_run [handler_certain] JNull JUndefined =
        ([GameArchive.Debug_autodetecting], Throw (TypeError msg)))
  /\ GameArchive.findHandler [handler_certain; handler_unsure] (JStr "not bytes") JUndefined
       = Ok [handler_certain].
Proof.
  split.
  - apply (proj1 (findHandler_guard_tests_length_only [handler_certain] JUndefined)).
    now left.
  - apply (proj2 (proj2 (findHandler_guard_tests_length_only
                           [handler_certain; handler_unsure] JUndefined))
             "not bytes" handler_certain [handler_unsure]); reflexivity.
Defined.

(** X5. A handler whose [identify] returns [null] or [undefined], reached
    before any handler is certain, makes [findHandler] throw a [TypeError]:
    the candidates gathered before it are not returned. *)
Theorem findHandler_throws_on_missing_verdict :
  forall (pre post : list GameArchive.ArchiveHandler) (h : GameArchive.ArchiveHandler)
         (bytes : list byte) (filename : jsval),
    let content := JUint8Array bytes in
    Forall (reports_no_match content filename) pre ->
    GameArchive.identify h content filename = JUndefined
    \/ GameArchive.identify h content filename = JNull ->
    exists msg,
      GameArchive.findHandler (pre ++ h :: post) content filename = Throw (TypeError msg).
Proof.
  intros pre post h bytes filename content Hpre Hnone.
  unfold GameArchive.findHandler.
  change (GameArchive.findHandler_run (pre ++ h :: post) content filename)
    with (GameArchive.findHandler_loop content filename (pre ++ h :: post) []
            [GameArchive.Debug_autodetecting]).
  generalize (@nil GameArchive.ArchiveHandler) as handlers.
  generalize [GameArchive.Debug_autodetecting] as log.
  induction pre as [|x pre IH]; intros log handlers.
  - cbn [app GameArchive.findHandler_loop].
    destruct Hnone as [-> | ->]; cbn; eauto.
  - inversion Hpre as [|? ? [v [Hv Hne]] Hrest]; subst.
    rewrite <- app_comm_cons.
    destruct (findHandler_loop_step content filename x v (pre ++ h :: post) handlers log Hv)
      as [log' ->].
    rewrite (is_true_false _ Hne).
    destruct (is_undefined v); now apply IH.
Qed.

Lemma findHandler_throws_on_missing_verdict_witness :
  exists msg,
    GameArchive.findHandler [handler_unsure; handler_silent; handler_certain]
      (JUint8Array []) JUndefined = Throw (TypeError msg).
Proof.
  apply (findHandler_throws_on_missing_verdict [handler_unsure] [handler_certain]
           handler_silent [] JUndefined).
  - repeat constructor. exists JUndefined. split; [reflexivity | discriminate].
  - now left.
Defined.

(** * Properties of the base class *)

Section CheckLimits.

Import ArchiveHandler.

Lemma warn_unset_nativeSize_ok (files : list Archive.File) :
  unset_sizes_empty {| Archive.files := files |} ->
  warn_unset_nativeSize files = Ok tt.
Proof.
  unfold unset_sizes_empty. cbn [Archive.files].
  induction files as [|file files IH]; intros Hempty; [reflexivity|].
  cbn [warn_unset_nativeSize].
  assert (Hrest : warn_unset_nativeSize files = Ok tt)
    by (apply IH; intros f Hf; apply Hempty; now right).
  destruct (Archive.nativeSize (Archive.fields file)) as [[| |]|] eqn:E; try exact Hrest.
  rewrite (Hempty file (or_introl eq_refl) E). exact Hrest.
Qed.

(** The loop stops at the first file of size 0 whose content cannot be
    fetched or is not empty. *)
Lemma warn_unset_nativeSize_app (pre rest : list Archive.File) :
  unset_sizes_empty {| Archive.files := pre |} ->
  warn_unset_nativeSize (pre ++ rest) = warn_unset_nativeSize rest.
Proof.
  unfold unset_sizes_empty. cbn [Archive.files].
  induction pre as [|f pre IH]; intros Hempty; [reflexivity|].
  cbn [app warn_unset_nativeSize].
  assert (Hrest : warn_unset_nativeSize (pre ++ rest) = warn_unset_nativeSize rest)
    by (apply IH; intros g Hg; apply Hempty; now right).
  destruct (Archive.nativeSize (Archive.fields f)) as [[| |]|] eqn:E; try exact Hrest.
  rewrite (Hempty f (or_introl eq_refl) E). exact Hrest.
Qed.

Lemma flat_map_nil_iff {A B : Type} (f : A -> list B) (l : list A) :
  flat_map f l = [] <-> forall x, In x l -> f x = [].
Proof.
  induction l as [|a l IH]; simpl.
  - split; [intros _ x [] | reflexivity].
  - split.
    + intros H. apply app_eq_nil in H. destruct H as [Ha Hl].
      intros x [<-|Hx]; [exact Ha | now apply IH].
    + intros H. rewrite (H a (or_introl eq_refl)).
      apply IH. intros x Hx. apply H. now right.
Qed.

End CheckLimits.

(** What [checkLimits] returns when it does not throw. *)
Lemma checkLimits_returns (md : GameArchive.Metadata) (archive : Archive.t) :
  unset_sizes_empty archive ->
  exists issues,
    ArchiveHandler.checkLimits md archive = Ok issues
    /\ (issues = [] <-> count_within md archive /\ names_within md archive).
Proof.
  destruct archive as [files].
  intros Hread. unfold ArchiveHandler.checkLimits. cbn [Archive.files].
    rewrite (warn_unset_nativeSize_ok files Hread). cbn [bind].
    eexists. split; [reflexivity|].
    unfold count_within, names_within. cbn [Archive.files].
    split.
    + intros H. apply app_eq_nil in H. destruct H as [Hc Hn]. split.
      * destruct (GameArchive.caps_maxFileCount md) as [max|]; [|exact I].
        destruct (Z.eqb_spec max 0) as [E|E]; [now left|]. cbn [negb andb] in Hc.
        destruct (Z.ltb_spec max (Z.of_nat (List.length files))); [discriminate|].
        now right.
      * destruct (GameArchive.caps_file_maxFilenameLen md) as [max|]; [|exact I].
        intros file Hin.
        pose proof (proj1 (flat_map_nil_iff _ _) Hn file Hin) as Hf. cbn beta zeta in Hf.
        destruct (Z.ltb_spec max
                    (Z.of_nat (String.length (Archive.name (Archive.fields file)))));
          [discriminate | assumption].
    + intros [Hc Hn].
      assert (E1 : match GameArchive.caps_maxFileCount md with
                   | Some max =>
                       if negb (max =? 0) && (max <? Z.of_nat (List.length files))
                       then [("There are " ++ ArchiveHandler.decimal (Z.of_nat (List.length files))
                              ++ " files to save, but this "
                              ++ "archive format can only store up to "
                              ++ ArchiveHandler.decimal max ++ " files.")%string]
                       else []
                   | None => []
                   end = []).
      { destruct (GameArchive.caps_maxFileCount md) as [max|]; [|reflexivity].
        destruct Hc as [->|Hc]; [reflexivity|].
        destruct (Z.ltb_spec max (Z.of_nat (List.length files))); [lia|].
        now rewrite andb_false_r. }
      rewrite E1. cbn [app].
      destruct (GameArchive.caps_file_maxFilenameLen md) as [max|]; [|reflexivity].
      apply flat_map_nil_iff. intros file Hin. specialize (Hn file Hin).
      destruct (Z.ltb_spec max
                  (Z.of_nat (String.length (Archive.name (Archive.fields file)))));
        [lia | reflexivity].
Qed.

(** X6. When every file with a [nativeSize] of 0 has an empty content that
    can be fetched, [checkLimits] returns a list of issues, and the list is
    empty exactly when the file count is within the declared ceiling (none
    declared, or a ceiling of 0, counts as no ceiling) and every filename
    is within the declared length. The first zero-size file that is not so
    makes [checkLimits] throw instead of returning issues: the exception of
    [getContent] when the content cannot be fetched, and a [TypeError] when
    the content is not empty, because the warning meant for that case calls
    [Debug.warn], which is no function. *)
Theorem checkLimits_empty_iff_within_limits :
  forall (md : GameArchive.Metadata) (archive : Archive.t),
    (unset_sizes_empty archive ->
     exists issues,
       ArchiveHandler.checkLimits md archive = Ok issues
       /\ (issues = [] <-> count_within md archive /\ names_within md archive))
    /\ (forall pre file post e,
          Archive.files archive = pre ++ file :: post ->
          unset_sizes_empty {| Archive.files := pre |} ->
          Archive.nativeSize (Archive.fields file) = Some 0 ->
          Archive.call_getContent file = Throw e ->
          ArchiveHandler.checkLimits md archive = Throw e)
    /\ (forall pre file post data,
          Archive.files archive = pre ++ file :: post ->
          unset_sizes_empty {| Archive.files := pre |} ->
          Archive.nativeSize (Archive.fields file) = Some 0 ->
          Archive.call_getContent file = Ok data ->
          data <> [] ->
          ArchiveHandler.checkLimits md archive =
            Throw (TypeError "Debug.warn is not a function")).
Proof.
  intros md archive. split; [apply checkLimits_returns|].
  destruct archive as [files]. cbn [Archive.files]. split.
  - intros pre file post e -> Hread Hzero Hthrow.
    unfold ArchiveHandler.checkLimits. cbn [Archive.files].
    rewrite (warn_unset_nativeSize_app pre (file :: post) Hread).
    cbn [ArchiveHandler.warn_unset_nativeSize]. rewrite Hzero, Hthrow. reflexivity.
  - intros pre file post data -> Hread Hzero Hget Hdata.
    unfold ArchiveHandler.checkLimits. cbn [Archive.files].
    rewrite (warn_unset_nativeSize_app pre (file :: post) Hread).
    cbn [ArchiveHandler.warn_unset_nativeSize]. rewrite Hzero, Hget. cbn [bind].
    destruct data as [|b data]; [contradiction|]. reflexivity.
Qed.

Lemma checkLimits_empty_iff_within_limits_witness :
  (exists issues,
      ArchiveHandler.checkLimits sample_dos_metadata
        {| Archive.files := [sample_good_file; sample_level_file] |} = Ok issues
      /\ (issues = [] <->
          count_within sample_dos_metadata
            {| Archive.files := [sample_good_file; sample_level_file] |}
          /\ names_within sample_dos_metadata
               {| Archive.files := [sample_good_file; sample_level_file] |}))
  /\ ArchiveHandler.checkLimits sample_dos_metadata
       {| Archive.files := [sample_good_file; sample_unreadable_file] |}
       = Throw (Error "getRaw() not implemented")
  /\ ArchiveHandler.checkLimits sample_dos_metadata
       {| Archive.files := [sample_good_file; sample_unset_file] |}
       = Throw (TypeError "Debug.warn is not a function").
Proof.
  split; [|split].
  - apply (proj1 (checkLimits_empty_iff_within_limits sample_dos_metadata
                    {| Archive.files := [sample_good_file; sample_level_file] |})).
    intros file [<-|[<-|[]]] H; discriminate H.
  - apply (proj1 (proj2 (checkLimits_empty_iff_within_limits sample_dos_metadata
                    {| Archive.files := [sample_good_file; sample_unreadable_file] |}))
             [sample_good_file] sample_unreadable_file []).
    + reflexivity.
    + intros file [<-|[]] H. discriminate H.
    + reflexivity.
    + reflexivity.
  - apply (proj2 (proj2 (checkLimits_empty_iff_within_limits sample_dos_metadata
                    {| Archive.files := [sample_good_file; sample_unset_file] |}))
             [sample_good_file] sample_unset_file [] [x01]).
    + reflexivity.
    + intros file [<-|[]] H. discriminate H.
    + reflexivity.
    + reflexivity.
    + discriminate.
Defined.

(** X7. Under the metadata of the F.A.S.T. handler the number of files is
    never an issue, and a file whose [nativeSize] is not the length of its
    content is none either: an archive with such a file, whose names have
    30 characters at most and whose zero-size files are empty, gets an
    empty list from [checkLimits] and an exception from [generate]. *)
Theorem checkLimits_misses_size_mismatch :
  forall (cmpLZW cmpRLE : GameCompression.Handler) (archive : Archive.t)
         (file : Archive.File) (data : list byte),
    names_within Archive_DAT_FAST.metadata archive ->
    unset_sizes_empty archive ->
    In file (Archive.files archive) ->
    Archive.call_getContent file = Ok data ->
    Archive.nativeSize (Archive.fields file) <> Some (Z.of_nat (List.length data)) ->
    count_within Archive_DAT_FAST.metadata archive
    /\ ArchiveHandler.checkLimits Archive_DAT_FAST.metadata archive = Ok []
    /\ (exists e, Archive_DAT_FAST.generate cmpLZW cmpRLE archive = Throw e).
Proof.
  intros cmpLZW cmpRLE archive file data Hnames Hread Hin Hget Hsize.
  assert (Hcount : count_within Archive_DAT_FAST.metadata archive) by exact I.
  split; [exact Hcount|]. split.
  - destruct (checkLimits_returns Archive_DAT_FAST.metadata archive Hread)
      as (issues & Hrun & Hiff).
    rewrite Hrun.
    now rewrite (proj2 Hiff (conj Hcount Hnames)).
  - unfold Archive_DAT_FAST.generate.
    destruct (RecordBuffer.alloc _) as [buffer|e]; cbn [bind]; [|eauto].
    destruct (generate_files_throws cmpLZW cmpRLE _ file data Hin Hget Hsize buffer)
      as [e ->].
    cbn [bind]. eauto.
Qed.

Lemma checkLimits_misses_size_mismatch_witness :
  ArchiveHandler.checkLimits Archive_DAT_FAST.metadata
    {| Archive.files := [sample_good_file; sample_stale_file] |} = Ok []
  /\ (exists e,
        Archive_DAT_FAST.generate sample_lzw sample_rle
          {| Archive.files := [sample_good_file; sample_stale_file] |} = Throw e).
Proof.
  apply (checkLimits_misses_size_mismatch sample_lzw sample_rle
           {| Archive.files := [sample_good_file; sample_stale_file] |}
           sample_stale_file [x01; x02; x03]).
  - intros file [<-|[<-|[]]]; vm_compute; discriminate.
  - intros file [<-|[<-|[]]] H; discriminate H.
  - simpl. auto.
  - reflexivity.
  - simpl. discriminate.
Defined.

(** * Walks along the records *)

Section Walks.

Import RecordBuffer Archive_DAT_FAST.

Lemma filename_chars_of_existsb (s : string) :
  existsb invalid_char (chars s) = false ->
  forall c, In c (chars s) -> filename_char c.
Proof.
  intros H c Hin. unfold filename_char.
  destruct (Z_le_gt_dec (charCode c) 32) as [Hlow|Hlow].
  - assert (E : existsb invalid_char (chars s) = true).
    { apply existsb_invalid_char. exists c. auto. }
    congruence.
  - destruct (Z_lt_le_dec 126 (charCode c)) as [Hhigh|Hhigh]; [|lia].
    assert (E : existsb invalid_char (chars s) = true).
    { apply existsb_invalid_char. exists c. auto. }
    congruence.
Qed.

Lemma valid_walk_walk (rb0 rb : RecordBuffer.t) (k : nat) :
  valid_walk rb0 k rb -> walk rb0 k rb.
Proof.
  induction 1 as [rb|rb rb1 rb' e k Hread _ _ _ IH]; [constructor|].
  now apply (walk_next rb rb1 rb' e).
Qed.

Lemma walk_buffer (rb0 rb : RecordBuffer.t) (k : nat) :
  walk rb0 k rb -> buffer rb = buffer rb0 /\ 0 <= pos rb - pos rb0.
Proof.
  induction 1 as [rb|rb rb1 rb' e k Hread _ [IHb IHp]]; [split; [reflexivity | lia]|].
  destruct (readRecord_inv _ _ _ Hread) as (_ & Hlen & Hcs & _ & ->).
  unfold seekRel, advance, distFromEnd, RecordBuffer.length, FATENTRY_LEN in *.
  cbn [buffer pos] in *. split; [exact IHb | lia].
Qed.

(** The loop of [identify] answers [true] only at the end of a walk it
    lets through, shorter than the turns it has. *)
Lemma identify_loop_true_walk (n : nat) : forall (i : Z) (rb0 : RecordBuffer.t) line,
  identify_loop n i rb0 = Ok (line, true) ->
  exists k rb, (k < n)%nat /\ valid_walk rb0 k rb /\ distFromEnd rb = 0.
Proof.
  induction n as [|n IH]; intros i rb0 line H; [discriminate|].
  cbn [identify_loop] in H.
  destruct (Z.eqb_spec (distFromEnd rb0) 0) as [E0|E0].
  { exists 0%nat, rb0. repeat split; [lia | constructor | exact E0]. }
  destruct (distFromEnd rb0 <? FATENTRY_LEN); [discriminate|].
  destruct (readRecord rb0) as [[entry rb1]|e] eqn:Hread; cbn [bind] in H; [|discriminate].
  destruct (existsb invalid_char (chars (name entry))) eqn:Hname; [discriminate|].
  destruct (Z.ltb_spec (distFromEnd rb1) (compressedSize entry)) as [Hbig|Hfit];
    [discriminate|].
  destruct (IH _ _ _ H) as (k & rb & Hk & Hwalk & Hend).
  exists (S k), rb. repeat split; [lia | | exact Hend].
  apply (valid_next rb0 rb1 rb entry k Hread).
  - exact (filename_chars_of_existsb _ Hname).
  - exact Hfit.
  - exact Hwalk.
Qed.

Lemma valid_walk_identify_true (rb0 rb : RecordBuffer.t) (k : nat) :
  valid_walk rb0 k rb ->
  distFromEnd rb = 0 ->
  forall (n : nat) (i : Z), (k < n)%nat ->
    identify_loop n i rb0 = Ok (EOF_at_correct_place, true).
Proof.
  induction 1 as [rb|rb rb1 rb' e k Hread Hname Hfit _ IH]; intros Hend n i Hk.
  - destruct n as [|n]; [lia|]. now apply identify_loop_eof.
  - destruct n as [|n]; [lia|].
    rewrite (identify_loop_step _ _ _ _ _ Hread).
    rewrite (existsb_filename_chars _ Hname).
    destruct (Z.ltb_spec (distFromEnd rb1) (compressedSize e)); [lia|].
    apply IH; [exact Hend | lia].
Qed.

Lemma valid_walk_identify_too_many (rb0 rb : RecordBuffer.t) (k : nat) :
  valid_walk rb0 k rb ->
  forall (n : nat) (i : Z), (n <= k)%nat ->
    identify_loop n i rb0 = Ok (Too_many_files, false).
Proof.
  induction 1 as [rb|rb rb1 rb' e k Hread Hname Hfit _ IH]; intros n i Hk.
  - destruct n as [|n]; [reflexivity | lia].
  - destruct n as [|n]; [reflexivity|].
    rewrite (identify_loop_step _ _ _ _ _ Hread).
    rewrite (existsb_filename_chars _ Hname).
    destruct (Z.ltb_spec (distFromEnd rb1) (compressedSize e)); [lia|].
    apply IH. lia.
Qed.

End Walks.

(** An input that [identify] accepts is a walk it lets through, shorter
    than the ceiling, to the end of the buffer. *)
Lemma identify_true_walk (content : list byte) :
  Archive_DAT_FAST.identify content = Ok (JBool true) ->
  exists k rb,
    (k < Archive_DAT_FAST.MAX_FILES)%nat
    /\ valid_walk (RecordBuffer.new content) k rb
    /\ RecordBuffer.distFromEnd rb = 0.
Proof.
  intros Hid.
  destruct (identify_loop_returns Archive_DAT_FAST.MAX_FILES 0 (RecordBuffer.new content))
    as (line & verdict & Hloop); [simpl; lia|].
  unfold Archive_DAT_FAST.identify, Archive_DAT_FAST.identify_log in Hid.
  rewrite Hloop in Hid. cbn [bind] in Hid. injection Hid as ->.
  exact (identify_loop_true_walk _ _ _ _ Hloop).
Qed.

(** X8. [identify] answers [true] exactly on the inputs that are fewer
    than 1024 records, each with a name of characters 33..126 (an empty
    name passes) and a body within the buffer, ending where the buffer
    ends. *)
Theorem identify_true_iff_valid_container :
  forall content : list byte,
    Archive_DAT_FAST.identify content = Ok (JBool true) <->
    exists k rb,
      (k < Archive_DAT_FAST.MAX_FILES)%nat
      /\ valid_walk (RecordBuffer.new content) k rb
      /\ RecordBuffer.distFromEnd rb = 0.
Proof.
  intros content. split.
  - apply identify_true_walk.
  - intros (k & rb & Hk & Hwalk & Hend).
    apply (identify_of_log content Archive_DAT_FAST.EOF_at_correct_place).
    exact (valid_walk_identify_true _ _ _ Hwalk Hend _ 0 Hk).
Qed.

Lemma identify_true_iff_valid_container_witness :
  Archive_DAT_FAST.identify sample_two_files = Ok (JBool true).
Proof.
  apply (proj2 (identify_true_iff_valid_container sample_two_files)).
  exists 2%nat, (RecordBuffer.mk sample_two_files 77).
  split; [unfold Archive_DAT_FAST.MAX_FILES; lia|]. split; [|reflexivity].
  apply (valid_next (RecordBuffer.new sample_two_files)
           (RecordBuffer.mk sample_two_files 37) _
           {| Archive_DAT_FAST.typeCode := 14; Archive_DAT_FAST.compressedSize := 2;
              Archive_DAT_FAST.name := "GAME"; Archive_DAT_FAST.decompressedSize := 0 |});
    [reflexivity | | vm_compute; discriminate |].
  { intros c Hin. simpl in Hin. unfold filename_char.
    decompose [or] Hin; subst; try contradiction; vm_compute; split; discriminate. }
  apply (valid_next (RecordBuffer.mk sample_two_files 39)
           (RecordBuffer.mk sample_two_files 76) _
           {| Archive_DAT_FAST.typeCode := 32; Archive_DAT_FAST.compressedSize := 1;
              Archive_DAT_FAST.name := "README.TXT";
              Archive_DAT_FAST.decompressedSize := 0 |});
    [reflexivity | | vm_compute; discriminate |].
  { intros c Hin. simpl in Hin. unfold filename_char.
    decompose [or] Hin; subst; try contradiction; vm_compute; split; discriminate. }
  apply valid_here.
Defined.

Section ParseWalks.

Import RecordBuffer Archive_DAT_FAST.

Variables cmpLZW cmpRLE : GameCompression.Handler.

Local Abbreviation parse_loop := (Archive_DAT_FAST.parse_loop cmpLZW cmpRLE).
Local Abbreviation make_file := (Archive_DAT_FAST.make_file cmpLZW cmpRLE).

Lemma slice_length (bytes : list byte) (offset len : Z) :
  0 <= offset -> 0 <= len -> offset + len <= Z.of_nat (List.length bytes) ->
  Z.of_nat (List.length (slice bytes offset len)) = len.
Proof.
  intros Ho Hl Hle. unfold slice. rewrite length_firstn, length_skipn. lia.
Qed.

(** The bytes of a body: [getU8] gives them when there are any, and
    refuses to give none. *)
Lemma getU8_body (content : list byte) (offset len : Z) :
  0 <= offset -> 0 < len -> offset + len <= Z.of_nat (List.length content) ->
  getU8 (RecordBuffer.new content) offset len = Ok (slice content offset len).
Proof.
  intros Ho Hl Hle. unfold getU8, RecordBuffer.length. cbn [buffer RecordBuffer.new].
  destruct (Z.eqb_spec len 0) as [E|_]; [lia|].
  assert (Hl' : 0 <= len) by lia.
  apply Z.leb_le in Ho, Hl', Hle. now rewrite Ho, Hl', Hle.
Qed.

Lemma getU8_no_bytes (content : list byte) (offset : Z) :
  0 < offset ->
  getU8 (RecordBuffer.new content) offset 0 = Throw (RangeError "Invalid typed array length").
Proof.
  intros Ho. unfold getU8, RecordBuffer.length. cbn [buffer RecordBuffer.new Z.eqb].
  destruct (Z.leb_spec (offset + Z.of_nat (List.length content))
              (Z.of_nat (List.length content))) as [H|_]; [lia|].
  now rewrite andb_false_r.
Qed.

Lemma make_file_getRaw (content : list byte) (offset : Z) (entry : fatEntry) :
  Archive.call_getRaw (make_file content offset entry) =
    getU8 (RecordBuffer.new content) offset (compressedSize entry)
  /\ Archive.diskSize (Archive.fields (make_file content offset entry)) = compressedSize entry.
Proof.
  unfold Archive.call_getRaw, Archive_DAT_FAST.make_file.
  destruct (decompressedSize entry =? 0); split; reflexivity.
Qed.

(** The content of a file goes through its raw bytes: when these cannot
    be fetched, neither can the content. *)
Lemma make_file_getContent_throws (content : list byte) (offset : Z) (entry : fatEntry)
    (e : exn) :
  Archive.call_getRaw (make_file content offset entry) = Throw e ->
  Archive.call_getContent (make_file content offset entry) = Throw e.
Proof.
  unfold Archive.call_getRaw, Archive.call_getContent, Archive_DAT_FAST.make_file,
    Archive.default_getContent.
  destruct (decompressedSize entry =? 0);
    cbn [Archive.fields Archive.getRaw Archive.getContent]; intros ->; reflexivity.
Qed.

Lemma make_file_readable (content : list byte) (offset : Z) (entry : fatEntry) :
  0 < offset -> 0 <= compressedSize entry ->
  offset + compressedSize entry <= Z.of_nat (List.length content) ->
  readable (make_file content offset entry).
Proof.
  intros Ho Hcs Hle.
  destruct (make_file_getRaw content offset entry) as [Hraw Hdisk].
  unfold readable. rewrite Hdisk. split.
  - intros Hne. exists (slice content offset (compressedSize entry)).
    assert (Hget : Archive.call_getRaw (make_file content offset entry) =
                   Ok (slice content offset (compressedSize entry)))
      by (rewrite Hraw; apply getU8_body; lia).
    split; [exact Hget|].
    split; [apply slice_length; lia|].
    revert Hget.
    unfold Archive_DAT_FAST.make_file, Archive.call_getRaw, Archive.call_getContent,
      Archive.default_getContent.
    destruct (decompressedSize entry =? 0);
      cbn [Archive.fields Archive.getRaw Archive.getContent Archive.diskSize
           Archive.nativeSize Archive.attributes Archive.compressed].
    + intros Hget _. split; [exact Hget|].
      f_equal. symmetry. apply slice_length; lia.
    + intros _ H. discriminate H.
  - intros Hzero.
    assert (Hget : Archive.call_getRaw (make_file content offset entry) =
                   Throw (RangeError "Invalid typed array length"))
      by (rewrite Hraw, Hzero; apply getU8_no_bytes; lia).
    eexists. split; [exact Hget|]. now apply make_file_getContent_throws.
Qed.

(** Along records that can be read, [parse] reads one file a record until
    its turns run out. *)
Lemma parse_loop_walk (content : list byte) (rb0 rb : RecordBuffer.t) (k : nat) :
  walk rb0 k rb ->
  forall n off acc, (n <= k)%nat ->
    exists l, parse_loop content n rb0 off acc = Ok l
              /\ List.length l = (List.length acc + n)%nat.
Proof.
  induction 1 as [rb|rb rb1 rb' e k Hread _ IH]; intros n off acc Hn.
  - destruct n as [|n]; [|lia]. exists acc. split; [reflexivity | lia].
  - destruct n as [|n]; [exists acc; split; [reflexivity | lia]|].
    cbn [Archive_DAT_FAST.parse_loop].
    destruct (readRecord_inv _ _ _ Hread) as (_ & Hlen & _).
    destruct (Z.eqb_spec (distFromEnd rb) 0) as [E|_]; [unfold FATENTRY_LEN in Hlen; lia|].
    rewrite Hread. cbn [bind].
    destruct (IH n (off + (compressedSize e + FATENTRY_LEN))
                (acc ++ [make_file content off e])) as [l [Hl Hlen']]; [lia|].
    exists l. split; [exact Hl|]. rewrite length_app in Hlen'. simpl in Hlen'. lia.
Qed.

(** Where the records stop short of a whole record, [parse] throws. *)
Lemma parse_loop_walk_throws (content : list byte) (rb0 rb : RecordBuffer.t) (k : nat) :
  walk rb0 k rb ->
  distFromEnd rb <> 0 -> distFromEnd rb < FATENTRY_LEN ->
  forall n off acc, (k < n)%nat ->
    exists e, parse_loop content n rb0 off acc = Throw e.
Proof.
  induction 1 as [rb|rb rb1 rb' e k Hread _ IH]; intros Hne Hlt n off acc Hn.
  - destruct n as [|n]; [lia|].
    cbn [Archive_DAT_FAST.parse_loop].
    rewrite (proj2 (Z.eqb_neq _ _) Hne).
    destruct (readRecord rb) as [[entry rb1]|e] eqn:Hread; cbn [bind]; [|eauto].
    destruct (readRecord_inv _ _ _ Hread) as (_ & Hlen & _). lia.
  - destruct n as [|n]; [lia|].
    cbn [Archive_DAT_FAST.parse_loop].
    destruct (readRecord_inv _ _ _ Hread) as (_ & Hlen & _).
    destruct (Z.eqb_spec (distFromEnd rb) 0) as [E|_]; [unfold FATENTRY_LEN in Hlen; lia|].
    rewrite Hread. cbn [bind].
    apply IH; [exact Hne | exact Hlt | lia].
Qed.

(** Where the body of a record runs past the end, the seek over it stops
    at the end and [parse] returns, with a file for that record too. *)
Lemma parse_loop_walk_overrun (content : list byte) (rb0 rb : RecordBuffer.t) (k : nat) :
  walk rb0 k rb ->
  forall (entry : fatEntry) (rb1 : RecordBuffer.t),
    readRecord rb = Ok (entry, rb1) ->
    distFromEnd rb1 < compressedSize entry ->
    forall n off acc, (k < n)%nat ->
      exists l, parse_loop content n rb0 off acc = Ok l
                /\ List.length l = (List.length acc + S k)%nat.
Proof.
  induction 1 as [rb|rb rb1 rb' e k Hread _ IH]; intros entry rb2 Hrec Hbig n off acc Hn.
  - destruct n as [|n]; [lia|].
    cbn [Archive_DAT_FAST.parse_loop].
    destruct (readRecord_inv _ _ _ Hrec) as (_ & Hlen & _).
    destruct (Z.eqb_spec (distFromEnd rb) 0) as [E|_]; [unfold FATENTRY_LEN in Hlen; lia|].
    rewrite Hrec. cbn [bind].
    exists (acc ++ [make_file content off entry]).
    split; [|rewrite length_app; simpl; lia].
    destruct n as [|n]; [reflexivity|].
    cbn [Archive_DAT_FAST.parse_loop].
    rewrite (seekRel_beyond rb2 (compressedSize entry)) by lia. reflexivity.
  - destruct n as [|n]; [lia|].
    cbn [Archive_DAT_FAST.parse_loop].
    destruct (readRecord_inv _ _ _ Hread) as (_ & Hlen & _).
    destruct (Z.eqb_spec (distFromEnd rb) 0) as [E|_]; [unfold FATENTRY_LEN in Hlen; lia|].
    rewrite Hread. cbn [bind].
    destruct (IH entry rb2 Hrec Hbig n (off + (compressedSize e + FATENTRY_LEN))
                (acc ++ [make_file content off e])) as [l [Hl Hlen']]; [lia|].
    exists l. split; [exact Hl|]. rewrite length_app in Hlen'. simpl in Hlen'. lia.
Qed.

(** The cursor a walk reaches is the only one. *)
Lemma walk_unique (rb0 rb rb' : RecordBuffer.t) (k : nat) :
  walk rb0 k rb -> walk rb0 k rb' -> rb = rb'.
Proof.
  induction 1 as [rb|rb rb1 rb2 e k Hread _ IH]; intros H'.
  - now inversion H'.
  - inversion H' as [|? rb1' ? e' ? Hread' Hwalk']; subst.
    rewrite Hread in Hread'. injection Hread' as <- <-. now apply IH.
Qed.

(** Along a walk that [identify] lets through to the end of the buffer,
    [parse] reads every record into a file: the file of record [j] is made
    of that record and stands for the bytes after it. *)
Lemma parse_loop_valid_walk (content : list byte) (rb0 rb : RecordBuffer.t) (k : nat) :
  valid_walk rb0 k rb ->
  distFromEnd rb = 0 ->
  buffer rb0 = content ->
  forall n acc, (k < n)%nat ->
    exists l, parse_loop content n rb0 (pos rb0 + FATENTRY_LEN) acc = Ok (acc ++ l)
              /\ List.length l = k /\ Forall readable l
              /\ forall j rbj entry rb1,
                   walk rb0 j rbj -> readRecord rbj = Ok (entry, rb1) ->
                   nth_error l j = Some (make_file content (pos rb1) entry).
Proof.
  induction 1 as [rb|rb rb1 rb' e k Hread Hname Hfit _ IH]; intros Hend Hbuf n acc Hn.
  - destruct n as [|n]; [lia|].
    cbn [Archive_DAT_FAST.parse_loop]. rewrite (proj2 (Z.eqb_eq _ _) Hend).
    exists []. rewrite app_nil_r. repeat split; auto.
    intros j rbj entry rb1 Hwalk Hrec. exfalso.
    inversion Hwalk as [|? ? ? e' ? Hread' _]; subst.
    + destruct (readRecord_inv _ _ _ Hrec) as (_ & Hlen & _).
      unfold FATENTRY_LEN in Hlen. lia.
    + destruct (readRecord_inv _ _ _ Hread') as (_ & Hlen & _).
      unfold FATENTRY_LEN in Hlen. lia.
  - destruct n as [|n]; [lia|].
    cbn [Archive_DAT_FAST.parse_loop].
    destruct (readRecord_inv _ _ _ Hread) as (Hpos & Hlen & Hcs & _ & ->).
    destruct (Z.eqb_spec (distFromEnd rb) 0) as [E|_]; [unfold FATENTRY_LEN in Hlen; lia|].
    rewrite Hread. cbn [bind].
    rewrite (seekRel_within _ _ Hfit) in *.
    destruct (IH Hend Hbuf n (acc ++ [make_file content (pos rb + FATENTRY_LEN) e]))
      as (l & Hl & Hlen' & Hall & Hnth); [lia|].
    exists (make_file content (pos rb + FATENTRY_LEN) e :: l).
    split; [|split; [|split]].
    + cbn [pos advance] in Hl.
      replace (pos rb + FATENTRY_LEN + (compressedSize e + FATENTRY_LEN))
        with (pos rb + FATENTRY_LEN + compressedSize e + FATENTRY_LEN) by lia.
      rewrite Hl. now rewrite <- app_assoc.
    + simpl. now rewrite Hlen'.
    + constructor; [|exact Hall].
      apply make_file_readable; unfold FATENTRY_LEN in *; try lia.
      unfold distFromEnd, RecordBuffer.length in Hfit. cbn [buffer pos advance] in Hfit.
      rewrite Hbuf in Hfit. lia.
    + intros j rbj entry rb1 Hwalk Hrec.
      inversion Hwalk as [|? rb2 ? e' j' Hread' Hwalk']; subst.
      * rewrite Hread in Hrec. injection Hrec as <- <-. reflexivity.
      * rewrite Hread in Hread'. injection Hread' as <- <-.
        rewrite (seekRel_within _ _ Hfit) in Hwalk'.
        cbn [nth_error]. exact (Hnth _ _ _ _ Hwalk' Hrec).
Qed.

End ParseWalks.

(** X9. On an input that [identify] accepts, [parse] does not throw and
    returns one file a record, fewer than 1024: the file of each record is
    made of that record and stands for the bytes after it. Of a file with
    a [diskSize] other than 0 the raw bytes can be fetched and have that
    length, and for an uncompressed one they are the content and
    [nativeSize] is their length; of a file with a [diskSize] of 0 neither
    the raw bytes nor the content can be fetched, the read is a
    [RangeError]. *)
Theorem parse_succeeds_on_identified_input :
  forall (cmpLZW cmpRLE : GameCompression.Handler) (content : list byte),
    Archive_DAT_FAST.identify content = Ok (JBool true) ->
    exists (k : nat) (rb : RecordBuffer.t) (files : list Archive.File),
      record_at content k rb
      /\ RecordBuffer.distFromEnd rb = 0
      /\ Archive_DAT_FAST.parse cmpLZW cmpRLE content = Ok {| Archive.files := files |}
      /\ List.length files = k
      /\ (k < Archive_DAT_FAST.MAX_FILES)%nat
      /\ (forall j rbj entry rb1,
            record_at content j rbj ->
            Archive_DAT_FAST.readRecord rbj = Ok (entry, rb1) ->
            nth_error files j =
              Some (Archive_DAT_FAST.make_file cmpLZW cmpRLE content
                      (RecordBuffer.pos rb1) entry))
      /\ Forall readable files.
Proof.
  intros cmpLZW cmpRLE content Hid.
  apply identify_true_walk in Hid. destruct Hid as (k & rb & Hk & Hwalk & Hend).
  destruct (parse_loop_valid_walk cmpLZW cmpRLE content _ _ _ Hwalk Hend eq_refl
              Archive_DAT_FAST.MAX_FILES [] Hk) as (l & Hl & Hlen & Hall & Hnth).
  exists k, rb, l.
  split; [exact (valid_walk_walk _ _ _ Hwalk)|].
  split; [exact Hend|].
  split; [|split; [exact Hlen|split; [exact Hk|split; [exact Hnth | exact Hall]]]].
  rewrite parse_upto_MAX_FILES. unfold Archive_DAT_FAST.parse_upto.
  change (RecordBuffer.pos (RecordBuffer.new content) + Archive_DAT_FAST.FATENTRY_LEN)
    with Archive_DAT_FAST.FATENTRY_LEN in Hl.
  rewrite Hl. reflexivity.
Qed.
Lemma parse_succeeds_on_identified_input_witness :
  exists (k : nat) (rb : RecordBuffer.t) (files : list Archive.File),
    record_at sample_two_files k rb
    /\ RecordBuffer.distFromEnd rb = 0
    /\ Archive_DAT_FAST.parse sample_lzw sample_rle sample_two_files
         = Ok {| Archive.files := files |}
    /\ List.length files = k
    /\ (k < Archive_DAT_FAST.MAX_FILES)%nat
    /\ (forall j rbj entry rb1,
          record_at sample_two_files j rbj ->
          Archive_DAT_FAST.readRecord rbj = Ok (entry, rb1) ->
          nth_error files j =
            Some (Archive_DAT_FAST.make_file sample_lzw sample_rle sample_two_files
                    (RecordBuffer.pos rb1) entry))
    /\ Forall readable files.
Proof.
  apply (parse_succeeds_on_identified_input sample_lzw sample_rle sample_two_files).
  reflexivity.
Defined.

Section EmptyFiles.

Import RecordBuffer Archive_DAT_FAST.

Lemma slice_zeros_any (n : nat) (p len : Z) :
  0 <= p -> 0 <= len -> p + len <= Z.of_nat n ->
  slice (repeat x00 n) p len = repeat x00 (Z.to_nat len).
Proof.
  intros Hp Hl Hn. unfold slice. rewrite skipn_repeat.
  replace (n - Z.to_nat p)%nat with (Z.to_nat len + (n - Z.to_nat p - Z.to_nat len))%nat by lia.
  rewrite repeat_app, firstn_app, repeat_length, Nat.sub_diag. cbn [firstn].
  rewrite app_nil_r. apply firstn_all2. rewrite repeat_length. lia.
Qed.

(** A container of [count] records of zero bytes is a walk [identify]
    lets through: the names are empty and the bodies too. *)
Lemma valid_walk_empty_files (count : Z) (steps : nat) : 0 <= count -> forall k,
  0 <= k -> k + Z.of_nat steps <= count ->
  valid_walk (RecordBuffer.mk (empty_files count) (37 * k)) steps
    (RecordBuffer.mk (empty_files count) (37 * (k + Z.of_nat steps))).
Proof.
  intros Hcount.
  assert (Hlen : forall p, distFromEnd (RecordBuffer.mk (empty_files count) p) = 37 * count - p).
  { intros p. unfold distFromEnd, RecordBuffer.length, empty_files.
    cbn [buffer pos]. rewrite repeat_length. lia. }
  induction steps as [|steps IH]; intros k Hk Hle.
  - replace (k + Z.of_nat 0) with k by lia. constructor.
  - destruct (readRecord_ok (RecordBuffer.mk (empty_files count) (37 * k))) as [entry Hread].
    { cbn [pos]. lia. }
    { rewrite Hlen. unfold FATENTRY_LEN. lia. }
    assert (Hcs : compressedSize entry = 0).
    { rewrite (readRecord_compressedSize _ _ _ Hread). cbn [buffer pos].
      unfold empty_files. rewrite slice_zeros by lia. reflexivity. }
    assert (Hname : name entry = "").
    { rewrite (readRecord_name _ _ _ Hread). cbn [buffer pos].
      unfold empty_files. rewrite slice_zeros_any by lia. reflexivity. }
    apply (valid_next _ _ _ entry steps Hread).
    + rewrite Hname. intros c [].
    + rewrite Hcs. unfold advance, FATENTRY_LEN. cbn [buffer pos]. rewrite Hlen. lia.
    + rewrite Hcs.
      replace (seekRel (advance (RecordBuffer.mk (empty_files count) (37 * k)) FATENTRY_LEN) 0)
        with (RecordBuffer.mk (empty_files count) (37 * (k + 1)))
        by (unfold seekRel, advance, RecordBuffer.length, FATENTRY_LEN, empty_files;
            cbn [buffer pos]; rewrite repeat_length; f_equal; lia).
      replace (k + Z.of_nat (S steps)) with (k + 1 + Z.of_nat steps) by lia.
      apply IH; lia.
Qed.

End EmptyFiles.

(** X10. The ceiling of [identify] is one lower than that of [parse]: on
    an input that is 1024 or more sound records, [identify] answers
    [false] for too many files, and [parse] reads 1024 files from it. *)
Theorem identify_refuses_1024_files_parse_reads :
  forall (cmpLZW cmpRLE : GameCompression.Handler) (content : list byte)
         (k : nat) (rb : RecordBuffer.t),
    valid_walk (RecordBuffer.new content) k rb ->
    (Archive_DAT_FAST.MAX_FILES <= k)%nat ->
    Archive_DAT_FAST.identify_log content = Ok (Archive_DAT_FAST.Too_many_files, false)
    /\ Archive_DAT_FAST.identify content = Ok (JBool false)
    /\ exists archive,
         Archive_DAT_FAST.parse cmpLZW cmpRLE content = Ok archive
         /\ List.length (Archive.files archive) = Archive_DAT_FAST.MAX_FILES.
Proof.
  intros cmpLZW cmpRLE content k rb Hwalk Hk.
  assert (Hlog : Archive_DAT_FAST.identify_log content
                 = Ok (Archive_DAT_FAST.Too_many_files, false))
    by exact (valid_walk_identify_too_many _ _ _ Hwalk _ 0 Hk).
  split; [exact Hlog|]. split; [exact (identify_of_log content _ _ Hlog)|].
  destruct (parse_loop_walk cmpLZW cmpRLE content _ _ _ (valid_walk_walk _ _ _ Hwalk)
              Archive_DAT_FAST.MAX_FILES Archive_DAT_FAST.FATENTRY_LEN [] Hk)
    as (l & Hl & Hlen).
  exists {| Archive.files := l |}. split.
  - rewrite parse_upto_MAX_FILES. unfold Archive_DAT_FAST.parse_upto.
    rewrite Hl. reflexivity.
  - exact Hlen.
Qed.

Lemma identify_refuses_1024_files_parse_reads_witness :
  Archive_DAT_FAST.identify (empty_files 1024) = Ok (JBool false)
  /\ Archive_DAT_FAST.identify (empty_files 1023) = Ok (JBool true)
  /\ exists archive,
       Archive_DAT_FAST.parse sample_lzw sample_rle (empty_files 1024) = Ok archive
       /\ List.length (Archive.files archive) = 1024%nat.
Proof.
  pose proof (valid_walk_empty_files 1024 1024 ltac:(lia) 0 ltac:(lia) ltac:(lia)) as Hwalk.
  destruct (identify_refuses_1024_files_parse_reads sample_lzw sample_rle
              (empty_files 1024) 1024%nat _ Hwalk (Nat.le_refl _))
    as (_ & Hid & Hparse).
  split; [exact Hid|]. split; [|exact Hparse].
  apply (identify_of_log _ Archive_DAT_FAST.EOF_at_correct_place).
  apply (valid_walk_identify_true _ _ _
           (valid_walk_empty_files 1023 1023 ltac:(lia) 0 ltac:(lia) ltac:(lia))).
  - unfold RecordBuffer.distFromEnd, RecordBuffer.length, empty_files.
    cbn [RecordBuffer.buffer RecordBuffer.pos]. rewrite repeat_length. lia.
  - unfold Archive_DAT_FAST.MAX_FILES. lia.
Defined.

(** X11. [parse] does not check what it walks over. Where the records of
    the input, fewer than 1024 of them, are followed by something other
    than nothing and less than a whole record, [parse] throws; an input of
    1 to 36 bytes is such a one. Where the body of a record runs past the
    end of the input, [parse] does not notice: the seek over the body
    stops at the end and [parse] returns, with a file for that record
    too. *)
Theorem parse_throws_on_partial_record :
  forall (cmpLZW cmpRLE : GameCompression.Handler) (content : list byte),
    (forall (k : nat) (rb : RecordBuffer.t),
        record_at content k rb ->
        (k < Archive_DAT_FAST.MAX_FILES)%nat ->
        RecordBuffer.distFromEnd rb <> 0 ->
        RecordBuffer.distFromEnd rb < Archive_DAT_FAST.FATENTRY_LEN ->
        exists e, Archive_DAT_FAST.parse cmpLZW cmpRLE content = Throw e)
    /\ ((0 < List.length content < 37)%nat ->
        exists e, Archive_DAT_FAST.parse cmpLZW cmpRLE content = Throw e)
    /\ (forall (k : nat) (rb rb1 : RecordBuffer.t) (entry : Archive_DAT_FAST.fatEntry),
          record_at content k rb ->
          (k < Archive_DAT_FAST.MAX_FILES)%nat ->
          Archive_DAT_FAST.readRecord rb = Ok (entry, rb1) ->
          RecordBuffer.distFromEnd rb1 < Archive_DAT_FAST.compressedSize entry ->
          exists files,
            Archive_DAT_FAST.parse cmpLZW cmpRLE content = Ok {| Archive.files := files |}
            /\ List.length files = S k).
Proof.
  intros cmpLZW cmpRLE content.
  assert (Hgen : forall (k : nat) (rb : RecordBuffer.t),
             record_at content k rb ->
             (k < Archive_DAT_FAST.MAX_FILES)%nat ->
             RecordBuffer.distFromEnd rb <> 0 ->
             RecordBuffer.distFromEnd rb < Archive_DAT_FAST.FATENTRY_LEN ->
             exists e, Archive_DAT_FAST.parse cmpLZW cmpRLE content = Throw e).
  { intros k rb Hat Hk Hne Hlt.
    destruct (parse_loop_walk_throws cmpLZW cmpRLE content _ _ _ Hat Hne Hlt
                Archive_DAT_FAST.MAX_FILES Archive_DAT_FAST.FATENTRY_LEN [] Hk) as [e He].
    exists e. rewrite parse_upto_MAX_FILES. unfold Archive_DAT_FAST.parse_upto.
    rewrite He. reflexivity. }
  split; [exact Hgen|]. split.
  - intros Hlen. apply (Hgen 0%nat (RecordBuffer.new content)).
    + constructor.
    + unfold Archive_DAT_FAST.MAX_FILES. lia.
    + unfold RecordBuffer.distFromEnd, RecordBuffer.length. simpl. lia.
    + unfold RecordBuffer.distFromEnd, RecordBuffer.length, Archive_DAT_FAST.FATENTRY_LEN.
      simpl. lia.
  - intros k rb rb1 entry Hat Hk Hread Hbig.
    destruct (parse_loop_walk_overrun cmpLZW cmpRLE content _ _ _ Hat entry rb1 Hread Hbig
                Archive_DAT_FAST.MAX_FILES Archive_DAT_FAST.FATENTRY_LEN [] Hk)
      as (l & Hl & Hlen).
    exists l. split; [|exact Hlen].
    rewrite parse_upto_MAX_FILES. unfold Archive_DAT_FAST.parse_upto.
    rewrite Hl. reflexivity.
Qed.

Lemma parse_throws_on_partial_record_witness :
  (exists e, Archive_DAT_FAST.parse sample_lzw sample_rle sample_trailing_bytes = Throw e)
  /\ (exists e, Archive_DAT_FAST.parse sample_lzw sample_rle sample_ten_bytes = Throw e)
  /\ (exists files,
        Archive_DAT_FAST.parse sample_lzw sample_rle sample_cut_short
          = Ok {| Archive.files := files |}
        /\ List.length files = 2%nat).
Proof.
  split; [|split].
  - apply (proj1 (parse_throws_on_partial_record sample_lzw sample_rle sample_trailing_bytes)
             1%nat (RecordBuffer.mk sample_trailing_bytes 39)).
    + apply (walk_next (RecordBuffer.new sample_trailing_bytes)
               (RecordBuffer.mk sample_trailing_bytes 37) _
               {| Archive_DAT_FAST.typeCode := 14; Archive_DAT_FAST.compressedSize := 2;
                  Archive_DAT_FAST.name := "GAME"; Archive_DAT_FAST.decompressedSize := 0 |});
        [reflexivity|].
      apply walk_here.
    + unfold Archive_DAT_FAST.MAX_FILES. lia.
    + vm_compute. discriminate.
    + vm_compute. reflexivity.
  - apply (proj1 (proj2 (parse_throws_on_partial_record sample_lzw sample_rle
                           sample_ten_bytes))).
    simpl. lia.
  - apply (proj2 (proj2 (parse_throws_on_partial_record sample_lzw sample_rle
                           sample_cut_short))
             1%nat (RecordBuffer.mk sample_cut_short 39) (RecordBuffer.mk sample_cut_short 76)
             {| Archive_DAT_FAST.typeCode := 1; Archive_DAT_FAST.compressedSize := 9;
                Archive_DAT_FAST.name := "LEVEL1"; Archive_DAT_FAST.decompressedSize := 0 |}).
    + apply (walk_next (RecordBuffer.new sample_cut_short)
               (RecordBuffer.mk sample_cut_short 37) _
               {| Archive_DAT_FAST.typeCode := 14; Archive_DAT_FAST.compressedSize := 2;
                  Archive_DAT_FAST.name := "GAME"; Archive_DAT_FAST.decompressedSize := 0 |});
        [reflexivity|].
      apply walk_here.
    + unfold Archive_DAT_FAST.MAX_FILES. lia.
    + reflexivity.
    + vm_compute. reflexivity.
Defined.

(** * Names and type codes across a rewrite *)

Section Names.

Import RecordBuffer Archive_DAT_FAST.

Lemma chars_app (s1 s2 : string) : chars (s1 ++ s2)%string = chars s1 ++ chars s2.
Proof.
  unfold chars. induction s1 as [|c s1 IH]; simpl; [reflexivity | now rewrite IH].
Qed.

Lemma length_chars (s : string) : List.length (chars s) = String.length s.
Proof.
  unfold chars. induction s as [|c s IH]; simpl; [reflexivity | now rewrite IH].
Qed.

Lemma string_length_app (s1 s2 : string) :
  String.length (s1 ++ s2)%string = (String.length s1 + String.length s2)%nat.
Proof.
  rewrite <- !length_chars, chars_app. apply length_app.
Qed.

Lemma append_nil_r (s : string) : (s ++ "")%string = s.
Proof. induction s as [|c s IH]; simpl; [reflexivity | now rewrite IH]. Qed.

Lemma append_inj_r (s a b : string) : (s ++ a)%string = (s ++ b)%string -> a = b.
Proof.
  induction s as [|c s IH]; simpl; intros H; [exact H|].
  injection H as H. now apply IH.
Qed.

Lemma substr_last_app (s ext : string) :
  String.length ext = 4%nat -> substr_last 4 (s ++ ext) = ext.
Proof.
  intros Hlen. unfold substr_last.
  rewrite string_length_app, Hlen, chars_app.
  replace (String.length s + 4 - 4)%nat with (List.length (chars s) + 0)%nat
    by (rewrite length_chars; lia).
  rewrite skipn_app, Nat.add_comm, skipn_all2 by lia.
  replace (0 + List.length (chars s) - List.length (chars s))%nat with 0%nat by lia.
  cbn [app skipn]. apply string_of_list_ascii_of_string.
Qed.

Lemma substr_first_app (s ext : string) :
  String.length ext = 4%nat ->
  substr_first (Z.of_nat (String.length (s ++ ext)) - 4) (s ++ ext) = s.
Proof.
  intros Hlen. unfold substr_first.
  rewrite string_length_app, Hlen, chars_app.
  replace (Z.to_nat (Z.of_nat (String.length s + 4) - 4)) with (List.length (chars s) + 0)%nat
    by (rewrite length_chars; lia).
  rewrite firstn_app_2. cbn [firstn]. rewrite app_nil_r.
  apply string_of_list_ascii_of_string.
Qed.

Lemma FASTTypes_get_In (code : Z) (ext : string) (ty : option string) :
  FASTTypes_get code = Some (ext, ty) -> In (code, (ext, ty)) FASTTypes.
Proof.
  unfold FASTTypes_get.
  destruct (find _ FASTTypes) as [[c [e t]]|] eqn:E; [|discriminate].
  apply find_some in E. destruct E as [Hin Hc]. apply Z.eqb_eq in Hc. simpl in Hc.
  intros H. injection H as <- <-. now subst c.
Qed.

(** The extensions of the table have four characters in lower case, and
    none belongs to two codes. *)
Lemma FASTTypes_extension (code : Z) (ext : string) (ty : option string) :
  In (code, (ext, ty)) FASTTypes -> ext <> "" ->
  String.length ext = 4%nat /\ toLowerCase ext = ext
  /\ FASTTypes_get code = Some (ext, ty).
Proof.
  intros Hin Hext. unfold FASTTypes in Hin. simpl in Hin.
  repeat (destruct Hin as [Hin|Hin];
          [injection Hin as <- <- <-; try (now contradiction Hext);
           repeat split; reflexivity|]).
  destruct Hin.
Qed.

(** The code [generate] gives is one of the table, never code 8 unless
    the name ends in .snd. *)
Lemma entry_type_and_name_code (file_name : string) :
  (exists ext ty, In (fst (entry_type_and_name file_name), (ext, ty)) FASTTypes)
  /\ (toLowerCase (substr_last 4 file_name) <> ".snd" ->
      fst (entry_type_and_name file_name) <> 8).
Proof.
  unfold entry_type_and_name.
  destruct (String.eqb_spec (toLowerCase (substr_last 4 file_name)) ".snd") as [E|E].
  - split; [|contradiction]. exists "", (Some "sound/inverse"). simpl. auto 20.
  - destruct (find _ FASTTypes) as [[code [ext ty]]|] eqn:F.
    + apply find_some in F. destruct F as [Hin Htest]. simpl in Htest.
      apply andb_true_iff in Htest. destruct Htest as [Hne _].
      split; [exists ext, ty; exact Hin|].
      intros _. cbn [fst]. intros ->.
      unfold FASTTypes in Hin. simpl in Hin.
      decompose [or] Hin; try contradiction;
        match goal with H : (_, _) = (_, _) |- _ => inversion H; subst end;
        discriminate Hne.
    + split; [exists "", None; simpl; auto 20 | intros _; discriminate].
Qed.

End Names.

(** X12. A record whose type code has an extension in the table keeps its
    type code and its stored name across [parse] and [generate]: the name
    [parse] gives its file, the stored name followed by the extension, is
    split by [generate] into the same code and the same stored name. *)
Theorem record_survives_parse_then_generate :
  forall (cmpLZW cmpRLE : GameCompression.Handler) (content : list byte) (offset : Z)
         (entry : Archive_DAT_FAST.fatEntry) (ext : string) (ty : option string),
    Archive_DAT_FAST.FASTTypes_get (Archive_DAT_FAST.typeCode entry) = Some (ext, ty) ->
    ext <> "" ->
    let file := Archive_DAT_FAST.make_file cmpLZW cmpRLE content offset entry in
    Archive.name (Archive.fields file) = (Archive_DAT_FAST.name entry ++ ext)%string
    /\ Archive_DAT_FAST.entry_type_and_name (Archive.name (Archive.fields file)) =
         (Archive_DAT_FAST.typeCode entry, Archive_DAT_FAST.name entry).
Proof.
  intros cmpLZW cmpRLE content offset entry ext ty Hget Hext file.
  destruct (make_file_name_type cmpLZW cmpRLE content offset entry) as [Hname _].
  subst file. rewrite Hname, Hget.
  split; [reflexivity|].
  pose proof (FASTTypes_get_In _ _ _ Hget) as Hin.
  destruct (FASTTypes_extension _ _ _ Hin Hext) as (Hlen & Hlow & _).
  rewrite (entry_type_and_name_table _ _ ext ty Hin Hext).
  - now rewrite substr_first_app.
  - now rewrite substr_last_app.
Qed.

Lemma record_survives_parse_then_generate_witness :
  Archive_DAT_FAST.entry_type_and_name
    (Archive.name (Archive.fields
       (Archive_DAT_FAST.make_file sample_lzw sample_rle sample_level_container 37
          {| Archive_DAT_FAST.typeCode := 64; Archive_DAT_FAST.compressedSize := 3;
             Archive_DAT_FAST.name := "Hero.v2"; Archive_DAT_FAST.decompressedSize := 0 |})))
    = (64, "Hero.v2").
Proof.
  apply (record_survives_parse_then_generate sample_lzw sample_rle sample_level_container 37
           {| Archive_DAT_FAST.typeCode := 64; Archive_DAT_FAST.compressedSize := 3;
              Archive_DAT_FAST.name := "Hero.v2"; Archive_DAT_FAST.decompressedSize := 0 |}
           ".spr" (Some "image/fast-sprite")).
  - reflexivity.
  - discriminate.
Defined.

(** X13. A type code without an extension in the table does not survive
    [parse] and [generate]: the code written for a file is always one of
    the table, so an unmapped code is replaced; and code 8 is written only
    for a name that ends in .snd, so a sound whose stored name does not end
    so is written back with another code. *)
Theorem unmapped_type_code_is_not_kept :
  forall (cmpLZW cmpRLE : GameCompression.Handler) (content : list byte) (offset : Z)
         (entry : Archive_DAT_FAST.fatEntry),
    let file := Archive_DAT_FAST.make_file cmpLZW cmpRLE content offset entry in
    let code := fst (Archive_DAT_FAST.entry_type_and_name (Archive.name (Archive.fields file))) in
    (Archive_DAT_FAST.FASTTypes_get (Archive_DAT_FAST.typeCode entry) = None ->
     Archive.name (Archive.fields file) = Archive_DAT_FAST.name entry
     /\ Archive.type (Archive.fields file) = None
     /\ code <> Archive_DAT_FAST.typeCode entry)
    /\ (Archive_DAT_FAST.typeCode entry = 8 ->
        toLowerCase (substr_last 4 (Archive_DAT_FAST.name entry)) <> ".snd" ->
        Archive.name (Archive.fields file) = Archive_DAT_FAST.name entry
        /\ Archive.type (Archive.fields file) = Some "sound/inverse"
        /\ code <> 8).
Proof.
  intros cmpLZW cmpRLE content offset entry file code.
  destruct (make_file_name_type cmpLZW cmpRLE content offset entry) as [Hname Htype].
  subst code file. split.
  - intros Hnone. rewrite Hname, Htype, Hnone. repeat split.
    destruct (proj1 (entry_type_and_name_code (Archive_DAT_FAST.name entry)))
      as (ext & ty & Hin).
    intros Heq. rewrite Heq in Hin.
    unfold Archive_DAT_FAST.FASTTypes_get in Hnone.
    destruct (find _ Archive_DAT_FAST.FASTTypes) as [kv|] eqn:F; [discriminate|].
    pose proof (find_none _ _ F _ Hin) as Hno. simpl in Hno.
    rewrite Z.eqb_refl in Hno. discriminate.
  - intros Hcode Hsnd. rewrite Hname, Htype, Hcode. cbn.
    rewrite append_nil_r. repeat split.
    exact (proj2 (entry_type_and_name_code (Archive_DAT_FAST.name entry)) Hsnd).
Qed.

Lemma unmapped_type_code_is_not_kept_witness :
  fst (Archive_DAT_FAST.entry_type_and_name
         (Archive.name (Archive.fields
            (Archive_DAT_FAST.make_file sample_lzw sample_rle [] 37
               {| Archive_DAT_FAST.typeCode := 8; Archive_DAT_FAST.compressedSize := 0;
                  Archive_DAT_FAST.name := "BOOM"; Archive_DAT_FAST.decompressedSize := 0 |}))))
    <> 8
  /\ fst (Archive_DAT_FAST.entry_type_and_name
            (Archive.name (Archive.fields
               (Archive_DAT_FAST.make_file sample_lzw sample_rle [] 37
                  {| Archive_DAT_FAST.typeCode := 9; Archive_DAT_FAST.compressedSize := 0;
                     Archive_DAT_FAST.name := "NOTES";
                     Archive_DAT_FAST.decompressedSize := 0 |}))))
       <> 9.
Proof.
  split.
  - apply (proj2 (unmapped_type_code_is_not_kept sample_lzw sample_rle [] 37
             {| Archive_DAT_FAST.typeCode := 8; Archive_DAT_FAST.compressedSize := 0;
                Archive_DAT_FAST.name := "BOOM"; Archive_DAT_FAST.decompressedSize := 0 |})).
    + reflexivity.
    + vm_compute. discriminate.
  - apply (proj1 (unmapped_type_code_is_not_kept sample_lzw sample_rle [] 37
             {| Archive_DAT_FAST.typeCode := 9; Archive_DAT_FAST.compressedSize := 0;
                Archive_DAT_FAST.name := "NOTES"; Archive_DAT_FAST.decompressedSize := 0 |})).
    reflexivity.
Defined.

Section RestoredNames.

Import RecordBuffer Archive_DAT_FAST.

Lemma restored_name_cases (file_name : string) :
  restored_name file_name = file_name
  \/ exists code ext ty,
       In (code, (ext, ty)) FASTTypes /\ ext <> ""
       /\ toLowerCase (substr_last 4 file_name) = ext
       /\ restored_name file_name =
            (substr_first (Z.of_nat (String.length file_name) - 4) file_name ++ ext)%string.
Proof.
  unfold restored_name, entry_type_and_name.
  destruct (String.eqb_spec (toLowerCase (substr_last 4 file_name)) ".snd") as [E|E].
  - left. cbn. apply append_nil_r.
  - destruct (find _ FASTTypes) as [[code [ext ty]]|] eqn:F.
    + apply find_some in F. destruct F as [Hin Htest]. simpl in Htest.
      apply andb_true_iff in Htest. destruct Htest as [Hne Heq].
      apply String.eqb_eq in Heq.
      assert (Hext : ext <> "") by (intros ->; discriminate Hne).
      destruct (FASTTypes_extension _ _ _ Hin Hext) as (_ & _ & Hget).
      right. exists code, ext, ty. rewrite Hget. auto.
    + left. cbn. apply append_nil_r.
Qed.

End RestoredNames.


(** * Records in the buffer *)

Section Codec.

Import RecordBuffer Archive_DAT_FAST.

Lemma byte_val_of_Z (z : Z) : 0 <= z < 256 -> byte_val (byte_of_Z z) = z.
Proof.
  intros Hz. unfold byte_val, byte_of_Z.
  rewrite Z.mod_small by lia.
  destruct (Byte.of_N (Z.to_N z)) as [b|] eqn:E.
  - apply Byte.to_of_N in E. rewrite E. lia.
  - apply Byte.of_N_None_iff in E. lia.
Qed.

Lemma land_255_range (z : Z) : 0 <= Z.land z 255 < 256.
Proof.
  change 255 with (Z.ones 8). rewrite Z.land_ones by lia.
  apply Z.mod_pos_bound. lia.
Qed.

Lemma u16le_roundtrip (z : Z) : 0 <= z < 65536 -> u16le_decode (u16le_encode z) = z.
Proof.
  intros Hz. unfold u16le_decode, u16le_encode.
  rewrite !byte_val_of_Z by apply land_255_range.
  apply Z.bits_inj'. intros n Hn.
  rewrite Z.lor_spec, Z.land_spec.
  change 255 with (Z.ones 8).
  destruct (Z_lt_le_dec n 8) as [Hlow|Hhigh].
  - rewrite Z.ones_spec_low, Z.shiftl_spec_low by lia.
    now rewrite andb_true_r, orb_false_r.
  - rewrite Z.ones_spec_high, andb_false_r by lia. cbn [orb].
    rewrite Z.shiftl_spec, Z.land_spec, Z.shiftr_spec by lia.
    replace (n - 8 + 8) with n by lia.
    destruct (Z_lt_le_dec n 16) as [Hmid|Htop].
    + rewrite Z.ones_spec_low by lia. apply andb_true_r.
    + rewrite Z.ones_spec_high, andb_false_r by lia.
      symmetry. destruct (Z.eq_dec z 0) as [->|Hnz]; [apply Z.bits_0|].
      apply Z.bits_above_log2; [lia|].
      assert (Z.log2 z < 16) by (apply Z.log2_lt_pow2; lia). lia.
Qed.

Lemma byte_of_ascii_zero (c : ascii) : Byte.eqb (byte_of_ascii c) x00 = true -> c = Ascii.zero.
Proof.
  intros H. apply Byte.byte_dec_bl in H.
  rewrite <- (ascii_of_byte_of_ascii c), H. reflexivity.
Qed.

Lemma until_nul_no_nul (l : list ascii) (tail : list byte) :
  ~ In Ascii.zero l ->
  until_nul (map byte_of_ascii l ++ x00 :: tail) = map byte_of_ascii l
  /\ until_nul (map byte_of_ascii l) = map byte_of_ascii l.
Proof.
  induction l as [|c l IH]; intros Hno; [split; reflexivity|].
  assert (Hc : Byte.eqb (byte_of_ascii c) x00 = false).
  { destruct (Byte.eqb (byte_of_ascii c) x00) eqn:E; [|reflexivity].
    exfalso. apply Hno. left. now apply byte_of_ascii_zero. }
  destruct IH as [IH1 IH2]; [intros H; apply Hno; now right|].
  cbn [map app until_nul]. rewrite Hc, IH1, IH2. split; reflexivity.
Qed.

Lemma map_ascii_of_byte_of_ascii (l : list ascii) :
  map ascii_of_byte (map byte_of_ascii l) = l.
Proof.
  induction l as [|c l IH]; simpl; [reflexivity|].
  now rewrite ascii_of_byte_of_ascii, IH.
Qed.

Lemma string_reqTerm_roundtrip (s : string) :
  (String.length s <= 30)%nat -> ~ In Ascii.zero (chars s) ->
  string_decode (string_reqTerm_encode 31 s) = s
  /\ List.length (string_reqTerm_encode 31 s) = 31%nat.
Proof.
  intros Hlen Hno. unfold string_decode, string_reqTerm_encode.
  destruct (until_nul_no_nul (chars s) [] Hno) as [_ Hsame].
  rewrite Hsame.
  rewrite firstn_all2 by (rewrite length_map, length_chars; cbn; lia).
  rewrite length_map, length_chars.
  split.
  - destruct (31 - String.length s)%nat as [|pad] eqn:E; [lia|].
    cbn [repeat].
    rewrite (proj1 (until_nul_no_nul (chars s) (repeat x00 pad) Hno)).
    rewrite map_ascii_of_byte_of_ascii. apply string_of_list_ascii_of_string.
  - rewrite length_app, length_map, length_chars, repeat_length. lia.
Qed.

Lemma length_string_reqTerm_encode (s : string) :
  List.length (string_reqTerm_encode 31 s) = 31%nat.
Proof.
  unfold string_reqTerm_encode.
  rewrite length_app, repeat_length, length_firstn. lia.
Qed.

Lemma length_encode_record (entry : fatEntry) : List.length (encode_record entry) = 37%nat.
Proof.
  unfold encode_record. rewrite !length_app, length_string_reqTerm_encode. reflexivity.
Qed.

(** The bytes [y] that lie after [x] in a list are what [slice] takes
    there. *)
Lemma slice_exact (x y z : list byte) (offset len : Z) :
  offset = Z.of_nat (List.length x) -> len = Z.of_nat (List.length y) ->
  slice (x ++ y ++ z) offset len = y.
Proof.
  intros -> ->. unfold slice. rewrite !Nat2Z.id.
  rewrite skipn_app, skipn_all, Nat.sub_diag. cbn [app skipn].
  rewrite firstn_app, firstn_all, Nat.sub_diag. cbn [firstn]. apply app_nil_r.
Qed.

(** A record that fits its fields is read back from where it lies. *)
Lemma readRecord_encoded (pre rest : list byte) (entry : fatEntry) :
  fits_record entry ->
  let content := pre ++ encode_record entry ++ rest in
  readRecord (RecordBuffer.mk content (Z.of_nat (List.length pre))) =
    Ok (entry, RecordBuffer.mk content (Z.of_nat (List.length pre) + 37)).
Proof.
  intros (Htc & Hcs & Hds & Hlen & Hno) content.
  destruct (string_reqTerm_roundtrip _ Hlen Hno) as [Hname Hname_len].
  set (a := u16le_encode (typeCode entry)).
  set (b := u16le_encode (compressedSize entry)).
  set (c := string_reqTerm_encode 31 (name entry)).
  set (d := u16le_encode (decompressedSize entry)).
  assert (Hcontent : content = pre ++ a ++ b ++ c ++ d ++ rest).
  { subst content a b c d. unfold encode_record. now rewrite <- !app_assoc. }
  assert (Htotal : RecordBuffer.length (RecordBuffer.mk content (Z.of_nat (List.length pre)))
                   = Z.of_nat (List.length pre) + 37 + Z.of_nat (List.length rest)).
  { unfold RecordBuffer.length. cbn [buffer]. subst content.
    rewrite !length_app, length_encode_record. lia. }
  unfold readRecord, read_u16le, read_string_reqTerm.
  rewrite take_ok by (cbn [pos]; rewrite ?Htotal; lia). cbn [bind].
  rewrite take_ok by (rewrite ?length_advance, ?Htotal; cbn [pos advance]; lia). cbn [bind].
  rewrite take_ok by (rewrite ?length_advance, ?Htotal; cbn [pos advance]; lia). cbn [bind].
  rewrite take_ok by (rewrite ?length_advance, ?Htotal; cbn [pos advance]; lia). cbn [bind].
  cbn [buffer pos advance].
  assert (S1 : slice content (Z.of_nat (List.length pre)) 2 = a).
  { rewrite Hcontent. now apply slice_exact. }
  assert (S2 : slice content (Z.of_nat (List.length pre) + 2) 2 = b).
  { rewrite Hcontent.
    replace (pre ++ a ++ b ++ c ++ d ++ rest) with ((pre ++ a) ++ b ++ c ++ d ++ rest)
      by now rewrite <- app_assoc.
    apply slice_exact; [rewrite length_app; cbn; lia | reflexivity]. }
  assert (S3 : slice content (Z.of_nat (List.length pre) + 2 + 2) (Z.of_nat 31) = c).
  { rewrite Hcontent.
    replace (pre ++ a ++ b ++ c ++ d ++ rest) with ((pre ++ a ++ b) ++ c ++ d ++ rest)
      by now rewrite <- !app_assoc.
    apply slice_exact; [rewrite !length_app; cbn; lia | subst c; now rewrite Hname_len]. }
  assert (S4 : slice content (Z.of_nat (List.length pre) + 2 + 2 + Z.of_nat 31) 2 = d).
  { rewrite Hcontent.
    replace (pre ++ a ++ b ++ c ++ d ++ rest) with ((pre ++ a ++ b ++ c) ++ d ++ rest)
      by now rewrite <- !app_assoc.
    apply slice_exact; [|reflexivity].
    rewrite !length_app. subst c. rewrite Hname_len. cbn. lia. }
  rewrite S1, S2, S3, S4. subst a b c d.
  rewrite !u16le_roundtrip by assumption. rewrite Hname.
  destruct entry as [tc cs nm ds]. cbn [typeCode compressedSize name decompressedSize].
  do 2 f_equal. unfold advance. cbn [buffer pos]. f_equal. lia.
Qed.

(** Writing at the end of a buffer appends. *)
Lemma put_mk (bytes data : list byte) :
  put (RecordBuffer.mk bytes (Z.of_nat (List.length bytes))) data =
    RecordBuffer.mk (bytes ++ data) (Z.of_nat (List.length (bytes ++ data))).
Proof.
  unfold put. cbn [buffer pos]. rewrite Nat2Z.id.
  rewrite firstn_all, skipn_all2 by lia.
  rewrite app_nil_r. f_equal. rewrite length_app. lia.
Qed.

Lemma put_at_end (rb : RecordBuffer.t) (data : list byte) :
  pos rb = RecordBuffer.length rb ->
  put rb data = RecordBuffer.mk (buffer rb ++ data) (pos rb + Z.of_nat (List.length data))
  /\ pos (put rb data) = RecordBuffer.length (put rb data).
Proof.
  destruct rb as [bytes p]. unfold RecordBuffer.length. cbn [buffer pos]. intros ->.
  rewrite put_mk. cbn [buffer pos]. split; [|reflexivity].
  f_equal. rewrite length_app. lia.
Qed.

Lemma writeRecord_at_end (rb : RecordBuffer.t) (entry : fatEntry) :
  pos rb = RecordBuffer.length rb ->
  writeRecord rb entry = RecordBuffer.mk (buffer rb ++ encode_record entry) (pos rb + 37)
  /\ pos (writeRecord rb entry) = RecordBuffer.length (writeRecord rb entry).
Proof.
  destruct rb as [bytes p]. unfold RecordBuffer.length. cbn [buffer pos]. intros ->.
  unfold writeRecord. rewrite !put_mk. cbn [buffer pos]. split; [|reflexivity].
  unfold encode_record. rewrite <- !app_assoc. f_equal.
  rewrite !length_app, length_string_reqTerm_encode. cbn [List.length u16le_encode]. lia.
Qed.

End Codec.

Section Container.

Import RecordBuffer Archive_DAT_FAST.

Variables cmpLZW cmpRLE : GameCompression.Handler.

Local Abbreviation parse_loop := (Archive_DAT_FAST.parse_loop cmpLZW cmpRLE).
Local Abbreviation make_file := (Archive_DAT_FAST.make_file cmpLZW cmpRLE).
Local Abbreviation files_of := (container_files cmpLZW cmpRLE).

Lemma length_container_cons (entry : fatEntry) (body : list byte) rest :
  List.length (container ((entry, body) :: rest)) =
    (37 + List.length body + List.length (container rest))%nat.
Proof.
  cbn [container]. rewrite !length_app, length_encode_record. lia.
Qed.

(** The seek over the body of a record leads to the next record. *)
Lemma seek_over_body (content pre : list byte) (entry : fatEntry) (body : list byte) rest :
  content = pre ++ container ((entry, body) :: rest) ->
  compressedSize entry = Z.of_nat (List.length body) ->
  seekRel (RecordBuffer.mk content (Z.of_nat (List.length pre) + 37)) (compressedSize entry) =
    RecordBuffer.mk content (Z.of_nat (List.length (pre ++ encode_record entry ++ body))).
Proof.
  intros Hcontent Hsize. unfold seekRel, RecordBuffer.length. cbn [buffer pos]. f_equal.
  rewrite Hcontent, !length_app, length_container_cons, length_encode_record. lia.
Qed.

(** [parse] reads a container laid out from records that fit: one file a
    record, as long as it has turns. *)
Lemma parse_loop_container (content : list byte) items : forall pre n acc,
  content = pre ++ container items ->
  Forall well_laid items ->
  parse_loop content n (RecordBuffer.mk content (Z.of_nat (List.length pre)))
    (Z.of_nat (List.length pre) + FATENTRY_LEN) acc =
    Ok (acc ++ files_of content (Z.of_nat (List.length pre) + FATENTRY_LEN) (firstn n items)).
Proof.
  induction items as [|[entry body] items IH]; intros pre n acc Hcontent Hall.
  - rewrite firstn_nil. cbn [container_files]. rewrite app_nil_r.
    destruct n as [|n]; [reflexivity|].
    cbn [Archive_DAT_FAST.parse_loop].
    assert (E : distFromEnd (RecordBuffer.mk content (Z.of_nat (List.length pre))) = 0).
    { unfold distFromEnd, RecordBuffer.length. cbn [buffer pos].
      rewrite Hcontent. cbn [container]. rewrite app_nil_r. lia. }
    now rewrite (proj2 (Z.eqb_eq _ _) E).
  - destruct n as [|n]; [cbn; now rewrite app_nil_r|].
    apply Forall_cons_iff in Hall. destruct Hall as [[Hfits Hsize] Hrest].
    cbn [fst snd] in Hfits, Hsize.
    cbn [Archive_DAT_FAST.parse_loop firstn container_files].
    assert (E : distFromEnd (RecordBuffer.mk content (Z.of_nat (List.length pre))) <> 0).
    { unfold distFromEnd, RecordBuffer.length. cbn [buffer pos].
      rewrite Hcontent, length_app, length_container_cons. lia. }
    rewrite (proj2 (Z.eqb_neq _ _) E).
    assert (Hread : readRecord (RecordBuffer.mk content (Z.of_nat (List.length pre))) =
                    Ok (entry, RecordBuffer.mk content (Z.of_nat (List.length pre) + 37))).
    { rewrite Hcontent. cbn [container].
      exact (readRecord_encoded pre (body ++ container items) entry Hfits). }
    rewrite Hread. cbn [bind].
    rewrite (seek_over_body content pre entry body items Hcontent Hsize).
    replace (Z.of_nat (List.length pre) + FATENTRY_LEN + (compressedSize entry + FATENTRY_LEN))
      with (Z.of_nat (List.length (pre ++ encode_record entry ++ body)) + FATENTRY_LEN)
      by (rewrite !length_app, length_encode_record; unfold FATENTRY_LEN; lia).
    rewrite (IH (pre ++ encode_record entry ++ body) n
               (acc ++ [make_file content (Z.of_nat (List.length pre) + FATENTRY_LEN) entry])).
    + rewrite <- app_assoc. reflexivity.
    + rewrite Hcontent. cbn [container]. now rewrite <- !app_assoc.
    + exact Hrest.
Qed.

(** The raw bytes of each of these files are the body of its record, when
    it has one. *)
Lemma container_files_raw (content : list byte) items : forall pre,
  content = pre ++ container items ->
  Forall well_laid items ->
  Forall2 (fun file item => Archive.call_getRaw file = body_read (snd item))
    (files_of content (Z.of_nat (List.length pre) + FATENTRY_LEN) items) items.
Proof.
  induction items as [|[entry body] items IH]; intros pre Hcontent Hall; [constructor|].
  apply Forall_cons_iff in Hall. destruct Hall as [[Hfits Hsize] Hrest].
  cbn [fst snd] in Hfits, Hsize.
  cbn [container_files]. constructor.
  - cbn [snd].
    assert (Hraw : Archive.call_getRaw
                     (make_file content (Z.of_nat (List.length pre) + FATENTRY_LEN) entry) =
                   getU8 (RecordBuffer.new content)
                     (Z.of_nat (List.length pre) + FATENTRY_LEN) (compressedSize entry)).
    { unfold Archive.call_getRaw, Archive_DAT_FAST.make_file.
      destruct (decompressedSize entry =? 0); reflexivity. }
    rewrite Hraw.
    assert (Hlen : Z.of_nat (List.length content) =
                   Z.of_nat (List.length pre) + 37 + Z.of_nat (List.length body)
                   + Z.of_nat (List.length (container items))).
    { rewrite Hcontent, length_app, length_container_cons. lia. }
    destruct body as [|b body].
    + rewrite Hsize. cbn [List.length Z.of_nat body_read].
      unfold getU8, RecordBuffer.length. cbn [buffer RecordBuffer.new Z.eqb].
      destruct (Z.leb_spec (Z.of_nat (List.length pre) + FATENTRY_LEN
                            + Z.of_nat (List.length content))
                  (Z.of_nat (List.length content))) as [H|_];
        [unfold FATENTRY_LEN in H; lia|].
      now rewrite andb_false_r.
    + cbn [body_read]. unfold getU8, RecordBuffer.length. cbn [buffer RecordBuffer.new].
      destruct (Z.eqb_spec (compressedSize entry) 0) as [E|_];
        [rewrite Hsize in E; cbn [List.length] in E; lia|].
      replace ((0 <=? Z.of_nat (List.length pre) + FATENTRY_LEN)
               && (0 <=? compressedSize entry)
               && (Z.of_nat (List.length pre) + FATENTRY_LEN + compressedSize entry <=?
                   Z.of_nat (List.length content)))
        with true
        by (symmetry; rewrite !andb_true_iff, !Z.leb_le; unfold FATENTRY_LEN; lia).
      f_equal. rewrite Hcontent. cbn [container].
      replace (pre ++ encode_record entry ++ (b :: body) ++ container items)
        with ((pre ++ encode_record entry) ++ (b :: body) ++ container items)
        by now rewrite <- app_assoc.
      apply slice_exact; [|exact Hsize].
      rewrite length_app, length_encode_record. unfold FATENTRY_LEN. lia.
  - replace (Z.of_nat (List.length pre) + FATENTRY_LEN + (compressedSize entry + FATENTRY_LEN))
      with (Z.of_nat (List.length (pre ++ encode_record entry ++ body)) + FATENTRY_LEN)
      by (rewrite !length_app, length_encode_record; unfold FATENTRY_LEN; lia).
    apply IH; [|exact Hrest].
    rewrite Hcontent. cbn [container]. now rewrite <- !app_assoc.
Qed.

Lemma container_files_firstn (content : list byte) items : forall offset n,
  Forall2 (fun file item => Archive.call_getRaw file = body_read (snd item))
    (files_of content offset items) items ->
  Forall well_laid items ->
  Forall2 (fun file item =>
             Archive.call_getRaw file = body_read (snd item)
             /\ Archive.diskSize (Archive.fields file) = Z.of_nat (List.length (snd item)))
    (files_of content offset (firstn n items)) (firstn n items).
Proof.
  induction items as [|[entry body] items IH]; intros offset n Hraw Hall.
  - rewrite firstn_nil. constructor.
  - destruct n as [|n]; [constructor|].
    cbn [container_files] in Hraw.
    apply Forall2_cons_iff in Hraw. destruct Hraw as [Hhead Htail].
    apply Forall_cons_iff in Hall. destruct Hall as [[_ Hsize] Hrest].
    cbn [firstn container_files]. constructor.
    + split; [exact Hhead|]. cbn [snd fst] in *. rewrite <- Hsize.
      unfold Archive_DAT_FAST.make_file.
      destruct (decompressedSize entry =? 0); reflexivity.
    + now apply IH.
Qed.

(** [parse] over a container of records that fit. *)
Lemma parse_container (items : list (fatEntry * list byte)) :
  Forall well_laid items ->
  parse cmpLZW cmpRLE (container items) =
    Ok {| Archive.files := files_of (container items) FATENTRY_LEN
                             (firstn MAX_FILES items) |}
  /\ Forall2 (fun file item =>
                Archive.call_getRaw file = body_read (snd item)
                /\ Archive.diskSize (Archive.fields file) = Z.of_nat (List.length (snd item)))
       (files_of (container items) FATENTRY_LEN (firstn MAX_FILES items))
       (firstn MAX_FILES items).
Proof.
  intros Hall. split.
  - rewrite parse_upto_MAX_FILES. unfold parse_upto.
    change (RecordBuffer.new (container items))
      with (RecordBuffer.mk (container items) (Z.of_nat (@List.length byte []))).
    change FATENTRY_LEN with (Z.of_nat (@List.length byte []) + FATENTRY_LEN) at 1.
    rewrite (parse_loop_container (container items) items [] _ [] eq_refl Hall).
    reflexivity.
  - pose proof (container_files_raw (container items) items [] eq_refl Hall) as Hraw.
    change (Z.of_nat (@List.length byte []) + FATENTRY_LEN) with FATENTRY_LEN in Hraw.
    exact (container_files_firstn (container items) items _ _ Hraw Hall).
Qed.

End Container.

(** X15. [parse] reads back a container laid out as records that fit their
    fields, with names of characters 0x20..0x7e, each followed by a body of
    the length it declares: it returns a file for each of the first 1024
    records, in order, built from that record, with the length of the body
    as [diskSize]. The raw bytes of a file are that body when it is not
    empty; for an empty body they cannot be fetched, the read of no bytes
    is a [RangeError]. *)
Theorem parse_reads_container_layout :
  forall (cmpLZW cmpRLE : GameCompression.Handler)
         (items : list (Archive_DAT_FAST.fatEntry * list byte)),
    Forall well_laid items ->
    Forall (fun item => ascii_name (Archive_DAT_FAST.name (fst item))) items ->
    let content := container items in
    let files := container_files cmpLZW cmpRLE content Archive_DAT_FAST.FATENTRY_LEN
                   (firstn Archive_DAT_FAST.MAX_FILES items) in
    Archive_DAT_FAST.parse cmpLZW cmpRLE content = Ok {| Archive.files := files |}
    /\ Forall2 (fun file item =>
                  Archive.diskSize (Archive.fields file) = Z.of_nat (List.length (snd item))
                  /\ (snd item <> [] -> Archive.call_getRaw file = Ok (snd item))
                  /\ (snd item = [] ->
                      exists msg, Archive.call_getRaw file = Throw (RangeError msg)))
         files (firstn Archive_DAT_FAST.MAX_FILES items).
Proof.
  intros cmpLZW cmpRLE items Hall _ content files.
  destruct (parse_container cmpLZW cmpRLE items Hall) as [Hparse Hraw].
  split; [exact Hparse|].
  revert Hraw. apply Forall2_impl. intros file [entry body] [Hget Hdisk].
  cbn [snd] in *. split; [exact Hdisk|].
  destruct body as [|b body]; cbn [body_read] in Hget.
  - split; [intros H; now contradiction H | intros _; eexists; exact Hget].
  - split; [intros _; exact Hget | discriminate].
Qed.

Lemma parse_reads_container_layout_witness :
  exists files,
    Archive_DAT_FAST.parse sample_lzw sample_rle sample_two_files = Ok {| Archive.files := files |}
    /\ Forall2 (fun file item =>
                  Archive.diskSize (Archive.fields file) = Z.of_nat (List.length (snd item))
                  /\ (snd item <> [] -> Archive.call_getRaw file = Ok (snd item))
                  /\ (snd item = [] ->
                      exists msg, Archive.call_getRaw file = Throw (RangeError msg)))
         files sample_two_items.
Proof.
  eexists.
  apply (parse_reads_container_layout sample_lzw sample_rle sample_two_items).
  - repeat constructor; cbn; try lia; intuition discriminate.
  - constructor; [|constructor; [|constructor]];
      intros c Hin; cbn in Hin; unfold printable_ascii;
      decompose [or] Hin; subst; try contradiction; vm_compute; split; discriminate.
Defined.

Section GenerateLayout.

Import RecordBuffer Archive_DAT_FAST.

Variables cmpLZW cmpRLE : GameCompression.Handler.

Local Abbreviation generate_file := (Archive_DAT_FAST.generate_file cmpLZW cmpRLE).
Local Abbreviation generate_files := (Archive_DAT_FAST.generate_files cmpLZW cmpRLE).

Lemma length_mismatch_false (data : list byte) (nativeSize : option Z) :
  length_mismatch data nativeSize = false <->
  nativeSize = Some (Z.of_nat (List.length data)).
Proof.
  unfold length_mismatch. destruct nativeSize as [n|]; [|split; discriminate].
  destruct (Z.eqb_spec (Z.of_nat (List.length data)) n) as [E|E]; cbn.
  - split; [now subst | reflexivity].
  - split; [discriminate | intros H; injection H as H; now subst].
Qed.

Lemma appended_at_end (buffer : RecordBuffer.t) (item : fatEntry * list byte) :
  pos buffer = RecordBuffer.length buffer ->
  pos (appended buffer item) = RecordBuffer.length (appended buffer item).
Proof.
  unfold appended, RecordBuffer.length. cbn [RecordBuffer.buffer pos]. intros ->.
  rewrite !length_app, length_encode_record. lia.
Qed.

Lemma write_item (buffer : RecordBuffer.t) (entry : fatEntry) (diskData : list byte) :
  pos buffer = RecordBuffer.length buffer ->
  put (writeRecord buffer entry) diskData = appended buffer (entry, diskData).
Proof.
  intros Hpos.
  destruct (writeRecord_at_end buffer entry Hpos) as [Hw Hend].
  rewrite (proj1 (put_at_end _ diskData Hend)), Hw. unfold appended.
  cbn [RecordBuffer.buffer pos fst snd]. now rewrite <- app_assoc.
Qed.

Lemma generate_file_written (buffer buffer' : RecordBuffer.t) (file : Archive.File) :
  pos buffer = RecordBuffer.length buffer ->
  generate_file buffer file = Ok buffer' <->
  exists item, written cmpLZW cmpRLE file item /\ buffer' = appended buffer item.
Proof.
  intros Hpos. unfold Archive_DAT_FAST.generate_file, written.
  destruct (entry_type_and_name (Archive.name (Archive.fields file))) as [code stored] eqn:Hname.
  split.
  - destruct (Archive.call_getContent file) as [data|e]; cbn [bind]; [|discriminate].
    destruct (length_mismatch data _) eqn:Hsize; [discriminate|].
    apply length_mismatch_false in Hsize.
    destruct (Archive.compressed (Archive.attributes (Archive.fields file)))
      as [[|]|] eqn:Hcomp; cbn [bind].
    + destruct (GameCompression.obscure cmpRLE data None) as [packed|e] eqn:Hrle;
        cbn [bind]; [|discriminate].
      destruct (GameCompression.obscure cmpLZW packed _) as [diskData|e] eqn:Hlzw;
        cbn [bind]; [|discriminate].
      intros H. injection H as <-. rewrite write_item by exact Hpos.
      eexists (_, diskData). split; [|reflexivity].
      exists data. cbn [fst snd typeCode name compressedSize decompressedSize].
      repeat split; auto. right. repeat split; [discriminate|]. now exists packed.
    + intros H. injection H as <-. rewrite write_item by exact Hpos.
      eexists (_, data). split; [|reflexivity].
      exists data. cbn [fst snd typeCode name compressedSize decompressedSize].
      repeat split; auto.
    + destruct (GameCompression.obscure cmpRLE data None) as [packed|e] eqn:Hrle;
        cbn [bind]; [|discriminate].
      destruct (GameCompression.obscure cmpLZW packed _) as [diskData|e] eqn:Hlzw;
        cbn [bind]; [|discriminate].
      intros H. injection H as <-. rewrite write_item by exact Hpos.
      eexists (_, diskData). split; [|reflexivity].
      exists data. cbn [fst snd typeCode name compressedSize decompressedSize].
      repeat split; auto. right. repeat split; [discriminate|]. now exists packed.
  - intros ([[tc cs nm ds] diskData] & (data & Hget & Hsize & Hpair & Hcs & Hcase) & ->).
    cbn [fst snd typeCode name compressedSize decompressedSize] in *.
    injection Hpair as -> ->.
    rewrite Hget. cbn [bind]. rewrite (proj2 (length_mismatch_false _ _) Hsize).
    destruct Hcase as [(Hcomp & -> & ->)|(Hcomp & -> & packed & Hrle & Hlzw)].
    + rewrite Hcomp. cbn [bind]. rewrite write_item by exact Hpos. now subst cs.
    + rewrite Hrle. cbn [bind]. rewrite Hlzw. cbn [bind].
      assert (Hwrite : Ok (put (writeRecord buffer
                                  {| typeCode := code;
                                     compressedSize := Z.of_nat (List.length diskData);
                                     name := stored;
                                     decompressedSize := Z.of_nat (List.length data) |})
                             diskData) =
                       Ok (appended buffer
                             ({| typeCode := code; compressedSize := cs; name := stored;
                                 decompressedSize := Z.of_nat (List.length data) |},
                              diskData)))
        by (rewrite write_item by exact Hpos; now subst cs).
      destruct (Archive.compressed (Archive.attributes (Archive.fields file))) as [[|]|];
        cbn [bind]; try exact Hwrite.
      now contradiction Hcomp.
Qed.

Lemma generate_files_written (files : list Archive.File) :
  forall (buffer buffer' : RecordBuffer.t),
    pos buffer = RecordBuffer.length buffer ->
    generate_files buffer files = Ok buffer' <->
    exists items,
      Forall2 (written cmpLZW cmpRLE) files items
      /\ buffer' = RecordBuffer.mk (RecordBuffer.buffer buffer ++ container items)
                     (pos buffer + Z.of_nat (List.length (container items))).
Proof.
  induction files as [|file files IH]; intros buffer buffer' Hpos.
  - cbn [Archive_DAT_FAST.generate_files]. split.
    + intros H. injection H as <-. exists []. split; [constructor|].
      cbn [container]. rewrite app_nil_r. destruct buffer. cbn. f_equal. lia.
    + intros (items & Hall & ->). inversion Hall; subst.
      cbn [container]. rewrite app_nil_r. destruct buffer. cbn. do 2 f_equal. lia.
  - cbn [Archive_DAT_FAST.generate_files]. split.
    + destruct (generate_file buffer file) as [b|e] eqn:Hfile; cbn [bind]; [|discriminate].
      apply (generate_file_written _ _ _ Hpos) in Hfile.
      destruct Hfile as (item & Hitem & ->).
      intros H. apply (IH _ _ (appended_at_end _ item Hpos)) in H.
      destruct H as (items & Hitems & ->).
      exists (item :: items). split; [now constructor|].
      destruct item as [entry body]. unfold appended.
      cbn [RecordBuffer.buffer pos fst snd container].
      f_equal; [now rewrite <- !app_assoc|].
      rewrite !length_app, length_encode_record. lia.
    + intros (items & Hall & ->).
      inversion Hall as [|? item ? items' Hitem Hitems]; subst.
      rewrite (proj2 (generate_file_written buffer (appended buffer item) file Hpos))
        by (exists item; auto).
      cbn [bind].
      apply (IH _ _ (appended_at_end _ item Hpos)).
      exists items'. split; [exact Hitems|].
      destruct item as [entry body]. unfold appended.
      cbn [RecordBuffer.buffer pos fst snd container].
      f_equal; [now rewrite <- !app_assoc|].
      rewrite !length_app, length_encode_record. lia.
Qed.

Lemma generate_finalSize_nonneg (files : list Archive.File) : forall init,
  0 <= init ->
  Forall (fun file => exists n, Archive.nativeSize (Archive.fields file) = Some n /\ 0 <= n)
    files ->
  0 <= fold_left
         (fun a b => a + match Archive.nativeSize (Archive.fields b) with
                         | Some n => n
                         | None => 0
                         end) files init.
Proof.
  induction files as [|file files IH]; intros init Hinit Hall; [exact Hinit|].
  inversion Hall as [|? ? (n & Hn & Hpos) Hrest]; subst.
  cbn [fold_left]. apply IH; [rewrite Hn; lia | exact Hrest].
Qed.

Lemma written_nativeSize (files : list Archive.File) items :
  Forall2 (written cmpLZW cmpRLE) files items ->
  Forall (fun file => exists n, Archive.nativeSize (Archive.fields file) = Some n /\ 0 <= n)
    files.
Proof.
  induction 1 as [|file item files items (data & _ & Hsize & _) _ IH]; constructor; auto.
  exists (Z.of_nat (List.length data)). split; [exact Hsize | lia].
Qed.

Lemma generate_written (archive : Archive.t) (out : list byte) :
  Archive_DAT_FAST.generate cmpLZW cmpRLE archive = Ok out <->
  exists items,
    Forall2 (written cmpLZW cmpRLE) (Archive.files archive) items /\ out = container items.
Proof.
  unfold Archive_DAT_FAST.generate. split.
  - unfold alloc. destruct (_ <? 0); cbn [bind]; [discriminate|].
    destruct (generate_files _ _) as [b|e] eqn:Hfiles; cbn [bind]; [|discriminate].
    apply generate_files_written in Hfiles; [|reflexivity].
    destruct Hfiles as (items & Hall & ->).
    intros H. injection H as <-. exists items. split; [exact Hall | reflexivity].
  - intros (items & Hall & ->).
    assert (Hsize : 0 <= generate_finalSize (Archive.files archive)).
    { unfold generate_finalSize. apply generate_finalSize_nonneg.
      - unfold FATENTRY_LEN. lia.
      - exact (written_nativeSize _ _ Hall). }
    unfold alloc. destruct (Z.ltb_spec (generate_finalSize (Archive.files archive)) 0); [lia|].
    cbn [bind].
    rewrite (proj2 (generate_files_written _ (RecordBuffer.mk [] 0) _ eq_refl))
      by (exists items; split; [exact Hall | reflexivity]).
    reflexivity.
Qed.

End GenerateLayout.

(** X16. [generate] succeeds exactly when every file can be written, and
    its output is then the records and bodies of the files, one after the
    other in the order of the archive: for each file a record with the
    type code and stored name taken from its name, the length of the body,
    and a decompressed size of 0 for a file written as it is or the length
    of the content for one that went through the transforms. *)
Theorem generate_writes_records_in_order :
  forall (cmpLZW cmpRLE : GameCompression.Handler) (archive : Archive.t) (out : list byte),
    Archive_DAT_FAST.generate cmpLZW cmpRLE archive = Ok out <->
    exists items,
      Forall2 (written cmpLZW cmpRLE) (Archive.files archive) items
      /\ out = container items.
Proof.
  intros cmpLZW cmpRLE archive out. apply generate_written.
Qed.

Lemma generate_writes_records_in_order_witness :
  Archive_DAT_FAST.generate sample_lzw sample_rle {| Archive.files := [sample_level_file] |}
    = Ok (container
            [({| Archive_DAT_FAST.typeCode := 1; Archive_DAT_FAST.compressedSize := 3;
                 Archive_DAT_FAST.name := "LEVEL1"; Archive_DAT_FAST.decompressedSize := 0 |},
              [x01; x02; x03])]).
Proof.
  apply (proj2 (generate_writes_records_in_order sample_lzw sample_rle
                  {| Archive.files := [sample_level_file] |} _)).
  eexists. split; [|reflexivity].
  repeat constructor. exists [x01; x02; x03].
  repeat split. left. repeat split.
Defined.

Section RoundTrip.

Import RecordBuffer Archive_DAT_FAST.

Variables cmpLZW cmpRLE : GameCompression.Handler.

Lemma container_app (i1 i2 : list (fatEntry * list byte)) :
  container (i1 ++ i2) = container i1 ++ container i2.
Proof.
  induction i1 as [|[entry body] i1 IH]; [reflexivity|].
  cbn [app container]. now rewrite IH, <- !app_assoc.
Qed.

Lemma In_firstn {A : Type} (x : A) (n : nat) (l : list A) : In x (firstn n l) -> In x l.
Proof.
  intros H. rewrite <- (firstn_skipn n l). apply in_or_app. now left.
Qed.

Lemma chars_string_of_list (l : list ascii) : chars (string_of_list_ascii l) = l.
Proof. apply list_ascii_of_string_of_list_ascii. Qed.

(** The record [generate] makes for a name of 30 characters at most
    without NUL fits its fields. *)
Lemma stored_name_fits (file_name : string) :
  (String.length file_name <= 30)%nat -> ~ In Ascii.zero (chars file_name) ->
  0 <= fst (entry_type_and_name file_name) < 65536
  /\ (String.length (snd (entry_type_and_name file_name)) <= 30)%nat
  /\ ~ In Ascii.zero (chars (snd (entry_type_and_name file_name))).
Proof.
  intros Hlen Hno. split.
  - destruct (proj1 (entry_type_and_name_code file_name)) as (ext & ty & Hin).
    remember (fst (entry_type_and_name file_name)) as code eqn:Hcode. clear Hcode.
    unfold FASTTypes in Hin. simpl in Hin.
    decompose [or] Hin; try contradiction;
      match goal with H : (_, _) = (_, _) |- _ => inversion H end; lia.
  - unfold entry_type_and_name.
    destruct (String.eqb _ ".snd"); [cbn [snd]; auto|].
    destruct (find _ FASTTypes) as [[code [ext ty]]|]; [|cbn [snd]; auto].
    cbn [snd]. unfold substr_first. split.
    + rewrite <- length_chars, chars_string_of_list, length_firstn, length_chars. lia.
    + rewrite chars_string_of_list. intros H. apply Hno. exact (In_firstn _ _ _ H).
Qed.

Lemma ascii_name_no_nul (s : string) : ascii_name s -> ~ In Ascii.zero (chars s).
Proof.
  intros Hascii Hin. specialize (Hascii _ Hin). unfold printable_ascii in Hascii.
  cbn in Hascii. lia.
Qed.

Lemma option_bool_false_dec (o : option bool) : o = Some false \/ o <> Some false.
Proof. destruct o as [[|]|]; [right | left | right]; congruence. Qed.

Lemma body_read_some (body : list byte) :
  0 < Z.of_nat (List.length body) -> body_read body = Ok body.
Proof. destruct body; cbn [List.length body_read]; [lia | reflexivity]. Qed.

(** The record and body [generate] writes for a file that can be written
    and read back. *)
Lemma plain_file_written (file : Archive.File) :
  plain_file file -> exists item, written cmpLZW cmpRLE file item /\ well_laid item.
Proof.
  intros (Hcomp & (data & Hget & Hsize & Hlen) & Hname & Hascii).
  destruct (stored_name_fits _ Hname (ascii_name_no_nul _ Hascii)) as (Hcode & Hstored & Hnul).
  exists ({| typeCode := fst (entry_type_and_name (Archive.name (Archive.fields file)));
             compressedSize := Z.of_nat (List.length data);
             name := snd (entry_type_and_name (Archive.name (Archive.fields file)));
             decompressedSize := 0 |}, data).
  split.
  - exists data. cbn [fst snd typeCode name compressedSize decompressedSize].
    split; [exact Hget|]. split; [exact Hsize|].
    split; [symmetry; apply surjective_pairing|]. split; [reflexivity|].
    left. auto.
  - unfold well_laid, fits_record.
    cbn [fst snd typeCode name compressedSize decompressedSize].
    repeat split; auto; lia.
Qed.

Lemma packed_file_written (file : Archive.File) :
  packed_file cmpLZW cmpRLE file ->
  exists item, written cmpLZW cmpRLE file item /\ well_laid item.
Proof.
  intros (Hcomp & (data & packed & diskData & unpacked & restored & Hget & Hsize & Hlen
                   & Hrle & Hlzw & Hdisk & _) & Hname & Hascii).
  destruct (stored_name_fits _ Hname (ascii_name_no_nul _ Hascii)) as (Hcode & Hstored & Hnul).
  exists ({| typeCode := fst (entry_type_and_name (Archive.name (Archive.fields file)));
             compressedSize := Z.of_nat (List.length diskData);
             name := snd (entry_type_and_name (Archive.name (Archive.fields file)));
             decompressedSize := Z.of_nat (List.length data) |}, diskData).
  split.
  - exists data. cbn [fst snd typeCode name compressedSize decompressedSize].
    split; [exact Hget|]. split; [exact Hsize|].
    split; [symmetry; apply surjective_pairing|]. split; [reflexivity|].
    right. split; [exact Hcomp|]. split; [reflexivity|]. exists packed. auto.
  - unfold well_laid, fits_record.
    cbn [fst snd typeCode name compressedSize decompressedSize].
    repeat split; auto; lia.
Qed.

Lemma make_file_restored_name (content : list byte) (offset : Z) (file : Archive.File)
    (entry : fatEntry) :
  (typeCode entry, name entry) = entry_type_and_name (Archive.name (Archive.fields file)) ->
  Archive.name (Archive.fields (make_file cmpLZW cmpRLE content offset entry)) =
    restored_name (Archive.name (Archive.fields file)).
Proof.
  intros Hpair.
  destruct (make_file_name_type cmpLZW cmpRLE content offset entry) as [Hname _].
  rewrite Hname. unfold restored_name. rewrite <- Hpair. reflexivity.
Qed.

(** A record with a decompressed size of 0 is read as a file stored as it
    is. *)
Lemma make_file_stored (content : list byte) (offset : Z) (entry : fatEntry)
    (raw : list byte) :
  decompressedSize entry = 0 ->
  Archive.call_getRaw (make_file cmpLZW cmpRLE content offset entry) = Ok raw ->
  Archive.compressed (Archive.attributes
                        (Archive.fields (make_file cmpLZW cmpRLE content offset entry)))
    = Some false
  /\ Archive.call_getContent (make_file cmpLZW cmpRLE content offset entry) = Ok raw
  /\ Archive.nativeSize (Archive.fields (make_file cmpLZW cmpRLE content offset entry))
       = Some (compressedSize entry).
Proof.
  intros Hds. unfold make_file, Archive.call_getRaw, Archive.call_getContent,
    Archive.default_getContent.
  rewrite Hds. cbn. intros ->. auto.
Qed.

Lemma make_file_marked_stored (content : list byte) (offset : Z) (entry : fatEntry) :
  decompressedSize entry = 0 ->
  Archive.compressed (Archive.attributes
                        (Archive.fields (make_file cmpLZW cmpRLE content offset entry)))
    = Some false
  /\ Archive.nativeSize (Archive.fields (make_file cmpLZW cmpRLE content offset entry))
       = Some (compressedSize entry).
Proof.
  intros Hds. unfold make_file. rewrite Hds. cbn. auto.
Qed.

(** What comes back for a file written as it is. *)
Lemma plain_file_read_back (content : list byte) (offset : Z) (file : Archive.File)
    (item : fatEntry * list byte) :
  written cmpLZW cmpRLE file item ->
  plain_file file ->
  Archive.call_getRaw (make_file cmpLZW cmpRLE content offset (fst item))
    = body_read (snd item) ->
  read_back (make_file cmpLZW cmpRLE content offset (fst item)) file.
Proof.
  intros (data & Hget & Hsize & Hpair & Hcs & Hcase)
         (Hcomp & (data' & Hget' & _ & Hlen) & _) Hraw.
  destruct Hcase as [(_ & Hdata & Hds)|(Hno & _)]; [|contradiction].
  destruct item as [entry body]. cbn [fst snd] in *. subst body.
  rewrite Hget in Hget'. injection Hget' as <-.
  rewrite (body_read_some data) in Hraw by lia.
  unfold read_back, compression_wanted. rewrite Hcomp. split.
  - now apply make_file_restored_name.
  - destruct (make_file_stored content offset entry data Hds Hraw) as (Hc & Hcontent & Hn).
    rewrite Hc, Hcontent, Hn, Hget, Hsize, Hcs. auto.
Qed.

(** What comes back for a file written compressed. *)
Lemma packed_file_read_back (content : list byte) (offset : Z) (file : Archive.File)
    (item : fatEntry * list byte) :
  written cmpLZW cmpRLE file item ->
  packed_file cmpLZW cmpRLE file ->
  Archive.call_getRaw (make_file cmpLZW cmpRLE content offset (fst item))
    = body_read (snd item) ->
  read_back (make_file cmpLZW cmpRLE content offset (fst item)) file.
Proof.
  intros (data & Hget & Hsize & Hpair & Hcs & Hcase)
         (Hcomp & (data' & packed & diskData & unpacked & restored & Hget' & _ & Hlen
                   & Hrle & Hlzw & Hdisk & Hunlzw & Hunrle & Hfirst) & _) Hraw.
  destruct Hcase as [(Hno & _)|(_ & Hds & packed' & Hrle' & Hlzw')]; [contradiction|].
  destruct item as [entry body]. cbn [fst snd] in *.
  rewrite Hget in Hget'. injection Hget' as <-.
  rewrite Hrle in Hrle'. injection Hrle' as <-.
  rewrite Hlzw in Hlzw'. injection Hlzw' as <-.
  rewrite (body_read_some diskData) in Hraw by lia.
  assert (Hwanted : compression_wanted file = true).
  { unfold compression_wanted.
    destruct (Archive.compressed (Archive.attributes (Archive.fields file))) as [[|]|];
      auto; contradiction. }
  unfold read_back. rewrite Hwanted. split.
  - now apply make_file_restored_name.
  - revert Hraw. unfold make_file, Archive.call_getRaw, Archive.call_getContent.
    destruct (Z.eqb_spec (decompressedSize entry) 0) as [E|E]; [lia|].
    cbn [Archive.fields Archive.getRaw Archive.getContent Archive.attributes
         Archive.compressed Archive.nativeSize Archive.diskSize].
    intros ->. cbn [bind]. rewrite (Hunlzw entry). cbn [bind]. rewrite Hunrle. cbn [bind].
    unfold Archive.call_getContent in Hget. rewrite Hget, Hsize, Hds.
    repeat split. f_equal. unfold Uint8Array_slice0.
    destruct (Z.ltb_spec (Z.of_nat (List.length data)) 0) as [Hneg|_]; [lia|].
    now rewrite Nat2Z.id.
Qed.

Lemma Forall_exists_Forall2 {A B : Type} (P : A -> B -> Prop) (l : list A) :
  Forall (fun a => exists b, P a b) l -> exists l', Forall2 P l l'.
Proof.
  induction 1 as [|a l [b Hb] _ [l' IH]]; [exists []; constructor|].
  exists (b :: l'). now constructor.
Qed.

Lemma Forall2_firstn_both {A B : Type} (P : A -> B -> Prop) (n : nat) (l : list A)
    (l' : list B) :
  Forall2 P l l' -> Forall2 P (firstn n l) (firstn n l').
Proof.
  intros H. revert n. induction H as [|a b l l' Hab _ IH]; intros [|n]; cbn [firstn];
    constructor; auto.
Qed.

Lemma Forall2_through {A B C : Type} (P : A -> B -> Prop) (Q : C -> B -> Prop)
    (R : A -> C -> Prop) :
  (forall a b c, P a b -> Q c b -> R a c) ->
  forall la lb lc, Forall2 P la lb -> Forall2 Q lc lb -> Forall2 R la lc.
Proof.
  intros HR la lb lc H. revert lc.
  induction H as [|a b la lb Hab _ IH]; intros lc HQ; inversion HQ; subst;
    constructor; eauto.
Qed.

Lemma container_files_made (content : list byte) items : forall offset,
  Forall2 (fun file item => exists off, file = make_file cmpLZW cmpRLE content off (fst item))
    (container_files cmpLZW cmpRLE content offset items) items.
Proof.
  induction items as [|[entry body] items IH]; intros offset; cbn [container_files];
    constructor; auto.
  now exists offset.
Qed.

Lemma Forall2_Forall_r {A B : Type} (P : A -> B -> Prop) (Q : B -> Prop) (l : list A)
    (l' : list B) :
  Forall2 P l l' -> (forall a b, P a b -> Q b) -> Forall Q l'.
Proof.
  intros H HQ. induction H; constructor; eauto.
Qed.

Lemma Forall2_both {A B : Type} (P Q : A -> B -> Prop) (l : list A) (l' : list B) :
  Forall2 P l l' -> Forall2 Q l l' -> Forall2 (fun a b => P a b /\ Q a b) l l'.
Proof.
  intros H. induction H; intros HQ; inversion HQ; subst; constructor; auto.
Qed.

(** Writing files that can be written and read back, then reading the
    output. *)
Lemma generate_then_parse (archive : Archive.t) :
  Forall (fun file => plain_file file \/ packed_file cmpLZW cmpRLE file)
    (Archive.files archive) ->
  exists out files',
    generate cmpLZW cmpRLE archive = Ok out
    /\ parse cmpLZW cmpRLE out = Ok {| Archive.files := files' |}
    /\ Forall2 read_back files' (firstn MAX_FILES (Archive.files archive)).
Proof.
  intros Hfiles.
  assert (Hitems : exists items,
            Forall2 (fun file item =>
                       (plain_file file \/ packed_file cmpLZW cmpRLE file)
                       /\ written cmpLZW cmpRLE file item /\ well_laid item)
              (Archive.files archive) items).
  { apply Forall_exists_Forall2. revert Hfiles. apply Forall_impl.
    intros file [H|H].
    - destruct (plain_file_written file H) as (item & Hw & Hl). exists item. auto.
    - destruct (packed_file_written file H) as (item & Hw & Hl). exists item. auto. }
  destruct Hitems as [items Hitems].
  assert (Hwritten : Forall2 (written cmpLZW cmpRLE) (Archive.files archive) items).
  { revert Hitems. apply Forall2_impl. tauto. }
  assert (Hlaid : Forall well_laid items).
  { apply (Forall2_Forall_r _ _ _ _ Hitems). tauto. }
  destruct (parse_container cmpLZW cmpRLE items Hlaid) as [Hparse Hraw].
  exists (container items), (container_files cmpLZW cmpRLE (container items) FATENTRY_LEN
                               (firstn MAX_FILES items)).
  split; [apply generate_written; exists items; auto|].
  split; [exact Hparse|].
  pose proof (Forall2_both _ _ _ _ Hraw
                (container_files_made (container items) (firstn MAX_FILES items) FATENTRY_LEN))
    as Hboth.
  eapply Forall2_through;
    [| exact Hboth | exact (Forall2_firstn_both _ MAX_FILES _ _ Hitems)].
  intros file' item file [[Hraw' _] [off ->]] (Hkind & Hw & _).
  destruct Hkind as [Hplain|Hpacked].
  - apply plain_file_read_back; assumption.
  - apply packed_file_read_back; assumption.
Qed.

End RoundTrip.

(** X17. An archive survives being written and read again. When every
    file is either one to be written as it is or one to be compressed
    whose content the two transforms give back, with a content that is not
    empty and a name of 30 characters at most in the range 0x20..0x7e (see
    [plain_file] and [packed_file]), [checkLimits] of the handler raises
    no issue, [generate] succeeds, [parse] reads its output, and the files
    read are the first 1024 files written, in order: same content, same
    [nativeSize], marked compressed when written so, and the same name but
    for the case of a table extension. Files after the 1024th are lost
    without an error. *)
Theorem archive_survives_generate_then_parse :
  forall (cmpLZW cmpRLE : GameCompression.Handler) (archive : Archive.t),
    Forall (fun file => plain_file file \/ packed_file cmpLZW cmpRLE file)
      (Archive.files archive) ->
    ArchiveHandler.checkLimits Archive_DAT_FAST.metadata archive = Ok []
    /\ exists out files',
         Archive_DAT_FAST.generate cmpLZW cmpRLE archive = Ok out
         /\ Archive_DAT_FAST.parse cmpLZW cmpRLE out = Ok {| Archive.files := files' |}
         /\ Forall2 read_back files'
              (firstn Archive_DAT_FAST.MAX_FILES (Archive.files archive)).
Proof.
  intros cmpLZW cmpRLE archive Hfiles. split; [|now apply generate_then_parse].
  rewrite Forall_forall in Hfiles.
  destruct (checkLimits_returns Archive_DAT_FAST.metadata archive)
    as (issues & Hcheck & Hissues).
  - intros file Hin Hzero. exfalso.
    destruct (Hfiles file Hin) as [(_ & (data & _ & Hsize & Hlen) & _)
                                  |(_ & (data & _ & _ & _ & _ & _ & Hsize & Hlen & _) & _)];
      rewrite Hsize in Hzero; injection Hzero as Hzero; lia.
  - rewrite Hcheck. f_equal. apply Hissues. split.
    + exact I.
    + intros file Hin.
      destruct (Hfiles file Hin) as [(_ & _ & Hlen & _)|(_ & _ & Hlen & _)]; lia.
Qed.

Lemma archive_survives_generate_then_parse_witness :
  ArchiveHandler.checkLimits Archive_DAT_FAST.metadata
    {| Archive.files := [sample_good_file; sample_packed_file] |} = Ok []
  /\ exists out files',
       Archive_DAT_FAST.generate sample_lzw sample_rle
         {| Archive.files := [sample_good_file; sample_packed_file] |} = Ok out
       /\ Archive_DAT_FAST.parse sample_lzw sample_rle out = Ok {| Archive.files := files' |}
       /\ Forall2 read_back files'
            (firstn Archive_DAT_FAST.MAX_FILES [sample_good_file; sample_packed_file]).
Proof.
  apply (archive_survives_generate_then_parse sample_lzw sample_rle
           {| Archive.files := [sample_good_file; sample_packed_file] |}).
  constructor; [|constructor; [|constructor]].
  - left. unfold plain_file. split; [reflexivity|]. split.
    + exists [x2a; x2b]. split; [reflexivity|]. split; [reflexivity|]. cbn. lia.
    + split; [cbn; lia|].
      intros c Hin; cbn in Hin; unfold printable_ascii;
        decompose [or] Hin; subst; try contradiction; vm_compute; split; discriminate.
  - right. unfold packed_file. split; [discriminate|]. split.
    + exists [x07; x07; x07], [x07; x07; x07], [x07; x07; x07], [x07; x07; x07],
        [x07; x07; x07; x00].
      split; [reflexivity|]. split; [reflexivity|]. split; [cbn; lia|].
      split; [reflexivity|]. split; [reflexivity|]. split; [cbn; lia|].
      split; [reflexivity|]. split; reflexivity.
    + split; [cbn; lia|].
      intros c Hin; cbn in Hin; unfold printable_ascii;
        decompose [or] Hin; subst; try contradiction; vm_compute; split; discriminate.
Defined.

(** X18. A file without content does not survive being written and read
    again. Whether it is written as it is or through encoders that give
    nothing for an empty input, [checkLimits] raises no issue and
    [generate] writes its record alone, 37 bytes with both sizes 0;
    [parse] reads a file from it, marked uncompressed with a [nativeSize]
    of 0, whose raw bytes and content cannot be fetched: the read of no
    bytes is a [RangeError]. *)
Theorem empty_file_cannot_be_read_back :
  forall (cmpLZW cmpRLE : GameCompression.Handler) (file : Archive.File),
    Archive.call_getContent file = Ok [] ->
    Archive.nativeSize (Archive.fields file) = Some 0 ->
    (String.length (Archive.name (Archive.fields file)) <= 30)%nat ->
    ascii_name (Archive.name (Archive.fields file)) ->
    Archive.compressed (Archive.attributes (Archive.fields file)) = Some false
    \/ (exists packed,
          GameCompression.obscure cmpRLE [] None = Ok packed
          /\ GameCompression.obscure cmpLZW packed (Some Archive_DAT_FAST.cmpDefaultParams)
               = Ok []) ->
    ArchiveHandler.checkLimits Archive_DAT_FAST.metadata {| Archive.files := [file] |} = Ok []
    /\ exists out file',
         Archive_DAT_FAST.generate cmpLZW cmpRLE {| Archive.files := [file] |} = Ok out
         /\ List.length out = 37%nat
         /\ Archive_DAT_FAST.parse cmpLZW cmpRLE out = Ok {| Archive.files := [file'] |}
         /\ Archive.compressed (Archive.attributes (Archive.fields file')) = Some false
         /\ Archive.nativeSize (Archive.fields file') = Some 0
         /\ exists msg,
              Archive.call_getRaw file' = Throw (RangeError msg)
              /\ Archive.call_getContent file' = Throw (RangeError msg).
Proof.
  intros cmpLZW cmpRLE file Hget Hsize Hname Hascii Hkind. split.
  { destruct (checkLimits_returns Archive_DAT_FAST.metadata {| Archive.files := [file] |})
      as (issues & Hcheck & Hissues).
    - intros f [<-|[]] _. exact Hget.
    - rewrite Hcheck. f_equal. apply Hissues. split; [exact I|].
      intros f [<-|[]]. lia. }
  destruct (stored_name_fits _ Hname (ascii_name_no_nul _ Hascii)) as (Hcode & Hstored & Hnul).
  set (entry := {| Archive_DAT_FAST.typeCode :=
                     fst (Archive_DAT_FAST.entry_type_and_name
                            (Archive.name (Archive.fields file)));
                   Archive_DAT_FAST.compressedSize := 0;
                   Archive_DAT_FAST.name :=
                     snd (Archive_DAT_FAST.entry_type_and_name
                            (Archive.name (Archive.fields file)));
                   Archive_DAT_FAST.decompressedSize := 0 |}).
  assert (Hwritten : written cmpLZW cmpRLE file (entry, [])).
  { exists []. cbn [fst snd]. split; [exact Hget|]. split; [exact Hsize|].
    split; [symmetry; apply surjective_pairing|]. split; [reflexivity|].
    destruct (option_bool_false_dec
                (Archive.compressed (Archive.attributes (Archive.fields file))))
      as [Hcomp|Hcomp].
    - left. auto.
    - right. split; [exact Hcomp|]. split; [reflexivity|].
      destruct Hkind as [Hplain|Hpacked]; [contradiction | exact Hpacked]. }
  assert (Hlaid : Forall well_laid [(entry, [])]).
  { constructor; [|constructor]. unfold well_laid, fits_record, entry. cbn [fst snd].
    cbn [Archive_DAT_FAST.typeCode Archive_DAT_FAST.compressedSize Archive_DAT_FAST.name
         Archive_DAT_FAST.decompressedSize List.length].
    repeat split; auto; lia. }
  destruct (parse_container cmpLZW cmpRLE [(entry, [])] Hlaid) as [Hparse Hraw].
  exists (container [(entry, [])]),
    (Archive_DAT_FAST.make_file cmpLZW cmpRLE (container [(entry, [])])
       Archive_DAT_FAST.FATENTRY_LEN entry).
  split.
  { apply generate_written. exists [(entry, [])]. split; [|reflexivity].
    constructor; [exact Hwritten | constructor]. }
  split.
  { cbn [container]. rewrite !length_app, length_encode_record. reflexivity. }
  split; [exact Hparse|].
  change (firstn Archive_DAT_FAST.MAX_FILES [(entry, [])]) with [(entry, @nil byte)] in Hraw.
  cbn [container_files] in Hraw.
  apply Forall2_cons_iff in Hraw. destruct Hraw as [[Hhead _] _].
  cbn [snd body_read] in Hhead.
  destruct (make_file_marked_stored cmpLZW cmpRLE (container [(entry, [])])
              Archive_DAT_FAST.FATENTRY_LEN entry eq_refl) as [Hc Hn].
  split; [exact Hc|]. split; [exact Hn|]. eexists. split; [exact Hhead|].
  now apply make_file_getContent_throws.
Qed.

Lemma empty_file_cannot_be_read_back_witness :
  ArchiveHandler.checkLimits Archive_DAT_FAST.metadata
    {| Archive.files := [sample_empty_file] |} = Ok []
  /\ exists out file',
       Archive_DAT_FAST.generate sample_lzw sample_rle
         {| Archive.files := [sample_empty_file] |} = Ok out
       /\ List.length out = 37%nat
       /\ Archive_DAT_FAST.parse sample_lzw sample_rle out = Ok {| Archive.files := [file'] |}
       /\ Archive.compressed (Archive.attributes (Archive.fields file')) = Some false
       /\ Archive.nativeSize (Archive.fields file') = Some 0
       /\ exists msg,
            Archive.call_getRaw file' = Throw (RangeError msg)
            /\ Archive.call_getContent file' = Throw (RangeError msg).
Proof.
  apply (empty_file_cannot_be_read_back sample_lzw sample_rle sample_empty_file).
  - reflexivity.
  - reflexivity.
  - cbn. lia.
  - intros c Hin; cbn in Hin; unfold printable_ascii;
      decompose [or] Hin; subst; try contradiction; vm_compute; split; discriminate.
  - right. exists []. split; reflexivity.
Defined.

Section IdentifyWritten.

Import RecordBuffer Archive_DAT_FAST.

Variables cmpLZW cmpRLE : GameCompression.Handler.

(** The verdict of the loop of [identify] over a container of records that
    fit: the records are fewer than the turns and every name is made of
    accepted characters. *)
Lemma identify_loop_container (content : list byte) items : forall pre n i,
  content = pre ++ container items ->
  Forall well_laid items ->
  exists line,
    identify_loop n i (RecordBuffer.mk content (Z.of_nat (List.length pre))) =
      Ok (line,
          (List.length items <? n)%nat
          && forallb (fun item => negb (existsb invalid_char (chars (name (fst item)))))
               items).
Proof.
  induction items as [|[entry body] items IH]; intros pre n i Hcontent Hall.
  - destruct n as [|n]; [eexists; reflexivity|].
    exists EOF_at_correct_place. apply identify_loop_eof.
    unfold distFromEnd, RecordBuffer.length. cbn [buffer pos].
    rewrite Hcontent. cbn [container]. rewrite app_nil_r. lia.
  - destruct n as [|n]; [eexists; reflexivity|].
    apply Forall_cons_iff in Hall. destruct Hall as [[Hfits Hsize] Hrest].
    cbn [fst snd] in Hfits, Hsize.
    assert (Hread : readRecord (RecordBuffer.mk content (Z.of_nat (List.length pre))) =
                    Ok (entry, RecordBuffer.mk content (Z.of_nat (List.length pre) + 37))).
    { rewrite Hcontent. cbn [container].
      exact (readRecord_encoded pre (body ++ container items) entry Hfits). }
    rewrite (identify_loop_step _ _ _ _ _ Hread).
    cbn [forallb fst List.length].
    change (S (List.length items) <? S n)%nat with (List.length items <? n)%nat.
    destruct (existsb invalid_char (chars (name entry))).
    { eexists. cbn [negb andb]. rewrite andb_false_r. reflexivity. }
    cbn [negb andb].
    assert (Hfit : compressedSize entry <=
                   distFromEnd (RecordBuffer.mk content (Z.of_nat (List.length pre) + 37))).
    { unfold distFromEnd, RecordBuffer.length. cbn [buffer pos].
      rewrite Hcontent, length_app.
      rewrite (length_container_cons entry body items). lia. }
    destruct (Z.ltb_spec
                (distFromEnd (RecordBuffer.mk content (Z.of_nat (List.length pre) + 37)))
                (compressedSize entry)) as [Hbig|_]; [lia|].
    rewrite (seek_over_body content pre entry body items Hcontent Hsize).
    apply IH; [|exact Hrest].
    rewrite Hcontent. cbn [container]. now rewrite <- !app_assoc.
Qed.

Lemma written_stored_names (files : list Archive.File) items :
  Forall2 (written cmpLZW cmpRLE) files items ->
  forallb (fun item => negb (existsb invalid_char (chars (name (fst item))))) items =
    forallb (fun file => stored_name_accepted (Archive.name (Archive.fields file))) files.
Proof.
  induction 1 as [|file item files items (data & _ & _ & Hpair & _) _ IH]; [reflexivity|].
  cbn [forallb]. rewrite IH. unfold stored_name_accepted. rewrite <- Hpair.
  reflexivity.
Qed.

Lemma identify_written (archive : Archive.t) items :
  Forall2 (written cmpLZW cmpRLE) (Archive.files archive) items ->
  Forall well_laid items ->
  identify (container items) =
    Ok (JBool ((List.length (Archive.files archive) <? MAX_FILES)%nat
               && forallb (fun file =>
                             stored_name_accepted (Archive.name (Archive.fields file)))
                    (Archive.files archive))).
Proof.
  intros Hwritten Hlaid.
  destruct (identify_loop_container (container items) items [] MAX_FILES 0 eq_refl Hlaid)
    as [line Hloop].
  unfold identify, identify_log.
  change (RecordBuffer.new (container items))
    with (RecordBuffer.mk (container items) (Z.of_nat (@List.length byte []))).
  rewrite Hloop. cbn [bind].
  rewrite (written_stored_names _ _ Hwritten), (Forall2_length Hwritten).
  reflexivity.
Qed.

End IdentifyWritten.

(** X19. Whether the handler recognises an archive it wrote: when the
    records [generate] writes fit their fields, [identify] answers [true]
    on the output exactly when the archive has fewer than 1024 files and
    every stored name (the name, without its extension when the table has
    it) is made of characters 33..126 only. A file with a space in its name
    is written without complaint into an archive that [identify] refuses,
    and so is an archive of 1024 files. *)
Theorem identify_verdict_on_generated_archive :
  forall (cmpLZW cmpRLE : GameCompression.Handler) (archive : Archive.t)
         (items : list (Archive_DAT_FAST.fatEntry * list byte)),
    Forall2 (written cmpLZW cmpRLE) (Archive.files archive) items ->
    Forall well_laid items ->
    Archive_DAT_FAST.generate cmpLZW cmpRLE archive = Ok (container items)
    /\ Archive_DAT_FAST.identify (container items) =
         Ok (JBool ((List.length (Archive.files archive) <? Archive_DAT_FAST.MAX_FILES)%nat
                    && forallb (fun file =>
                                  stored_name_accepted (Archive.name (Archive.fields file)))
                         (Archive.files archive))).
Proof.
  intros cmpLZW cmpRLE archive items Hwritten Hlaid. split.
  - apply generate_written. exists items. auto.
  - now apply (identify_written cmpLZW cmpRLE).
Qed.

Lemma identify_verdict_on_generated_archive_witness :
  exists out,
    Archive_DAT_FAST.generate sample_lzw sample_rle
      {| Archive.files := [sample_spaced_file] |} = Ok out
    /\ Archive_DAT_FAST.identify out = Ok (JBool false).
Proof.
  eexists.
  apply (identify_verdict_on_generated_archive sample_lzw sample_rle
           {| Archive.files := [sample_spaced_file] |}
           [({| Archive_DAT_FAST.typeCode := 1; Archive_DAT_FAST.compressedSize := 1;
                Archive_DAT_FAST.name := "MY LEVEL"; Archive_DAT_FAST.decompressedSize := 0 |},
             [x01])]).
  - constructor; [|constructor]. exists [x01].
    split; [reflexivity|]. split; [reflexivity|]. split; [reflexivity|].
    split; [reflexivity|]. left. auto.
  - constructor; [|constructor]. unfold well_laid, fits_record. cbn.
    repeat split; try lia; try discriminate. intuition discriminate.
Defined.

(** X20. [generate] writes the files one after the other and keeps no
    state between them: writing a list of files followed by another
    succeeds exactly when writing each list does, and the output is the
    two outputs joined. *)
Theorem generate_of_joined_archives :
  forall (cmpLZW cmpRLE : GameCompression.Handler) (files1 files2 : list Archive.File)
         (out : list byte),
    Archive_DAT_FAST.generate cmpLZW cmpRLE {| Archive.files := files1 ++ files2 |} = Ok out
    <->
    exists out1 out2,
      Archive_DAT_FAST.generate cmpLZW cmpRLE {| Archive.files := files1 |} = Ok out1
      /\ Archive_DAT_FAST.generate cmpLZW cmpRLE {| Archive.files := files2 |} = Ok out2
      /\ out = (out1 ++ out2)%list.
Proof.
  intros cmpLZW cmpRLE files1 files2 out. split.
  - intros H. apply generate_written in H. destruct H as (items & Hwritten & ->).
    cbn [Archive.files] in Hwritten.
    apply Forall2_app_inv_l in Hwritten.
    destruct Hwritten as (items1 & items2 & H1 & H2 & ->).
    exists (container items1), (container items2).
    split; [apply generate_written; exists items1; auto|].
    split; [apply generate_written; exists items2; auto|].
    apply container_app.
  - intros (out1 & out2 & H1 & H2 & ->).
    apply generate_written in H1. destruct H1 as (items1 & Hw1 & ->).
    apply generate_written in H2. destruct H2 as (items2 & Hw2 & ->).
    apply generate_written. exists (items1 ++ items2)%list.
    cbn [Archive.files] in *. split; [now apply Forall2_app|].
    symmetry. apply container_app.
Qed.

(** * Names through the bytes of a record *)

Section NamesWritten.

Import RecordBuffer Archive_DAT_FAST.

Variables cmpLZW cmpRLE : GameCompression.Handler.

Lemma length_substr_first (k : nat) (s : string) :
  String.length (substr_first (Z.of_nat k) s) = Nat.min k (String.length s).
Proof.
  unfold substr_first. rewrite <- length_chars, chars_string_of_list, Nat2Z.id.
  rewrite length_firstn, length_chars. reflexivity.
Qed.

Lemma length_kept_name (s : string) :
  String.length (kept_name s) = Nat.min 30 (String.length s).
Proof. exact (length_substr_first 30 s). Qed.

Lemma kept_name_short (s : string) : (String.length s <= 30)%nat -> kept_name s = s.
Proof.
  intros Hlen. unfold kept_name, substr_first.
  rewrite firstn_all2 by (rewrite length_chars; cbn; lia).
  apply string_of_list_ascii_of_string.
Qed.

Lemma kept_name_no_nul (s : string) :
  ~ In Ascii.zero (chars s) -> ~ In Ascii.zero (chars (kept_name s)).
Proof.
  intros Hno H. apply Hno. unfold kept_name, substr_first in H.
  rewrite chars_string_of_list in H. exact (In_firstn _ _ _ H).
Qed.

(** The field of a record holds a name and what it keeps of it alike. *)
Lemma string_reqTerm_encode_kept (s : string) :
  ~ In Ascii.zero (chars s) ->
  string_reqTerm_encode 31 s = string_reqTerm_encode 31 (kept_name s).
Proof.
  intros Hno. unfold string_reqTerm_encode.
  rewrite (proj2 (until_nul_no_nul (chars s) [] Hno)).
  rewrite (proj2 (until_nul_no_nul (chars (kept_name s)) [] (kept_name_no_nul s Hno))).
  unfold kept_name, substr_first. rewrite chars_string_of_list.
  change (Z.to_nat 30) with 30%nat. change (31 - 1)%nat with 30%nat.
  rewrite <- firstn_map, firstn_firstn. reflexivity.
Qed.

Lemma stored_name_no_nul (file_name : string) :
  ~ In Ascii.zero (chars file_name) ->
  ~ In Ascii.zero (chars (snd (entry_type_and_name file_name))).
Proof.
  intros Hno. unfold entry_type_and_name.
  destruct (String.eqb _ ".snd"); [exact Hno|].
  destruct (find _ FASTTypes) as [[code [ext ty]]|]; [|exact Hno].
  cbn [snd]. unfold substr_first. rewrite chars_string_of_list.
  intros H. apply Hno. exact (In_firstn _ _ _ H).
Qed.

Lemma entry_code_fits (file_name : string) :
  0 <= fst (entry_type_and_name file_name) < 65536.
Proof.
  destruct (proj1 (entry_type_and_name_code file_name)) as (ext & ty & Hin).
  remember (fst (entry_type_and_name file_name)) as code eqn:Hcode. clear Hcode.
  unfold FASTTypes in Hin. simpl in Hin.
  decompose [or] Hin; try contradiction;
    match goal with H : (_, _) = (_, _) |- _ => inversion H end; lia.
Qed.

(** A name within 30 characters is read as [restored_name] says. *)
Lemma read_name_short (file_name : string) :
  (String.length file_name <= 30)%nat -> ~ In Ascii.zero (chars file_name) ->
  read_name file_name = restored_name file_name.
Proof.
  intros Hlen Hno.
  destruct (stored_name_fits file_name Hlen Hno) as (_ & Hstored & _).
  unfold read_name, restored_name.
  destruct (entry_type_and_name file_name) as [code stored]. cbn [snd] in Hstored.
  now rewrite (kept_name_short stored Hstored).
Qed.

(** A table extension written with a capital comes back in lower case. *)
Lemma read_name_capital (file_name : string) (code : Z) (ext : string) (ty : option string) :
  In (code, (ext, ty)) FASTTypes -> ext <> "" ->
  toLowerCase (substr_last 4 file_name) = ext ->
  substr_last 4 file_name <> ext ->
  read_name file_name <> file_name.
Proof.
  intros Hin Hext Hlow Hcap H.
  unfold read_name in H.
  rewrite (entry_type_and_name_table file_name code ext ty Hin Hext Hlow) in H.
  destruct (FASTTypes_extension _ _ _ Hin Hext) as (Hlen & _ & Hget).
  rewrite Hget in H.
  apply (f_equal (substr_last 4)) in H.
  rewrite (substr_last_app _ ext Hlen) in H. now apply Hcap.
Qed.

(** A stored name of more than 30 characters comes back shorter. *)
Lemma read_name_long (file_name : string) :
  (30 < String.length (snd (entry_type_and_name file_name)))%nat ->
  (String.length (read_name file_name) < String.length file_name)%nat.
Proof.
  unfold read_name, entry_type_and_name.
  destruct (String.eqb _ ".snd").
  { cbv beta iota. cbn [snd]. intros Hlong.
    change (FASTTypes_get 8) with (Some ("", Some "sound/inverse")). cbv beta iota.
    rewrite string_length_app, length_kept_name. cbn [String.length]. lia. }
  destruct (find _ FASTTypes) as [[code [ext ty]]|] eqn:F.
  - apply find_some in F. destruct F as [Hin Htest]. cbn [fst snd] in Htest.
    apply andb_true_iff in Htest. destruct Htest as [Hne _].
    assert (Hext : ext <> "") by (intros ->; discriminate Hne).
    destruct (FASTTypes_extension _ _ _ Hin Hext) as (Hlen & _ & Hget).
    cbv beta iota. cbn [snd]. rewrite Hget. intros Hlong.
    rewrite string_length_app, length_kept_name, Hlen.
    unfold substr_first in Hlong.
    rewrite <- length_chars, chars_string_of_list, length_firstn, length_chars in Hlong.
    lia.
  - cbv beta iota. cbn [snd]. intros Hlong.
    change (FASTTypes_get 32) with (Some ("", @None string)). cbv beta iota.
    rewrite string_length_app, length_kept_name. cbn [String.length]. lia.
Qed.

(** Writing one file that is stored as it is, and reading the output. *)
Lemma generate_then_parse_name (file : Archive.File) (data : list byte) :
  Archive.compressed (Archive.attributes (Archive.fields file)) = Some false ->
  Archive.call_getContent file = Ok data ->
  Archive.nativeSize (Archive.fields file) = Some (Z.of_nat (List.length data)) ->
  0 < Z.of_nat (List.length data) < 65536 ->
  ~ In Ascii.zero (chars (Archive.name (Archive.fields file))) ->
  exists out file',
    generate cmpLZW cmpRLE {| Archive.files := [file] |} = Ok out
    /\ parse cmpLZW cmpRLE out = Ok {| Archive.files := [file'] |}
    /\ Archive.name (Archive.fields file') = read_name (Archive.name (Archive.fields file))
    /\ Archive.call_getContent file' = Ok data.
Proof.
  intros Hcomp Hget Hsize Hlen Hno.
  pose proof (stored_name_no_nul _ Hno) as Hstored.
  pose proof (entry_code_fits (Archive.name (Archive.fields file))) as Hcode.
  set (code := fst (entry_type_and_name (Archive.name (Archive.fields file)))) in *.
  set (stored := snd (entry_type_and_name (Archive.name (Archive.fields file)))) in *.
  set (entry := {| typeCode := code; compressedSize := Z.of_nat (List.length data);
                   name := stored; decompressedSize := 0 |}).
  set (kept := {| typeCode := code; compressedSize := Z.of_nat (List.length data);
                  name := kept_name stored; decompressedSize := 0 |}).
  assert (Hwritten : written cmpLZW cmpRLE file (entry, data)).
  { exists data. cbn [fst snd]. split; [exact Hget|]. split; [exact Hsize|].
    split; [symmetry; apply surjective_pairing|]. split; [reflexivity|]. left. auto. }
  assert (Hsame : container [(entry, data)] = container [(kept, data)]).
  { cbn [container]. unfold encode_record, entry, kept.
    cbn [typeCode compressedSize name decompressedSize].
    now rewrite (string_reqTerm_encode_kept stored Hstored). }
  assert (Hlaid : Forall well_laid [(kept, data)]).
  { constructor; [|constructor]. unfold well_laid, fits_record, kept. cbn [fst snd].
    cbn [typeCode compressedSize name decompressedSize].
    split; [|reflexivity].
    split; [exact Hcode|]. split; [lia|]. split; [lia|].
    split; [rewrite length_kept_name; lia | exact (kept_name_no_nul stored Hstored)]. }
  destruct (parse_container cmpLZW cmpRLE [(kept, data)] Hlaid) as [Hparse Hraw].
  exists (container [(entry, data)]),
    (make_file cmpLZW cmpRLE (container [(kept, data)]) FATENTRY_LEN kept).
  split.
  { apply generate_written. exists [(entry, data)]. split; [|reflexivity].
    constructor; [exact Hwritten | constructor]. }
  rewrite Hsame. split; [exact Hparse|].
  change (firstn MAX_FILES [(kept, data)]) with [(kept, data)] in Hraw.
  cbn [container_files] in Hraw.
  apply Forall2_cons_iff in Hraw. destruct Hraw as [[Hhead _] _]. cbn [snd] in Hhead.
  rewrite (body_read_some data) in Hhead by lia.
  split.
  - destruct (make_file_name_type cmpLZW cmpRLE (container [(kept, data)]) FATENTRY_LEN kept)
      as [Hname _].
    rewrite Hname. unfold read_name.
    rewrite (surjective_pairing (entry_type_and_name (Archive.name (Archive.fields file)))).
    reflexivity.
  - exact (proj1 (proj2 (make_file_stored cmpLZW cmpRLE _ _ kept data eq_refl Hhead))).
Qed.

End NamesWritten.

(** X14. The name of a file across [generate] and [parse], through the
    bytes of the archive: for a file stored as it is, with a content that
    is not empty and a name of characters 0x20..0x7e, [generate] writes
    an archive that [parse] reads back into one file with the same
    content, named with the first 30 characters of the stored name
    followed by the extension of the type code. So a name of 30 characters
    at most comes back the same when its last four characters are in lower
    case already or are no extension of the table; an extension of the
    table written with a capital comes back in lower case; and a stored
    name of more than 30 characters comes back cut. *)
Theorem name_survives_generate_then_parse :
  forall (cmpLZW cmpRLE : GameCompression.Handler) (file : Archive.File) (data : list byte),
    Archive.compressed (Archive.attributes (Archive.fields file)) = Some false ->
    Archive.call_getContent file = Ok data ->
    Archive.nativeSize (Archive.fields file) = Some (Z.of_nat (List.length data)) ->
    0 < Z.of_nat (List.length data) < 65536 ->
    ascii_name (Archive.name (Archive.fields file)) ->
    let file_name := Archive.name (Archive.fields file) in
    exists out file',
      Archive_DAT_FAST.generate cmpLZW cmpRLE {| Archive.files := [file] |} = Ok out
      /\ Archive_DAT_FAST.parse cmpLZW cmpRLE out = Ok {| Archive.files := [file'] |}
      /\ Archive.call_getContent file' = Ok data
      /\ Archive.name (Archive.fields file') = read_name file_name
      /\ ((String.length file_name <= 30)%nat ->
          toLowerCase (substr_last 4 file_name) = substr_last 4 file_name ->
          Archive.name (Archive.fields file') = file_name)
      /\ ((String.length file_name <= 30)%nat ->
          (forall code ext ty,
              In (code, (ext, ty)) Archive_DAT_FAST.FASTTypes -> ext <> "" ->
              toLowerCase (substr_last 4 file_name) <> ext) ->
          Archive.name (Archive.fields file') = file_name)
      /\ (forall code ext ty,
            In (code, (ext, ty)) Archive_DAT_FAST.FASTTypes -> ext <> "" ->
            toLowerCase (substr_last 4 file_name) = ext ->
            substr_last 4 file_name <> ext ->
            Archive.name (Archive.fields file') <> file_name)
      /\ ((30 < String.length (snd (Archive_DAT_FAST.entry_type_and_name file_name)))%nat ->
          (String.length (Archive.name (Archive.fields file')) < String.length file_name)%nat).
Proof.
  intros cmpLZW cmpRLE file data Hcomp Hget Hsize Hlen Hascii file_name.
  pose proof (ascii_name_no_nul _ Hascii) as Hno.
  destruct (generate_then_parse_name cmpLZW cmpRLE file data Hcomp Hget Hsize Hlen Hno)
    as (out & file' & Hgen & Hparse & Hname & Hcontent).
  exists out, file'. fold file_name in Hname, Hno.
  split; [exact Hgen|]. split; [exact Hparse|]. split; [exact Hcontent|].
  split; [exact Hname|]. rewrite Hname.
  split; [|split; [|split]].
  - intros Hshort Hlow. rewrite (read_name_short file_name Hshort Hno).
    destruct (restored_name_cases file_name)
      as [H|(code & ext & ty & _ & _ & Heq & ->)]; [exact H|].
    rewrite <- Heq, Hlow. apply substr_first_last.
  - intros Hshort Hnone. rewrite (read_name_short file_name Hshort Hno).
    destruct (restored_name_cases file_name)
      as [H|(code & ext & ty & Hin & Hext & Heq & _)]; [exact H|].
    exfalso. exact (Hnone code ext ty Hin Hext Heq).
  - intros code ext ty Hin Hext Hlow Hcap.
    exact (read_name_capital file_name code ext ty Hin Hext Hlow Hcap).
  - exact (read_name_long file_name).
Qed.

Lemma name_survives_generate_then_parse_witness :
  (exists out file',
     Archive_DAT_FAST.generate sample_lzw sample_rle
       {| Archive.files := [sample_capital_file] |} = Ok out
     /\ Archive_DAT_FAST.parse sample_lzw sample_rle out = Ok {| Archive.files := [file'] |}
     /\ Archive.call_getContent file' = Ok [x01; x02; x03]
     /\ Archive.name (Archive.fields file') = "Level1.mbg")
  /\ (exists out file',
        Archive_DAT_FAST.generate sample_lzw sample_rle
          {| Archive.files := [sample_long_named_file] |} = Ok out
        /\ Archive_DAT_FAST.parse sample_lzw sample_rle out = Ok {| Archive.files := [file'] |}
        /\ Archive.name (Archive.fields file') = "THE-QUICK-BROWN-FOX-JUMPS-OVER").
Proof.
  split.
  - destruct (name_survives_generate_then_parse sample_lzw sample_rle sample_capital_file
                [x01; x02; x03])
      as (out & file' & Hgen & Hparse & Hcontent & Hname & _).
    + reflexivity.
    + reflexivity.
    + reflexivity.
    + cbn. lia.
    + intros c Hin; cbn in Hin; unfold printable_ascii;
        decompose [or] Hin; subst; try contradiction; vm_compute; split; discriminate.
    + exists out, file'. auto.
  - destruct (name_survives_generate_then_parse sample_lzw sample_rle sample_long_named_file
                [x01])
      as (out & file' & Hgen & Hparse & _ & Hname & _).
    + reflexivity.
    + reflexivity.
    + reflexivity.
    + cbn. lia.
    + intros c Hin; cbn in Hin; unfold printable_ascii;
        decompose [or] Hin; subst; try contradiction; vm_compute; split; discriminate.
    + exists out, file'. auto.
Defined.
